(** * Topic and partition state of the producer client (rdkafka_topic.c)

    A shallow embedding of [src/rdkafka_topic.c].  Heap objects (topics,
    partitions, brokers) live in typed stores indexed by address, so that
    pointer identity, aliasing, reference counts and dangling pointers are
    all visible.  Every C function becomes a computation in a small
    state-and-crash monad: it either returns a value and a new store or
    stops the process (failed [assert], NULL or dangling dereference). *)

From stdpp Require Import gmap strings list fin_maps.
From Stdlib Require Import ZArith Lia.

Open Scope Z_scope.

(** ** Data model *)

(** Addresses of heap objects.  A pointer is an [option addr]; [None] is NULL. *)
Abbreviation addr := positive (only parsing).

(** Identifier of a partitioner callback (a C function pointer). *)
Abbreviation fn_id := nat (only parsing).

(** Modelled from the spec: the message record of rdkafka_msg.h, which is not
    part of the sources at hand.  A message carries its payload and the
    payload length that the queue's byte counter sums. *)
Record rd_kafka_msg_t := mk_msg {
  rkm_payload : string;
  rkm_len : Z
}.

(** Modelled from the spec: the message queue of rdkafka_msg.h (section 3,
    "ordered sequence of message records with two aggregate counters").  The
    widths of the counters are not given; they are unbounded here. *)
Record rd_kafka_msgq_t := mk_msgq {
  rkmq_msgs : list rd_kafka_msg_t;
  rkmq_msg_cnt : Z;
  rkmq_msg_bytes : Z
}.

#[global] Instance rd_kafka_msg_eq_dec : EqDecision rd_kafka_msg_t.
Proof. solve_decision. Defined.

#[global] Instance rd_kafka_msgq_eq_dec : EqDecision rd_kafka_msgq_t.
Proof. solve_decision. Defined.

Inductive rd_kafka_toppar_fetch_state :=
  | RD_KAFKA_TOPPAR_FETCH_NONE
  | RD_KAFKA_TOPPAR_FETCH_ACTIVE.

(** [rd_kafka_toppar_t].  [rktp_fetchq] and [rktp_lock] carry no data that the
    functions of this file read and are left out. *)
Record rd_kafka_toppar_t := mk_toppar {
  rktp_partition : Z;
  rktp_rkt : addr;
  rktp_leader : option addr;
  rktp_refcnt : Z;
  rktp_msgq : rd_kafka_msgq_t;
  rktp_xmit_msgq : rd_kafka_msgq_t;
  rktp_flags : Z;
  rktp_fetch_state : rd_kafka_toppar_fetch_state
}.

Record rd_kafka_topic_conf_t := mk_conf {
  partitioner : option fn_id;
  message_timeout_ms : Z;
  request_timeout_ms : Z
}.

(** [rd_kafka_topic_t].  [rkt_p] is the array of partition pointers (a NULL
    array is the empty list), [rkt_desp] the tail queue of desired partitions.
    The back pointer [rkt_rk] is implicit: the store holds one client. *)
Record rd_kafka_topic_t := mk_topic {
  rkt_topic : string;
  rkt_conf : rd_kafka_topic_conf_t;
  rkt_p : list (option addr);
  rkt_partition_cnt : Z;
  rkt_ua : option addr;
  rkt_desp : list addr;
  rkt_refcnt : Z
}.

(** Modelled from the spec: the broker object of rdkafka_broker.h (section 6),
    reduced to what this file touches. *)
Record rd_kafka_broker_t := mk_broker {
  rkb_nodeid : Z;
  rkb_name : string;
  rkb_toppars : list addr;
  rkb_toppar_cnt : Z;
  rkb_refcnt : Z
}.

(** The client handle [rd_kafka_t]: the topic registry, the broker list, and
    the log of asynchronous leader queries handed to the metadata path. *)
Record rd_kafka_t := mk_rk {
  rk_topics : list addr;
  rk_topic_cnt : Z;
  rk_brokers : list addr;
  rk_refcnt : Z;
  rk_leader_queries : list addr
}.

(** The store: the client handle, one heap per object type, and [errno]. *)
Record state := mk_state {
  st_rk : rd_kafka_t;
  topics : gmap positive rd_kafka_topic_t;
  toppars : gmap positive rd_kafka_toppar_t;
  brokers : gmap positive rd_kafka_broker_t;
  st_errno : Z
}.

(** *** Constants of the absent headers *)

(** Modelled from the spec: the sentinel partition id of the unassigned slot
    (section 3), which is never a valid index; rdkafka.h gives it as -1. *)
Definition RD_KAFKA_PARTITION_UA : Z := -1.

(** Modelled from the spec: the two partition flags (section 3, "bitset over
    DESIRED, UNKNOWN"), one bit each. *)
Definition RD_KAFKA_TOPPAR_F_DESIRED : Z := 1.
Definition RD_KAFKA_TOPPAR_F_UNKNOWN : Z := 2.

Definition EINVAL : Z := 22.

(** *** Field updates *)

Definition set_rktp_refcnt (v : Z) (p : rd_kafka_toppar_t) : rd_kafka_toppar_t :=
  mk_toppar (rktp_partition p) (rktp_rkt p) (rktp_leader p) v
            (rktp_msgq p) (rktp_xmit_msgq p) (rktp_flags p) (rktp_fetch_state p).

Definition set_rktp_flags (v : Z) (p : rd_kafka_toppar_t) : rd_kafka_toppar_t :=
  mk_toppar (rktp_partition p) (rktp_rkt p) (rktp_leader p) (rktp_refcnt p)
            (rktp_msgq p) (rktp_xmit_msgq p) v (rktp_fetch_state p).

Definition set_rktp_leader (v : option addr) (p : rd_kafka_toppar_t) : rd_kafka_toppar_t :=
  mk_toppar (rktp_partition p) (rktp_rkt p) v (rktp_refcnt p)
            (rktp_msgq p) (rktp_xmit_msgq p) (rktp_flags p) (rktp_fetch_state p).

Definition set_rktp_msgq (v : rd_kafka_msgq_t) (p : rd_kafka_toppar_t) : rd_kafka_toppar_t :=
  mk_toppar (rktp_partition p) (rktp_rkt p) (rktp_leader p) (rktp_refcnt p)
            v (rktp_xmit_msgq p) (rktp_flags p) (rktp_fetch_state p).

Definition set_rkt_refcnt (v : Z) (t : rd_kafka_topic_t) : rd_kafka_topic_t :=
  mk_topic (rkt_topic t) (rkt_conf t) (rkt_p t) (rkt_partition_cnt t)
           (rkt_ua t) (rkt_desp t) v.

Definition set_rkt_desp (v : list addr) (t : rd_kafka_topic_t) : rd_kafka_topic_t :=
  mk_topic (rkt_topic t) (rkt_conf t) (rkt_p t) (rkt_partition_cnt t)
           (rkt_ua t) v (rkt_refcnt t).

Definition set_rkt_ua (v : option addr) (t : rd_kafka_topic_t) : rd_kafka_topic_t :=
  mk_topic (rkt_topic t) (rkt_conf t) (rkt_p t) (rkt_partition_cnt t)
           v (rkt_desp t) (rkt_refcnt t).

Definition set_rkt_parts (p : list (option addr)) (cnt : Z) (t : rd_kafka_topic_t)
  : rd_kafka_topic_t :=
  mk_topic (rkt_topic t) (rkt_conf t) p cnt (rkt_ua t) (rkt_desp t) (rkt_refcnt t).

Definition set_rkb_toppars (l : list addr) (cnt : Z) (b : rd_kafka_broker_t)
  : rd_kafka_broker_t :=
  mk_broker (rkb_nodeid b) (rkb_name b) l cnt (rkb_refcnt b).

Definition set_rkb_refcnt (v : Z) (b : rd_kafka_broker_t) : rd_kafka_broker_t :=
  mk_broker (rkb_nodeid b) (rkb_name b) (rkb_toppars b) (rkb_toppar_cnt b) v.

Definition set_st_rk (r : rd_kafka_t) (s : state) : state :=
  mk_state r (topics s) (toppars s) (brokers s) (st_errno s).

Definition set_topics (m : gmap positive rd_kafka_topic_t) (s : state) : state :=
  mk_state (st_rk s) m (toppars s) (brokers s) (st_errno s).

Definition set_toppars (m : gmap positive rd_kafka_toppar_t) (s : state) : state :=
  mk_state (st_rk s) (topics s) m (brokers s) (st_errno s).

Definition set_brokers (m : gmap positive rd_kafka_broker_t) (s : state) : state :=
  mk_state (st_rk s) (topics s) (toppars s) m (st_errno s).

Definition set_st_errno (e : Z) (s : state) : state :=
  mk_state (st_rk s) (topics s) (toppars s) (brokers s) e.

(** ** The monad of C computations *)

Inductive crash :=
  | NullDeref      (* a NULL pointer is dereferenced *)
  | BadPointer     (* a dangling or out-of-bounds pointer is dereferenced *)
  | AssertFailed.  (* an assert() does not hold: abort() *)

Inductive outcome (A : Type) :=
  | Done (a : A) (s : state)
  | Crashed (c : crash).
Arguments Done {A} a s.
Arguments Crashed {A} c.

Definition M (A : Type) : Type := state -> outcome A.

Definition ret {A} (a : A) : M A := fun s => Done a s.

Definition bind {A B} (m : M A) (k : A -> M B) : M B :=
  fun s => match m s with
           | Done a s' => k a s'
           | Crashed c => Crashed c
           end.

Notation "'let*' x ':=' m 'in' k" := (bind m (fun x => k))
  (at level 10, x name, m at level 100, k at level 200).
Notation "m1 ;; m2" := (bind m1 (fun _ => m2))
  (at level 100, m2 at level 200, right associativity).

Definition crash_with {A} (c : crash) : M A := fun _ => Crashed c.

Definition assert (b : bool) : M unit :=
  if b then ret tt else crash_with AssertFailed.

Definition get_rk : M rd_kafka_t := fun s => Done (st_rk s) s.
Definition put_rk (r : rd_kafka_t) : M unit := fun s => Done tt (set_st_rk r s).

Definition put_errno (e : Z) : M unit := fun s => Done tt (set_st_errno e s).

Definition load_topic (t : addr) : M rd_kafka_topic_t :=
  fun s => match topics s !! t with
           | Some rkt => Done rkt s
           | None => Crashed BadPointer
           end.
Definition store_topic (t : addr) (rkt : rd_kafka_topic_t) : M unit :=
  fun s => Done tt (set_topics (<[t := rkt]> (topics s)) s).
Definition alloc_topic (rkt : rd_kafka_topic_t) : M addr :=
  fun s => let t := fresh (dom (topics s)) in
           Done t (set_topics (<[t := rkt]> (topics s)) s).
Definition free_topic (t : addr) : M unit :=
  fun s => Done tt (set_topics (delete t (topics s)) s).

Definition load_toppar (a : addr) : M rd_kafka_toppar_t :=
  fun s => match toppars s !! a with
           | Some p => Done p s
           | None => Crashed BadPointer
           end.
Definition store_toppar (a : addr) (p : rd_kafka_toppar_t) : M unit :=
  fun s => Done tt (set_toppars (<[a := p]> (toppars s)) s).
Definition alloc_toppar (p : rd_kafka_toppar_t) : M addr :=
  fun s => let a := fresh (dom (toppars s)) in
           Done a (set_toppars (<[a := p]> (toppars s)) s).
Definition free_toppar (a : addr) : M unit :=
  fun s => Done tt (set_toppars (delete a (toppars s)) s).

Definition load_broker (b : addr) : M rd_kafka_broker_t :=
  fun s => match brokers s !! b with
           | Some rkb => Done rkb s
           | None => Crashed BadPointer
           end.
Definition store_broker (b : addr) (rkb : rd_kafka_broker_t) : M unit :=
  fun s => Done tt (set_brokers (<[b := rkb]> (brokers s)) s).

(** [TAILQ_REMOVE]: unlink one element.  An element of an intrusive list is
    linked at most once, so unlinking removes its first occurrence. *)
Fixpoint TAILQ_REMOVE (a : addr) (l : list addr) : list addr :=
  match l with
  | [] => []
  | x :: l' => if decide (x = a) then l' else x :: TAILQ_REMOVE a l'
  end.

(** [TAILQ_INSERT_TAIL]. *)
Definition TAILQ_INSERT_TAIL {A} (l : list A) (a : A) : list A := l ++ [a].

(** ** Message queues *)

(** Modelled from the spec: the queue operations of rdkafka_msg.h (sections 3
    and 4.1).  Each takes the queues it works on and returns them updated. *)

Definition rd_kafka_msgq_init : rd_kafka_msgq_t := mk_msgq [] 0 0.

(** Splice-concat: all of [src] is appended to [dst], the counters of [src]
    are added to those of [dst], and [src] is left empty. *)
Definition rd_kafka_msgq_concat (dst src : rd_kafka_msgq_t)
  : rd_kafka_msgq_t * rd_kafka_msgq_t :=
  (mk_msgq (rkmq_msgs dst ++ rkmq_msgs src)
           (rkmq_msg_cnt dst + rkmq_msg_cnt src)
           (rkmq_msg_bytes dst + rkmq_msg_bytes src),
   rd_kafka_msgq_init).

(** Move-assign: [dst] takes the contents of [src], which is left empty. *)
Definition rd_kafka_msgq_move (dst src : rd_kafka_msgq_t)
  : rd_kafka_msgq_t * rd_kafka_msgq_t :=
  (src, rd_kafka_msgq_init).

(** Append-tail. *)
Definition rd_kafka_msgq_enq (q : rd_kafka_msgq_t) (rkm : rd_kafka_msg_t)
  : rd_kafka_msgq_t :=
  mk_msgq (rkmq_msgs q ++ [rkm]) (rkmq_msg_cnt q + 1) (rkmq_msg_bytes q + rkm_len rkm).

(** Insert-head. *)
Definition rd_kafka_msgq_insert (q : rd_kafka_msgq_t) (rkm : rd_kafka_msg_t)
  : rd_kafka_msgq_t :=
  mk_msgq (rkm :: rkmq_msgs q) (rkmq_msg_cnt q + 1) (rkmq_msg_bytes q + rkm_len rkm).

(** Purge: every message is released and the queue is left empty. *)
Definition rd_kafka_msgq_purge (q : rd_kafka_msgq_t) : rd_kafka_msgq_t :=
  rd_kafka_msgq_init.

(** A queue whose counters agree with its contents. *)
Definition msgq_wf (q : rd_kafka_msgq_t) : Prop :=
  rkmq_msg_cnt q = Z.of_nat (length (rkmq_msgs q)) /\
  rkmq_msg_bytes q = foldr (fun m acc => rkm_len m + acc) 0 (rkmq_msgs q).

(** ** Reference counts and object lifetime *)

(** [rd_kafka_toppar_keep]: [rd_atomic_add(&rktp->rktp_refcnt, 1)]. *)
Definition rd_kafka_toppar_keep (rktp : addr) : M unit :=
  let* p := load_toppar rktp in
  store_toppar rktp (set_rktp_refcnt (rktp_refcnt p + 1) p).

(** [rd_kafka_topic_keep]. *)
Definition rd_kafka_topic_keep (rkt : addr) : M unit :=
  let* t := load_topic rkt in
  store_topic rkt (set_rkt_refcnt (rkt_refcnt t + 1) t).

(** Modelled from the spec: [rd_kafka_broker_keep] and
    [rd_kafka_broker_destroy] of rdkafka_broker.h move the broker's reference
    count; what happens to a broker at count zero is the business of
    rdkafka_broker.c and is not part of this model. *)
Definition rd_kafka_broker_keep (rkb : addr) : M unit :=
  let* b := load_broker rkb in
  store_broker rkb (set_rkb_refcnt (rkb_refcnt b + 1) b).

Definition rd_kafka_broker_destroy (rkb : addr) : M unit :=
  let* b := load_broker rkb in
  store_broker rkb (set_rkb_refcnt (rkb_refcnt b - 1) b).

(** Modelled from the spec: [rd_kafka_destroy0] of rdkafka.c gives back one
    reference on the client handle. *)
Definition rd_kafka_destroy0 : M unit :=
  let* rk := get_rk in
  put_rk (mk_rk (rk_topics rk) (rk_topic_cnt rk) (rk_brokers rk)
                (rk_refcnt rk - 1) (rk_leader_queries rk)).

(** Modelled from the spec: [rd_kafka_keep] of rdkafka.h. *)
Definition rd_kafka_keep : M unit :=
  let* rk := get_rk in
  put_rk (mk_rk (rk_topics rk) (rk_topic_cnt rk) (rk_brokers rk)
                (rk_refcnt rk + 1) (rk_leader_queries rk)).

(** [rd_kafka_topic_destroy0]: drop one reference; at zero unlink the topic
    from the registry, release the client reference and free the topic. *)
Definition rd_kafka_topic_destroy0 (rkt : addr) : M unit :=
  let* t := load_topic rkt in
  let n := rkt_refcnt t - 1 in
  store_topic rkt (set_rkt_refcnt n t) ;;
  if 0 <? n then ret tt
  else
    assert (n =? 0) ;;
    let* rk := get_rk in
    put_rk (mk_rk (TAILQ_REMOVE rkt (rk_topics rk)) (rk_topic_cnt rk)
                  (rk_brokers rk) (rk_refcnt rk) (rk_leader_queries rk)) ;;
    rd_kafka_destroy0 ;;
    free_topic rkt.

Definition rd_kafka_topic_destroy (rkt : addr) : M unit :=
  rd_kafka_topic_destroy0 rkt.

(** [rd_kafka_toppar_destroy0]. *)
Definition rd_kafka_toppar_destroy0 (rktp : addr) : M unit :=
  let* p := load_toppar rktp in
  rd_kafka_topic_destroy (rktp_rkt p) ;;
  free_toppar rktp.

(** Modelled from the spec: the [rd_kafka_toppar_destroy] macro of
    rdkafka_topic.h ("release to zero runs the destructor"). *)
Definition rd_kafka_toppar_destroy (rktp : addr) : M unit :=
  let* p := load_toppar rktp in
  let n := rktp_refcnt p - 1 in
  store_toppar rktp (set_rktp_refcnt n p) ;;
  if n =? 0 then rd_kafka_toppar_destroy0 rktp else ret tt.

(** ** Partitions *)

(** [rd_kafka_toppar_new]: [calloc] zeroes every field. *)
Definition rd_kafka_toppar_new (rkt : addr) (partition : Z) : M addr :=
  let* rktp := alloc_toppar
                 (mk_toppar partition rkt None 0 rd_kafka_msgq_init
                            rd_kafka_msgq_init 0 RD_KAFKA_TOPPAR_FETCH_NONE) in
  rd_kafka_toppar_keep rktp ;;
  rd_kafka_topic_keep rkt ;;
  ret rktp.

(** The tail of [rd_kafka_toppar_get]: [if (rktp) rd_kafka_toppar_keep(rktp);
    return rktp;]. *)
Definition keep_if_set (rktp : option addr) : M (option addr) :=
  match rktp with
  | Some a => rd_kafka_toppar_keep a ;; ret (Some a)
  | None => ret None
  end.

(** [rd_kafka_toppar_get]. *)
Definition rd_kafka_toppar_get (rkt : addr) (partition : Z) (ua_on_miss : Z)
  : M (option addr) :=
  let* t := load_topic rkt in
  if (0 <=? partition) && (partition <? rkt_partition_cnt t) then
    match rkt_p t !! Z.to_nat partition with
    | Some rktp => keep_if_set rktp
    | None => crash_with BadPointer
    end
  else if negb (ua_on_miss =? 0) then keep_if_set (rkt_ua t)
  else ret None.

(** The [TAILQ_FOREACH] of [rd_kafka_toppar_desired_get]. *)
Fixpoint desired_scan (l : list addr) (partition : Z) : M (option addr) :=
  match l with
  | [] => ret None
  | rktp :: l' =>
      let* p := load_toppar rktp in
      if rktp_partition p =? partition
      then rd_kafka_toppar_keep rktp ;; ret (Some rktp)
      else desired_scan l' partition
  end.

(** [rd_kafka_toppar_desired_get]. *)
Definition rd_kafka_toppar_desired_get (rkt : addr) (partition : Z)
  : M (option addr) :=
  let* t := load_topic rkt in
  desired_scan (rkt_desp t) partition.

(** [rd_kafka_toppar_desired_add]. *)
Definition rd_kafka_toppar_desired_add (rkt : addr) (partition : Z) : M addr :=
  let* r := rd_kafka_toppar_get rkt partition 0 in
  match r with
  | Some rktp =>
      let* p := load_toppar rktp in
      store_toppar rktp
        (set_rktp_flags (Z.lor (rktp_flags p) RD_KAFKA_TOPPAR_F_DESIRED) p) ;;
      ret rktp
  | None =>
      let* r := rd_kafka_toppar_desired_get rkt partition in
      match r with
      | Some rktp => ret rktp
      | None =>
          let* rktp := rd_kafka_toppar_new rkt partition in
          let* p := load_toppar rktp in
          store_toppar rktp
            (set_rktp_flags
               (Z.lor (rktp_flags p)
                      (Z.lor RD_KAFKA_TOPPAR_F_DESIRED RD_KAFKA_TOPPAR_F_UNKNOWN)) p) ;;
          let* t := load_topic rkt in
          store_topic rkt (set_rkt_desp (TAILQ_INSERT_TAIL (rkt_desp t) rktp) t) ;;
          ret rktp
      end
  end.

(** [rd_kafka_toppar_desired_del]. *)
Definition rd_kafka_toppar_desired_del (rktp : addr) : M unit :=
  let* p := load_toppar rktp in
  if Z.land (rktp_flags p) RD_KAFKA_TOPPAR_F_DESIRED =? 0 then ret tt
  else
    let f1 := Z.land (rktp_flags p) (Z.lnot RD_KAFKA_TOPPAR_F_DESIRED) in
    store_toppar rktp (set_rktp_flags f1 p) ;;
    (if negb (Z.land f1 RD_KAFKA_TOPPAR_F_UNKNOWN =? 0) then
       let* p := load_toppar rktp in
       store_toppar rktp
         (set_rktp_flags (Z.land (rktp_flags p) (Z.lnot RD_KAFKA_TOPPAR_F_UNKNOWN)) p) ;;
       let* t := load_topic (rktp_rkt p) in
       store_topic (rktp_rkt p) (set_rkt_desp (TAILQ_REMOVE rktp (rkt_desp t)) t)
     else ret tt) ;;
    rd_kafka_toppar_destroy rktp.

(** [rd_kafka_toppar_move_msgs]. *)
Definition rd_kafka_toppar_move_msgs (dst src : addr) : M unit :=
  rd_kafka_toppar_keep src ;;
  let* d := load_toppar dst in
  let* s := load_toppar src in
  let q := rd_kafka_msgq_concat (rktp_msgq d) (rktp_msgq s) in
  store_toppar dst (set_rktp_msgq (fst q) d) ;;
  let* s := load_toppar src in
  store_toppar src (set_rktp_msgq (snd q) s) ;;
  rd_kafka_toppar_destroy src.

(** [rd_kafka_toppar_insert_msg]. *)
Definition rd_kafka_toppar_insert_msg (rktp : addr) (rkm : rd_kafka_msg_t) : M unit :=
  let* p := load_toppar rktp in
  store_toppar rktp (set_rktp_msgq (rd_kafka_msgq_insert (rktp_msgq p) rkm) p).

(** [rd_kafka_toppar_enq_msg]. *)
Definition rd_kafka_toppar_enq_msg (rktp : addr) (rkm : rd_kafka_msg_t) : M unit :=
  let* p := load_toppar rktp in
  store_toppar rktp (set_rktp_msgq (rd_kafka_msgq_enq (rktp_msgq p) rkm) p).

(** [rd_kafka_toppar_insert_msgq]: the caller's queue [rkmq] comes back empty. *)
Definition rd_kafka_toppar_insert_msgq (rktp : addr) (rkmq : rd_kafka_msgq_t)
  : M rd_kafka_msgq_t :=
  let* p := load_toppar rktp in
  let c := rd_kafka_msgq_concat rkmq (rktp_msgq p) in
  let m := rd_kafka_msgq_move (snd c) (fst c) in
  store_toppar rktp (set_rktp_msgq (fst m) p) ;;
  ret (snd m).

(** ** Topics *)

(** Modelled from the spec: [rd_kafkap_str_cmp_str] and [rd_kafkap_str_cmp]
    of rdkafka_proto.h compare a topic name with a string and give 0 exactly
    when the two are equal. *)
Definition rd_kafkap_str_cmp_str (a b : string) : Z :=
  if String.eqb a b then 0 else 1.

(** The [TAILQ_FOREACH] of [rd_kafka_topic_find]. *)
Fixpoint topic_scan (l : list addr) (topic : string) : M (option addr) :=
  match l with
  | [] => ret None
  | rkt :: l' =>
      let* t := load_topic rkt in
      if rd_kafkap_str_cmp_str (rkt_topic t) topic =? 0
      then rd_kafka_topic_keep rkt ;; ret (Some rkt)
      else topic_scan l' topic
  end.

(** [rd_kafka_topic_find]. *)
Definition rd_kafka_topic_find (topic : string) : M (option addr) :=
  let* rk := get_rk in
  topic_scan (rk_topics rk) topic.

(** [rd_kafka_topic_find0]: the same scan, on a protocol string. *)
Definition rd_kafka_topic_find0 (topic : string) : M (option addr) :=
  let* rk := get_rk in
  topic_scan (rk_topics rk) topic.

(** [rd_kafka_toppar_get2]. *)
Definition rd_kafka_toppar_get2 (topic : string) (partition : Z) (ua_on_miss : Z)
  : M (option addr) :=
  let* r := rd_kafka_topic_find0 topic in
  match r with
  | None => ret None
  | Some rkt => rd_kafka_toppar_get rkt partition ua_on_miss
  end.

(** Four calls of this file, [rd_kafka_toppar_get(rkt, RD_KAFKA_PARTITION_UA)]
    in [rd_kafka_toppar_ua_move], [rd_kafka_topic_partitions_remove] and
    [rd_kafka_topic_assign_uas], and [rd_kafka_toppar_get(rkt, i)] in the loop
    of [rd_kafka_topic_partitions_remove], pass two arguments to a function
    of three.  The source does not say what [ua_on_miss] is at these calls:
    each function that makes one takes the value as an argument [ua_on_miss],
    one for each call it makes, and what is proved of it is proved for every
    value. *)

(** [rd_kafka_toppar_ua_move]; the caller's queue comes back with the result. *)
Definition rd_kafka_toppar_ua_move (ua_on_miss : Z) (rkt : addr) (rkmq : rd_kafka_msgq_t)
  : M (Z * rd_kafka_msgq_t) :=
  let* r := rd_kafka_toppar_get rkt RD_KAFKA_PARTITION_UA ua_on_miss in
  match r with
  | None => ret (-1, rkmq)
  | Some rktp_ua =>
      let* p := load_toppar rktp_ua in
      let c := rd_kafka_msgq_concat (rktp_msgq p) rkmq in
      store_toppar rktp_ua (set_rktp_msgq (fst c) p) ;;
      rd_kafka_toppar_destroy rktp_ua ;;
      ret (0, snd c)
  end.

(** Modelled from the spec: [rd_kafka_topic_leader_query] of rdkafka_broker.c
    "fires an async metadata refresh"; the request is logged on the handle. *)
Definition rd_kafka_topic_leader_query (rkt : addr) : M unit :=
  let* rk := get_rk in
  put_rk (mk_rk (rk_topics rk) (rk_topic_cnt rk) (rk_brokers rk) (rk_refcnt rk)
                (rk_leader_queries rk ++ [rkt])).

(** Modelled from the spec: [rd_kafka_broker_find_by_nodeid] of
    rdkafka_broker.c, "find_by_node_id(client, id) -> maybe(Broker)"; the
    broker comes back with one more reference ("refcnt from find"). *)
Fixpoint broker_scan (l : list addr) (nodeid : Z) : M (option addr) :=
  match l with
  | [] => ret None
  | rkb :: l' =>
      let* b := load_broker rkb in
      if rkb_nodeid b =? nodeid
      then rd_kafka_broker_keep rkb ;; ret (Some rkb)
      else broker_scan l' nodeid
  end.

Definition rd_kafka_broker_find_by_nodeid (nodeid : Z) : M (option addr) :=
  let* rk := get_rk in
  broker_scan (rk_brokers rk) nodeid.

(** [rd_kafka_toppar_broker_delegate]. *)
Definition rd_kafka_toppar_broker_delegate (rktp : addr) (rkb : option addr)
  : M unit :=
  let* p := load_toppar rktp in
  if decide (rktp_leader p = rkb) then ret tt
  else
    rd_kafka_toppar_keep rktp ;;
    let* p := load_toppar rktp in
    match rktp_leader p with
    | Some old_rkb =>
        let* b := load_broker old_rkb in
        store_broker old_rkb
          (set_rkb_toppars (TAILQ_REMOVE rktp (rkb_toppars b))
                           (rkb_toppar_cnt b - 1) b) ;;
        let* p := load_toppar rktp in
        store_toppar rktp (set_rktp_leader None p) ;;
        rd_kafka_toppar_destroy rktp ;;
        rd_kafka_broker_destroy old_rkb
    | None => ret tt
    end ;;
    match rkb with
    | Some new_rkb =>
        rd_kafka_toppar_keep rktp ;;
        let* b := load_broker new_rkb in
        store_broker new_rkb
          (set_rkb_toppars (TAILQ_INSERT_TAIL (rkb_toppars b) rktp)
                           (rkb_toppar_cnt b + 1) b) ;;
        let* p := load_toppar rktp in
        store_toppar rktp (set_rktp_leader (Some new_rkb) p) ;;
        rd_kafka_broker_keep new_rkb
    | None => ret tt
    end ;;
    rd_kafka_toppar_destroy rktp.

(** [rd_kafka_topic_update]. *)
Definition rd_kafka_topic_update (topic : string) (partition leader : Z) : M unit :=
  let* r := rd_kafka_topic_find topic in
  match r with
  | None => ret tt
  | Some rkt =>
      let* rkb := rd_kafka_broker_find_by_nodeid leader in
      let* r := rd_kafka_toppar_get rkt partition 0 in
      assert (bool_decide (is_Some r)) ;;
      match r with
      | None => crash_with NullDeref
      | Some rktp =>
          if leader =? -1 then
            rd_kafka_toppar_broker_delegate rktp None ;;
            rd_kafka_topic_leader_query rkt ;;
            rd_kafka_toppar_destroy rktp ;;
            rd_kafka_topic_destroy rkt
          else
            match rkb with
            | None =>
                rd_kafka_toppar_broker_delegate rktp None ;;
                rd_kafka_topic_leader_query rkt ;;
                rd_kafka_toppar_destroy rktp ;;
                rd_kafka_topic_destroy rkt
            | Some b =>
                let* p := load_toppar rktp in
                if decide (rktp_leader p = Some b) then
                  rd_kafka_broker_destroy b ;;
                  rd_kafka_toppar_destroy rktp ;;
                  rd_kafka_topic_destroy rkt
                else
                  rd_kafka_toppar_broker_delegate rktp (Some b) ;;
                  rd_kafka_broker_destroy b ;;
                  rd_kafka_toppar_destroy rktp ;;
                  rd_kafka_topic_destroy rkt
            end
      end
  end.

(** ** Operations that call into the rest of the library *)

Section Callbacks.

(** What [rd_kafka_topic_conf_new] of rdkafka_defaultconf.c returns. *)
Variable rd_kafka_topic_conf_new : rd_kafka_topic_conf_t.

(** The function pointer [rd_kafka_msg_partitioner_random]. *)
Variable rd_kafka_msg_partitioner_random : fn_id.

(** Modelled from the spec: calling a partitioner callback.  Section 9 gives
    its interface as [partition_for(topic, key, msg) -> result<partition_id,
    Unavailable>]; the callback sees the topic through its name and its
    partition count. *)
Variable partition_for : fn_id -> string -> Z -> rd_kafka_msg_t -> option Z.

(** The failure return of [rd_kafka_topic_new]: [errno = EINVAL; return NULL]. *)
Definition topic_new_einval : M (option addr) :=
  put_errno EINVAL ;; ret None.

(** Dereferencing the [conf] argument. *)
Definition deref_conf (conf : option rd_kafka_topic_conf_t) : M rd_kafka_topic_conf_t :=
  match conf with
  | Some c => ret c
  | None => crash_with NullDeref
  end.

(** The part of [rd_kafka_topic_new] after the look-up has missed. *)
Definition topic_new_create (topic : string) (conf : option rd_kafka_topic_conf_t)
  : M (option addr) :=
  let* rkt := alloc_topic (mk_topic topic (mk_conf None 0 0) [] 0 None [] 0) in
  let conf' := match conf with
               | None => rd_kafka_topic_conf_new
               | Some c => c
               end in
  let conf' := match partitioner conf' with
               | None => mk_conf (Some rd_kafka_msg_partitioner_random)
                                 (message_timeout_ms conf') (request_timeout_ms conf')
               | Some _ => conf'
               end in
  let* t := load_topic rkt in
  store_topic rkt (mk_topic (rkt_topic t) conf' (rkt_p t) (rkt_partition_cnt t)
                            (rkt_ua t) [] (rkt_refcnt t)) ;;
  rd_kafka_topic_keep rkt ;;
  rd_kafka_keep ;;
  let* ua := rd_kafka_toppar_new rkt RD_KAFKA_PARTITION_UA in
  let* t := load_topic rkt in
  store_topic rkt (set_rkt_ua (Some ua) t) ;;
  let* rk := get_rk in
  put_rk (mk_rk (TAILQ_INSERT_TAIL (rk_topics rk) rkt) (rk_topic_cnt rk + 1)
                (rk_brokers rk) (rk_refcnt rk) (rk_leader_queries rk)) ;;
  rd_kafka_topic_leader_query rkt ;;
  ret (Some rkt).

(** [rd_kafka_topic_new].  [topic] and [conf] are pointers and may be NULL.
    The condition [!topic || conf->message_timeout_ms <= 0 || ...] is
    evaluated left to right and stops at the first operand that holds. *)
Definition rd_kafka_topic_new (topic : option string)
           (conf : option rd_kafka_topic_conf_t) : M (option addr) :=
  match topic with
  | None => topic_new_einval
  | Some name =>
      let* c := deref_conf conf in
      if (message_timeout_ms c <=? 0) || (request_timeout_ms c <=? 0)
      then topic_new_einval
      else
        let* r := rd_kafka_topic_find name in
        match r with
        | Some rkt => ret (Some rkt)
        | None => topic_new_create name conf
        end
  end.

(** [rd_kafka_topic_name]. *)
Definition rd_kafka_topic_name (rkt : addr) : M string :=
  let* t := load_topic rkt in ret (rkt_topic t).

(** One round of the first loop of [rd_kafka_topic_partition_cnt_update]:
    the pointer that goes into [rktps[i]]. *)
Definition cnt_update_slot (rkt : addr) (i : nat) : M (option addr) :=
  let* t := load_topic rkt in
  if rkt_partition_cnt t <=? Z.of_nat i then
    let* r := rd_kafka_toppar_desired_get rkt (Z.of_nat i) in
    match r with
    | Some rktp =>
        let* p := load_toppar rktp in
        store_toppar rktp
          (set_rktp_flags (Z.land (rktp_flags p) (Z.lnot RD_KAFKA_TOPPAR_F_UNKNOWN)) p) ;;
        let* t := load_topic rkt in
        store_topic rkt (set_rkt_desp (TAILQ_REMOVE rktp (rkt_desp t)) t) ;;
        ret (Some rktp)
    | None =>
        let* rktp := rd_kafka_toppar_new rkt (Z.of_nat i) in
        ret (Some rktp)
    end
  else
    match rkt_p t !! i with
    | Some rktp => ret rktp
    | None => crash_with BadPointer
    end.

(** The first loop: [for (i = 0 ; i < partition_cnt ; i++) rktps[i] = ...]. *)
Fixpoint cnt_update_assign (rkt : addr) (idx : list nat) (rktps : list (option addr))
  : M (list (option addr)) :=
  match idx with
  | [] => ret rktps
  | i :: idx' =>
      let* rktp := cnt_update_slot rkt i in
      cnt_update_assign rkt idx' (<[i := rktp]> rktps)
  end.

(** One round of the second loop: partition [i] has gone away. *)
Definition cnt_update_remove (rkt : addr) (rktp_ua : option addr) (i : nat) : M unit :=
  let* t := load_topic rkt in
  match rkt_p t !! i with
  | None => crash_with BadPointer
  | Some None => crash_with NullDeref
  | Some (Some rktp) =>
      match rktp_ua with
      | Some ua => rd_kafka_toppar_move_msgs ua rktp
      | None =>
          let* p := load_toppar rktp in
          store_toppar rktp (set_rktp_msgq (rd_kafka_msgq_purge (rktp_msgq p)) p)
      end ;;
      let* p := load_toppar rktp in
      (if negb (Z.land (rktp_flags p) RD_KAFKA_TOPPAR_F_DESIRED =? 0) then
         assert (Z.land (rktp_flags p) RD_KAFKA_TOPPAR_F_UNKNOWN =? 0) ;;
         store_toppar rktp
           (set_rktp_flags (Z.lor (rktp_flags p) RD_KAFKA_TOPPAR_F_UNKNOWN) p) ;;
         let* t := load_topic rkt in
         store_topic rkt (set_rkt_desp (TAILQ_INSERT_TAIL (rkt_desp t) rktp) t)
       else ret tt) ;;
      rd_kafka_toppar_destroy rktp
  end.

(** The second loop: [for (; i < rkt->rkt_partition_cnt ; i++)]. *)
Fixpoint cnt_update_shrink (rkt : addr) (rktp_ua : option addr) (idx : list nat)
  : M unit :=
  match idx with
  | [] => ret tt
  | i :: idx' =>
      cnt_update_remove rkt rktp_ua i ;;
      cnt_update_shrink rkt rktp_ua idx'
  end.

(** [rd_kafka_topic_partition_cnt_update].  After the first loop [i] is
    [partition_cnt], or 0 when [partition_cnt] is not positive. *)
Definition rd_kafka_topic_partition_cnt_update (topic : string) (partition_cnt : Z)
  : M Z :=
  let* r := rd_kafka_topic_find topic in
  match r with
  | None => ret (-1)
  | Some rkt =>
      let* t := load_topic rkt in
      if rkt_partition_cnt t =? partition_cnt then
        rd_kafka_topic_destroy rkt ;;
        ret 0
      else
        let n := Z.to_nat partition_cnt in
        let* rktps := cnt_update_assign rkt (seq 0 n) (replicate n None) in
        let* rktp_ua := rd_kafka_toppar_get rkt RD_KAFKA_PARTITION_UA 0 in
        let* t := load_topic rkt in
        cnt_update_shrink rkt rktp_ua
                          (seq n (Z.to_nat (rkt_partition_cnt t) - n)) ;;
        match rktp_ua with
        | Some ua => rd_kafka_toppar_destroy ua
        | None => ret tt
        end ;;
        let* t := load_topic rkt in
        store_topic rkt (set_rkt_parts rktps partition_cnt t) ;;
        rd_kafka_topic_destroy rkt ;;
        ret 1
  end.

(** One round of the first loop of [rd_kafka_topic_partitions_remove]. *)
Definition partitions_remove_one (ua_on_miss : Z) (rkt : addr) (i : nat) : M unit :=
  let* r := rd_kafka_toppar_get rkt (Z.of_nat i) ua_on_miss in
  match r with
  | None => ret tt
  | Some rktp =>
      let* p := load_toppar rktp in
      store_toppar rktp (set_rktp_msgq (rd_kafka_msgq_purge (rktp_msgq p)) p) ;;
      rd_kafka_toppar_destroy rktp ;;
      rd_kafka_toppar_destroy rktp
  end.

Fixpoint partitions_remove_all (ua_on_miss : Z) (rkt : addr) (idx : list nat)
  : M unit :=
  match idx with
  | [] => ret tt
  | i :: idx' =>
      partitions_remove_one ua_on_miss rkt i ;;
      partitions_remove_all ua_on_miss rkt idx'
  end.

(** [rd_kafka_topic_partitions_remove]; [ua_on_miss_i] is the argument left
    out by the look-up of the loop, [ua_on_miss] the one left out by the
    look-up of the unassigned partition. *)
Definition rd_kafka_topic_partitions_remove (ua_on_miss_i ua_on_miss : Z) (rkt : addr)
  : M unit :=
  rd_kafka_topic_keep rkt ;;
  let* t := load_topic rkt in
  partitions_remove_all ua_on_miss_i rkt (seq 0 (Z.to_nat (rkt_partition_cnt t))) ;;
  let* t := load_topic rkt in
  store_topic rkt (set_rkt_parts [] 0 t) ;;
  let* r := rd_kafka_toppar_get rkt RD_KAFKA_PARTITION_UA ua_on_miss in
  match r with
  | Some rktp =>
      let* p := load_toppar rktp in
      store_toppar rktp (set_rktp_msgq (rd_kafka_msgq_purge (rktp_msgq p)) p) ;;
      let* t := load_topic rkt in
      store_topic rkt (set_rkt_ua None t) ;;
      rd_kafka_toppar_destroy rktp ;;
      rd_kafka_toppar_destroy rktp
  | None => ret tt
  end ;;
  rd_kafka_topic_destroy rkt.

(** Modelled from the spec: [rd_kafka_msg_partitioner] of rdkafka_msg.c.  It
    asks the topic's partitioner for a partition; a message whose partition
    is unavailable is rejected with -1 and nothing changes, any other message
    is appended to the queue of its partition (scenario S6). *)
Definition rd_kafka_msg_partitioner (rkt : addr) (rkm : rd_kafka_msg_t) : M Z :=
  let* t := load_topic rkt in
  match partitioner (rkt_conf t) with
  | None => crash_with NullDeref
  | Some f =>
      match partition_for f (rkt_topic t) (rkt_partition_cnt t) rkm with
      | None => ret (-1)
      | Some partition =>
          let* r := rd_kafka_toppar_get rkt partition 0 in
          match r with
          | None => ret (-1)
          | Some rktp_new =>
              rd_kafka_toppar_enq_msg rktp_new rkm ;;
              rd_kafka_toppar_destroy rktp_new ;;
              ret 0
          end
      end
  end.

(** The messages that [rd_kafka_msg_partitioner] turns away on a topic whose
    partition array is fully populated: those for which the partitioner
    callback names no partition, or one that is not in the array. *)
Definition rejects (t : rd_kafka_topic_t) (rkm : rd_kafka_msg_t) : bool :=
  match partitioner (rkt_conf t) with
  | Some f =>
      match partition_for f (rkt_topic t) (rkt_partition_cnt t) rkm with
      | Some partition =>
          negb ((0 <=? partition) && (partition <? rkt_partition_cnt t))
      | None => true
      end
  | None => true
  end.

(** The [TAILQ_FOREACH_SAFE] of [rd_kafka_topic_assign_uas]: every message of
    [uas] goes through the partitioner, the rejected ones are appended to
    [failed]. *)
Fixpoint assign_uas_partition (rkt : addr) (uas : list rd_kafka_msg_t)
         (failed : rd_kafka_msgq_t) : M rd_kafka_msgq_t :=
  match uas with
  | [] => ret failed
  | rkm :: uas' =>
      let* r := rd_kafka_msg_partitioner rkt rkm in
      assign_uas_partition rkt uas'
        (if r =? -1 then rd_kafka_msgq_enq failed rkm else failed)
  end.

(** The end of [rd_kafka_topic_assign_uas]: [if (failed.rkmq_msg_cnt > 0)]
    the failed messages go back to the head of the UA queue. *)
Definition assign_uas_requeue (rktp_ua : addr) (failed : rd_kafka_msgq_t) : M unit :=
  if 0 <? rkmq_msg_cnt failed then
    let* p := load_toppar rktp_ua in
    let c := rd_kafka_msgq_concat failed (rktp_msgq p) in
    let m := rd_kafka_msgq_move (snd c) (fst c) in
    store_toppar rktp_ua (set_rktp_msgq (fst m) p)
  else ret tt.

(** [rd_kafka_topic_assign_uas]. *)
Definition rd_kafka_topic_assign_uas (ua_on_miss : Z) (topic : string) : M unit :=
  let* r := rd_kafka_topic_find topic in
  match r with
  | None => ret tt
  | Some rkt =>
      let* r := rd_kafka_toppar_get rkt RD_KAFKA_PARTITION_UA ua_on_miss in
      match r with
      | None => rd_kafka_topic_destroy rkt
      | Some rktp_ua =>
          let* p := load_toppar rktp_ua in
          let m := rd_kafka_msgq_move rd_kafka_msgq_init (rktp_msgq p) in
          store_toppar rktp_ua (set_rktp_msgq (snd m) p) ;;
          let* failed := assign_uas_partition rkt (rkmq_msgs (fst m))
                                              rd_kafka_msgq_init in
          assign_uas_requeue rktp_ua failed ;;
          rd_kafka_toppar_destroy rktp_ua ;;
          rd_kafka_topic_destroy rkt
      end
  end.

End Callbacks.

(** ** The topic registry *)

(** The names of the registered topics, in registry order. *)
Definition registry_names (s : state) : list string :=
  omap (fun rkt => rkt_topic <$> topics s !! rkt) (rk_topics (st_rk s)).

(** The registry has no dangling entry and no name twice. *)
Definition registry_ok (s : state) : Prop :=
  (forall rkt, rkt ∈ rk_topics (st_rk s) -> is_Some (topics s !! rkt)) /\
  NoDup (registry_names s).

(** ** Leader links *)

(** What unlinking partition [a] does to its old leader: the partition leaves
    the broker's list and the broker loses the reference the partition held. *)
Definition unlink_toppar (a : addr) (b : rd_kafka_broker_t) : rd_kafka_broker_t :=
  mk_broker (rkb_nodeid b) (rkb_name b) (TAILQ_REMOVE a (rkb_toppars b))
            (rkb_toppar_cnt b - 1) (rkb_refcnt b - 1).

(** What linking partition [a] does to its new leader. *)
Definition link_toppar (a : addr) (b : rd_kafka_broker_t) : rd_kafka_broker_t :=
  mk_broker (rkb_nodeid b) (rkb_name b) (TAILQ_INSERT_TAIL (rkb_toppars b) a)
            (rkb_toppar_cnt b + 1) (rkb_refcnt b + 1).

(** The leader pointer of the partition at [a], NULL if there is no such
    partition. *)
Definition leader_of (s : state) (a : addr) : option addr :=
  match toppars s !! a with
  | Some p => rktp_leader p
  | None => None
  end.

(** 1 if the pointer is set, 0 if it is NULL: the references that a leader
    link adds to a partition. *)
Definition has_leader (rkb : option positive) : Z :=
  match rkb with
  | Some _ => 1
  | None => 0
  end.

(** The partitions whose leader pointer is broker [b]. *)
Definition led_by (s : state) (b : addr) : gmap positive rd_kafka_toppar_t :=
  filter (fun ap => rktp_leader ap.2 = Some b) (toppars s).

(** Leader pointers and broker lists agree: a broker lists each partition at
    most once, counts what it lists, and lists exactly the partitions that
    point to it; a partition that has a leader points to a live broker and
    owns a reference of its own besides the one of the broker's list. *)
Definition leaders_linked (s : state) : Prop :=
  (forall a p, toppars s !! a = Some p ->
     match rktp_leader p with
     | Some b => is_Some (brokers s !! b) /\ 2 <= rktp_refcnt p
     | None => 1 <= rktp_refcnt p
     end) /\
  (forall b rb, brokers s !! b = Some rb ->
     NoDup (rkb_toppars rb) /\
     rkb_toppar_cnt rb = Z.of_nat (length (rkb_toppars rb)) /\
     forall a, a ∈ rkb_toppars rb <-> leader_of s a = Some b).

(** A sequence of calls to [rd_kafka_toppar_broker_delegate]. *)
Fixpoint delegate_all (calls : list (addr * option addr)) : M unit :=
  match calls with
  | [] => ret tt
  | (rktp, rkb) :: calls' =>
      rd_kafka_toppar_broker_delegate rktp rkb ;; delegate_all calls'
  end.

(** ** Well-formed partition arrays *)

(** Every slot of the partition array of topic [t] holds a live partition
    that is not the unassigned partition [ua] and that is referenced. *)
Definition parts_ok (s : state) (t : rd_kafka_topic_t) (ua : positive) : Prop :=
  forall i, 0 <= i < rkt_partition_cnt t ->
    exists a q, rkt_p t !! Z.to_nat i = Some (Some a) /\ a <> ua /\
                toppars s !! a = Some q /\ 1 <= rktp_refcnt q.

(** ** The desired list *)

(** The partition ids on the desired list of topic [t], in list order. *)
Definition desp_ids (s : state) (t : rd_kafka_topic_t) : list Z :=
  omap (fun a => rktp_partition <$> toppars s !! a) (rkt_desp t).

(** The desired list has no dangling entry and no partition id twice. *)
Definition desp_ok (s : state) (t : rd_kafka_topic_t) : Prop :=
  (forall a, a ∈ rkt_desp t -> is_Some (toppars s !! a)) /\
  NoDup (desp_ids s t).

(** A desired partition once the cluster has revealed it: UNKNOWN is
    cleared, and the look-up that found it has left one more reference. *)
Definition absorb (p : rd_kafka_toppar_t) : rd_kafka_toppar_t :=
  mk_toppar (rktp_partition p) (rktp_rkt p) (rktp_leader p) (rktp_refcnt p + 1)
            (rktp_msgq p) (rktp_xmit_msgq p)
            (Z.land (rktp_flags p) (Z.lnot RD_KAFKA_TOPPAR_F_UNKNOWN))
            (rktp_fetch_state p).

(** A partition as [rd_kafka_toppar_new] leaves it. *)
Definition fresh_toppar (rkt : positive) (partition : Z) : rd_kafka_toppar_t :=
  mk_toppar partition rkt None 1 rd_kafka_msgq_init rd_kafka_msgq_init 0
            RD_KAFKA_TOPPAR_FETCH_NONE.

(** The state of the first loop of [rd_kafka_topic_partition_cnt_update]
    before round [k], seen from the store [s1] and the topic [t1] the loop
    started with: the topic still has its old array and count; the desired
    list has lost the entries with an id in [old, k); those entries, and only
    those, have been absorbed; and every slot below [k] is filled: with the
    old pointer below the old count, with the desired partition of that id if
    there was one, with a new partition otherwise. *)
Definition grow_inv (s1 : state) (rkt : positive) (t1 : rd_kafka_topic_t)
           (k : nat) (s : state) (rktps : list (option positive)) : Prop :=
  (exists t,
      topics s !! rkt = Some t /\
      rkt_partition_cnt t = rkt_partition_cnt t1 /\
      rkt_p t = rkt_p t1 /\
      rkt_refcnt t1 <= rkt_refcnt t /\
      NoDup (rkt_desp t) /\
      forall a, a ∈ rkt_desp t <->
                a ∈ rkt_desp t1 /\
                forall p, toppars s1 !! a = Some p ->
                          ~ (rkt_partition_cnt t1 <= rktp_partition p < Z.of_nat k)) /\
  (forall a p,
      toppars s1 !! a = Some p ->
      toppars s !! a
      = Some (if bool_decide (a ∈ rkt_desp t1 /\
                              rkt_partition_cnt t1 <= rktp_partition p < Z.of_nat k)
              then absorb p else p)) /\
  (forall i, (i < k)%nat ->
      (Z.of_nat i < rkt_partition_cnt t1 -> rktps !! i = rkt_p t1 !! i) /\
      (rkt_partition_cnt t1 <= Z.of_nat i ->
         (forall a p, a ∈ rkt_desp t1 -> toppars s1 !! a = Some p ->
                      rktp_partition p = Z.of_nat i -> rktps !! i = Some (Some a)) /\
         ((forall a p, a ∈ rkt_desp t1 -> toppars s1 !! a = Some p ->
                       rktp_partition p <> Z.of_nat i) ->
          exists a, rktps !! i = Some (Some a) /\
                    toppars s1 !! a = None /\
                    toppars s !! a = Some (fresh_toppar rkt (Z.of_nat i))))).

(** ** Frame conditions *)

(** Every run of [m] that returns relates the store before to the store after
    by [R]. *)
Definition preserves {A} (R : state -> state -> Prop) (m : M A) : Prop :=
  forall s a s', m s = Done a s' -> R s s'.

(** Every partition of [s'] was a partition of [s] and has the message queue
    it had there: same messages, same order, same counters. *)
Definition msgq_kept (s s' : state) : Prop :=
  forall a p', toppars s' !! a = Some p' ->
               exists p, toppars s !! a = Some p /\ rktp_msgq p' = rktp_msgq p.

(** The partition heap is the same. *)
Definition toppars_same (s s' : state) : Prop := toppars s' = toppars s.

(** ** Desired partitions as created *)

(** A partition as the third path of [rd_kafka_toppar_desired_add] leaves
    it: new, with one reference, desired and not yet seen. *)
Definition desired_toppar (rkt : positive) (partition : Z) : rd_kafka_toppar_t :=
  mk_toppar partition rkt None 1 rd_kafka_msgq_init rd_kafka_msgq_init
            (Z.lor RD_KAFKA_TOPPAR_F_DESIRED RD_KAFKA_TOPPAR_F_UNKNOWN)
            RD_KAFKA_TOPPAR_FETCH_NONE.

(** ** Topics as created *)

(** The configuration a new topic ends up with: the caller's, with the random
    partitioner where the caller names none. *)
Definition created_conf (random : fn_id) (c : rd_kafka_topic_conf_t)
  : rd_kafka_topic_conf_t :=
  match partitioner c with
  | None => mk_conf (Some random) (message_timeout_ms c) (request_timeout_ms c)
  | Some _ => c
  end.

(** A topic as [rd_kafka_topic_new] leaves it: no partition, an unassigned
    partition [ua], an empty desired list, and two references (the caller's
    and the one of the unassigned partition). *)
Definition created_topic (random : fn_id) (name : string) (c : rd_kafka_topic_conf_t)
           (ua : positive) : rd_kafka_topic_t :=
  mk_topic name (created_conf random c) [] 0 (Some ua) [] 2.

(** The client handle after [rkt] has been registered: one more topic, one
    more reference, one more leader query. *)
Definition registered (rkt : positive) (rk : rd_kafka_t) : rd_kafka_t :=
  mk_rk (rk_topics rk ++ [rkt]) (rk_topic_cnt rk + 1) (rk_brokers rk)
        (rk_refcnt rk + 1) (rk_leader_queries rk ++ [rkt]).

(** ** Partitions that go away *)

(** The partitions in the slots of a topic's array, in slot order; NULL slots
    hold none. *)
Definition array_toppars (t : rd_kafka_topic_t) : list positive :=
  omap (fun i => mjoin (rkt_p t !! i)) (seq 0 (Z.to_nat (rkt_partition_cnt t))).

(** The partitions a topic owns: those of its array, then the unassigned one. *)
Definition owned_toppars (t : rd_kafka_topic_t) : list positive :=
  array_toppars t ++ option_list (rkt_ua t).

(** The partitions that [rd_kafka_topic_partitions_remove] lets go of: those
    of the array, and the unassigned one when the look-up finds it, that is,
    when the argument [ua_on_miss] that the look-up leaves out is not 0. *)
Definition removed_toppars (ua_on_miss : Z) (t : rd_kafka_topic_t) : list positive :=
  if ua_on_miss =? 0 then array_toppars t else owned_toppars t.

(** A partition after its topic has let go of it: the queue is purged and
    the topic's reference is released; a partition that had no other
    reference is freed. *)
Definition removed (p : rd_kafka_toppar_t) : option rd_kafka_toppar_t :=
  if rktp_refcnt p =? 1 then None
  else Some (set_rktp_refcnt (rktp_refcnt p - 1)
                             (set_rktp_msgq rd_kafka_msgq_init p)).

(** How many of the partitions at [l] have exactly one reference. *)
Definition last_refs (s : state) (l : list positive) : Z :=
  Z.of_nat (length (filter (fun a => rktp_refcnt <$> toppars s !! a = Some 1) l)).

(** The store [s'] is the store [s] after the topic [rkt] has let go of the
    partitions at [l]: each of them is [removed], the topic has lost the
    references of those that were freed, and nothing else differs. *)
Definition let_go (rkt : positive) (l : list positive) (s s' : state) : Prop :=
  st_rk s' = st_rk s /\ brokers s' = brokers s /\ st_errno s' = st_errno s /\
  (forall x, x <> rkt -> topics s' !! x = topics s !! x) /\
  (forall t, topics s !! rkt = Some t ->
             topics s' !! rkt = Some (set_rkt_refcnt (rkt_refcnt t - last_refs s l) t)) /\
  (forall a p, a ∈ l -> toppars s !! a = Some p -> toppars s' !! a = removed p) /\
  (forall a, a ∉ l -> toppars s' !! a = toppars s !! a).

(** ** Partitions that the cluster no longer has *)

(** The partitions in the slots [lo, hi) of a topic's array, in slot order. *)
Definition slot_toppars (t : rd_kafka_topic_t) (lo hi : nat) : list positive :=
  omap (fun i => mjoin (rkt_p t !! i)) (seq lo (hi - lo)).

(** DESIRED is set on the partition at [a]. *)
Definition is_desired (s : state) (a : positive) : bool :=
  match toppars s !! a with
  | Some p => negb (Z.land (rktp_flags p) RD_KAFKA_TOPPAR_F_DESIRED =? 0)
  | None => false
  end.

(** A partition after a shrinking count update has dropped it from the
    array: the queue is purged, a desired partition is marked UNKNOWN, and
    the array's reference is released; a partition that had no other
    reference is freed. *)
Definition shrunk (p : rd_kafka_toppar_t) : option rd_kafka_toppar_t :=
  if rktp_refcnt p =? 1 then None
  else Some (mk_toppar (rktp_partition p) (rktp_rkt p) (rktp_leader p)
                       (rktp_refcnt p - 1) rd_kafka_msgq_init (rktp_xmit_msgq p)
                       (if Z.land (rktp_flags p) RD_KAFKA_TOPPAR_F_DESIRED =? 0
                        then rktp_flags p
                        else Z.lor (rktp_flags p) RD_KAFKA_TOPPAR_F_UNKNOWN)
                       (rktp_fetch_state p)).

(** The store [s'] is the store [s] after the partitions at [l] have been
    dropped from the array of topic [rkt]: each is [shrunk], the desired ones
    are at the tail of the desired list in the order of [l], the topic has
    lost the references of those that were freed, and nothing else differs. *)
Definition dropped (rkt : positive) (l : list positive) (s s' : state) : Prop :=
  st_rk s' = st_rk s /\ brokers s' = brokers s /\ st_errno s' = st_errno s /\
  (forall x, x <> rkt -> topics s' !! x = topics s !! x) /\
  (forall t, topics s !! rkt = Some t ->
             topics s' !! rkt
             = Some (set_rkt_refcnt (rkt_refcnt t - last_refs s l)
                       (set_rkt_desp (rkt_desp t ++ filter (fun a => is_desired s a = true) l)
                                     t))) /\
  (forall a p, a ∈ l -> toppars s !! a = Some p -> toppars s' !! a = shrunk p) /\
  (forall a, a ∉ l -> toppars s' !! a = toppars s !! a).

(** ** Where the drain sends a message *)

(** The partition that takes a message of the unassigned queue: the one in
    the slot the topic's partitioner names, if it names a slot of the array. *)
Definition destination
           (partition_for : fn_id -> string -> Z -> rd_kafka_msg_t -> option Z)
           (t : rd_kafka_topic_t) (rkm : rd_kafka_msg_t) : option positive :=
  match partitioner (rkt_conf t) with
  | Some f =>
      match partition_for f (rkt_topic t) (rkt_partition_cnt t) rkm with
      | Some partition =>
          if (0 <=? partition) && (partition <? rkt_partition_cnt t)
          then mjoin (rkt_p t !! Z.to_nat partition)
          else None
      | None => None
      end
  | None => None
  end.

(** ** Slots and partition ids *)

(** Every slot of the array of [t] holds a live partition whose id is the
    number of the slot. *)
Definition slots_ok (s : state) (t : rd_kafka_topic_t) : Prop :=
  forall i, 0 <= i < rkt_partition_cnt t ->
    exists a p, rkt_p t !! Z.to_nat i = Some (Some a) /\
                toppars s !! a = Some p /\ rktp_partition p = i.

(** ** Unmarking a desired partition *)

(** The partition once [rd_kafka_toppar_desired_del] has cleared its flags:
    DESIRED goes, and UNKNOWN goes where it was set. *)
Definition undesired (p : rd_kafka_toppar_t) : rd_kafka_toppar_t :=
  set_rktp_flags
    (if Z.land (rktp_flags p) RD_KAFKA_TOPPAR_F_UNKNOWN =? 0
     then Z.land (rktp_flags p) (Z.lnot RD_KAFKA_TOPPAR_F_DESIRED)
     else Z.land (Z.land (rktp_flags p) (Z.lnot RD_KAFKA_TOPPAR_F_DESIRED))
                 (Z.lnot RD_KAFKA_TOPPAR_F_UNKNOWN)) p.

(** The topic of that partition: the partition at [rktp] is unlinked from the
    desired list exactly when UNKNOWN was set on it. *)
Definition undesired_topic (rktp : positive) (p : rd_kafka_toppar_t)
           (t : rd_kafka_topic_t) : rd_kafka_topic_t :=
  if Z.land (rktp_flags p) RD_KAFKA_TOPPAR_F_UNKNOWN =? 0 then t
  else set_rkt_desp (TAILQ_REMOVE rktp (rkt_desp t)) t.

(** ** Concrete stores and scenarios *)

(** A client handle right after creation: no topic, no broker. *)
Definition rd_kafka_new : state :=
  mk_state (mk_rk [] 0 [] 1 []) ∅ ∅ ∅ 0.

Definition default_conf : rd_kafka_topic_conf_t := mk_conf None 300000 5000.

(** The store reached when a computation returns (the same store otherwise). *)
Definition exec {A} (m : M A) (s : state) : state :=
  match m s with
  | Done _ s' => s'
  | Crashed _ => s
  end.

(** One topic "orders" and nothing else: the topic is at address 1 of the
    topic heap, its unassigned partition at address 1 of the partition heap. *)
Definition st_orders : state :=
  exec (rd_kafka_topic_new default_conf 0%nat (Some "orders"%string) (Some default_conf))
       rd_kafka_new.

(** "orders" with two partitions, at addresses 2 and 3. *)
Definition st_orders_2 : state :=
  exec (rd_kafka_topic_partition_cnt_update "orders" 2) st_orders.

(** The same after [rd_kafka_toppar_desired_add(rkt, 1)]: partition 1 exists
    and is desired. *)
Definition st_desired_known : state :=
  exec (rd_kafka_toppar_desired_add 1%positive 1) st_orders_2.

(** "orders" with two partitions, and two brokers known to the client. *)
Definition st_brokers : state :=
  let rk := st_rk st_orders_2 in
  mk_state (mk_rk (rk_topics rk) (rk_topic_cnt rk) [1%positive; 2%positive]
                  (rk_refcnt rk) (rk_leader_queries rk))
           (topics st_orders_2) (toppars st_orders_2)
           (<[1%positive := mk_broker 1 "broker1" [] 0 1]>
              (<[2%positive := mk_broker 2 "broker2" [] 0 1]> ∅))
           (st_errno st_orders_2).

(** Partition 0 goes to broker 1, partition 1 to broker 1, partition 0
    migrates to broker 2, partition 1 loses its leader, partition 0 is
    delegated to broker 2 again. *)
Definition some_delegations : list (positive * option positive) :=
  [(2%positive, Some 1%positive); (3%positive, Some 1%positive);
   (2%positive, Some 2%positive); (3%positive, None);
   (2%positive, Some 2%positive)].

Definition msg_a : rd_kafka_msg_t := mk_msg "a" 1.
Definition msg_b : rd_kafka_msg_t := mk_msg "bb" 2.
Definition msg_c : rd_kafka_msg_t := mk_msg "ccc" 3.

(** Two messages wait on partition 0 of "orders", no leader is known yet. *)
Definition st_queued_unled : state :=
  exec (rd_kafka_toppar_enq_msg 2%positive msg_a ;;
        rd_kafka_toppar_enq_msg 2%positive msg_b) st_brokers.

(** The same, with broker 1 as leader of partition 0. *)
Definition st_queued : state :=
  exec (rd_kafka_toppar_broker_delegate 2%positive (Some 1%positive)) st_queued_unled.

(** Partition 3 of "orders" (address 4) is created as a desired partition, a
    message is queued on it, broker 1 becomes its leader, and the partition is
    unmarked: the reference of the application is gone, the one of the leader
    link is left. *)
Definition st_last_link : state :=
  exec (let* rktp := rd_kafka_toppar_desired_add 1%positive 3 in
        rd_kafka_toppar_enq_msg rktp msg_a ;;
        rd_kafka_toppar_broker_delegate rktp (Some 1%positive) ;;
        rd_kafka_toppar_desired_del rktp) st_brokers.

(** Scenario S3: "orders" has three partitions, two messages wait on
    partition 2 (the partition at address 4), the unassigned partition (at
    address 1) exists and is empty. *)
Definition st_orders_3 : state :=
  exec (rd_kafka_topic_partition_cnt_update "orders" 3) st_orders.

Definition st_shrink : state :=
  exec (rd_kafka_toppar_enq_msg 4%positive msg_a ;;
        rd_kafka_toppar_enq_msg 4%positive msg_b) st_orders_3.

(** Scenario S6: "orders" has two partitions and three messages wait on the
    unassigned partition (address 1); the partitioner turns away the message
    of length 2 and sends the others to partition 1. *)
Definition st_unassigned : state :=
  exec (rd_kafka_toppar_enq_msg 1%positive msg_a ;;
        rd_kafka_toppar_enq_msg 1%positive msg_b ;;
        rd_kafka_toppar_enq_msg 1%positive msg_c) st_orders_2.

Definition by_length : nat -> string -> Z -> rd_kafka_msg_t -> option Z :=
  fun _ _ cnt rkm => if rkm_len rkm =? 2 then None else Some (rkm_len rkm `mod` cnt).

(** Scenario S2: "orders" has no partition yet and partition 3 is desired
    (the partition at address 2, on the desired list). *)
Definition st_desired_unseen : state :=
  exec (rd_kafka_toppar_desired_add 1%positive 3) st_orders.

(** * Properties *)

(** ** Stepping through computations *)

Lemma bind_done {A B} (m : M A) (k : A -> M B) s a s' :
  m s = Done a s' -> bind m k s = k a s'.
Proof. intros H. unfold bind. now rewrite H. Qed.

Lemma bind_inv {A B} (m : M A) (k : A -> M B) s b s'' :
  bind m k s = Done b s'' -> exists a s', m s = Done a s' /\ k a s' = Done b s''.
Proof.
  unfold bind. destruct (m s) as [a s'|c] eqn:E; [|discriminate].
  intros H. now exists a, s'.
Qed.

Lemma load_toppar_done s a p :
  toppars s !! a = Some p -> load_toppar a s = Done p s.
Proof. intros H. unfold load_toppar. now rewrite H. Qed.

Lemma load_topic_done s a t :
  topics s !! a = Some t -> load_topic a s = Done t s.
Proof. intros H. unfold load_topic. now rewrite H. Qed.

Lemma load_broker_done s a b :
  brokers s !! a = Some b -> load_broker a s = Done b s.
Proof. intros H. unfold load_broker. now rewrite H. Qed.

Ltac munfold :=
  unfold bind, ret, load_toppar, store_toppar, load_broker, store_broker,
    load_topic, store_topic, get_rk, put_rk.

Ltac mstep :=
  repeat first
    [ progress cbn [toppars topics brokers st_rk st_errno
                    set_toppars set_topics set_brokers set_st_rk
                    rktp_leader rktp_refcnt rktp_flags rktp_msgq rktp_rkt rktp_partition
                    set_rktp_refcnt set_rktp_leader set_rktp_flags set_rktp_msgq
                    rkb_toppars rkb_toppar_cnt rkb_refcnt set_rkb_toppars set_rkb_refcnt
                    rkt_topic rkt_conf rkt_p rkt_partition_cnt rkt_ua rkt_desp rkt_refcnt
                    set_rkt_refcnt set_rkt_desp set_rkt_ua set_rkt_parts
                    rk_topics rk_topic_cnt rk_brokers rk_refcnt rk_leader_queries]
    | rewrite lookup_insert_eq
    | rewrite lookup_insert_ne by congruence
    | match goal with
      | H : ?m !! ?k = Some _ |- context [?m !! ?k] => rewrite H
      | H : rktp_leader ?p = _ |- context [rktp_leader ?p] => rewrite H
      | |- context [?x =? 0] => rewrite (proj2 (Z.eqb_neq x 0)) by lia
      end ].

Lemma state_eq s s' :
  st_rk s = st_rk s' -> topics s = topics s' -> toppars s = toppars s' ->
  brokers s = brokers s' -> st_errno s = st_errno s' -> s = s'.
Proof. destruct s, s'; simpl; congruence. Qed.

Ltac mfinish :=
  match goal with |- Done ?r _ = Done ?r _ => apply (f_equal (Done r)) end;
  apply state_eq;
  cbn [toppars topics brokers st_rk st_errno
       set_toppars set_topics set_brokers set_st_rk set_st_errno];
  try reflexivity;
  unfold set_rktp_refcnt, set_rktp_leader, set_rktp_flags, set_rktp_msgq,
    set_rkb_refcnt, set_rkb_toppars, unlink_toppar, link_toppar;
  cbn [rktp_leader rktp_refcnt rktp_flags rktp_msgq rktp_rkt rktp_partition
       rktp_xmit_msgq rktp_fetch_state
       rkb_toppars rkb_toppar_cnt rkb_refcnt rkb_nodeid rkb_name];
  repeat f_equal; try lia.

(** ** Validation in [rd_kafka_topic_new] *)

Section TopicNew.

Variable conf_new : rd_kafka_topic_conf_t.
Variable random : fn_id.

Lemma topic_new_null_name conf s :
  rd_kafka_topic_new conf_new random None conf s = Done None (set_st_errno EINVAL s).
Proof. reflexivity. Qed.

Lemma topic_new_bad_timeout name c s :
  message_timeout_ms c <= 0 \/ request_timeout_ms c <= 0 ->
  rd_kafka_topic_new conf_new random (Some name) (Some c) s
  = Done None (set_st_errno EINVAL s).
Proof.
  intros H. unfold rd_kafka_topic_new, deref_conf, bind, ret.
  destruct (message_timeout_ms c <=? 0) eqn:E1; [reflexivity|].
  destruct (request_timeout_ms c <=? 0) eqn:E2; [reflexivity|].
  apply Z.leb_gt in E1, E2. lia.
Qed.

End TopicNew.

(** C5, as amended: a call to [rd_kafka_topic_new] whose name is NULL, or whose
    configuration is given and has a non-positive [message_timeout_ms] or
    [request_timeout_ms], returns NULL with [errno] set to EINVAL, and the
    client handle, the topics, the partitions and the brokers are exactly
    what they were. *)
Theorem topic_new_invalid_config :
  forall conf_new random topic conf s,
    (topic = None \/
     exists c, conf = Some c /\
               (message_timeout_ms c <= 0 \/ request_timeout_ms c <= 0)) ->
    exists s',
      rd_kafka_topic_new conf_new random topic conf s = Done None s' /\
      st_errno s' = EINVAL /\
      st_rk s' = st_rk s /\ topics s' = topics s /\
      toppars s' = toppars s /\ brokers s' = brokers s.
Proof.
  intros conf_new random topic conf s H.
  exists (set_st_errno EINVAL s). split; [|now repeat split].
  destruct topic as [name|]; [|apply topic_new_null_name].
  destruct H as [H|(c & -> & H)]; [discriminate|].
  now apply topic_new_bad_timeout.
Qed.

Lemma topic_new_invalid_config_witness :
  exists s',
    rd_kafka_topic_new default_conf 0%nat (Some "orders"%string)
                       (Some (mk_conf None 0 5000)) rd_kafka_new = Done None s' /\
    st_errno s' = EINVAL /\
    st_rk s' = st_rk rd_kafka_new /\ topics s' = topics rd_kafka_new /\
    toppars s' = toppars rd_kafka_new /\ brokers s' = brokers rd_kafka_new.
Proof.
  apply (topic_new_invalid_config default_conf 0%nat (Some "orders"%string)
           (Some (mk_conf None 0 5000)) rd_kafka_new).
  right. exists (mk_conf None 0 5000). split; [reflexivity|]. left. simpl. lia.
Defined.

(** C5, as stated, fails on the empty name: validation tests the name pointer
    against NULL and not the string against "", so with positive timeouts the
    empty name passes, a topic is created and the registry grows. *)
Lemma topic_new_empty_name_accepted :
  exists t s',
    rd_kafka_topic_new default_conf 0%nat (Some ""%string)
                       (Some default_conf) rd_kafka_new = Done (Some t) s' /\
    rk_topics (st_rk s') = [t] /\
    rkt_topic <$> topics s' !! t = Some ""%string /\
    st_errno s' = 0.
Proof.
  eexists _, _. split; [vm_compute; reflexivity|].
  repeat split.
Qed.

(** C10: the configuration is read by the validation, before the branch that
    would replace a NULL [conf].  With a NULL [conf] a call either stops at
    the NULL name (EINVAL) or dereferences NULL while validating the timeouts;
    it never gets past validation.  Hence what the default configuration is
    has no influence on any call: the defaulting branch is dead. *)
Theorem topic_new_conf_read_before_default :
  forall conf_new random topic s,
    rd_kafka_topic_new conf_new random topic None s
    = match topic with
      | None => Done None (set_st_errno EINVAL s)
      | Some _ => Crashed NullDeref
      end /\
    forall conf_new' conf,
      rd_kafka_topic_new conf_new random topic conf s
      = rd_kafka_topic_new conf_new' random topic conf s.
Proof.
  intros conf_new random topic s. split.
  - now destruct topic.
  - intros conf_new' conf.
    destruct topic as [name|]; [|reflexivity].
    destruct conf as [c|]; [|reflexivity].
    unfold rd_kafka_topic_new, deref_conf. rewrite !(bind_done _ _ s c s) by reflexivity.
    destruct (_ || _); [reflexivity|].
    unfold bind. destruct (rd_kafka_topic_find name s) as [[rkt|] s'|]; reflexivity.
Qed.

(** ** Registry and broker look-ups *)

Lemma topic_scan_inv l name s r s' :
  topic_scan l name s = Done r s' ->
  match r with
  | None => s' = s
  | Some rkt =>
      rkt ∈ l /\
      exists t, topics s !! rkt = Some t /\ rkt_topic t = name /\
                s' = set_topics (<[rkt := set_rkt_refcnt (rkt_refcnt t + 1) t]> (topics s)) s
  end.
Proof.
  revert s. induction l as [|a l IH]; intros s H; simpl in H.
  - now inversion H.
  - unfold bind, load_topic in H.
    destruct (topics s !! a) as [t|] eqn:Ea; [|discriminate].
    unfold rd_kafkap_str_cmp_str in H.
    destruct (String.eqb (rkt_topic t) name) eqn:En; simpl in H.
    + unfold rd_kafka_topic_keep, bind, load_topic, store_topic, ret in H.
      rewrite Ea in H. inversion H; subst. split; [left|].
      exists t. apply String.eqb_eq in En. auto.
    + specialize (IH s H). destruct r as [rkt|]; [|exact IH].
      destruct IH as [Hin Ht]. split; [now right | exact Ht].
Qed.

Lemma rd_kafka_topic_find_inv name s r s' :
  rd_kafka_topic_find name s = Done r s' ->
  match r with
  | None => s' = s
  | Some rkt =>
      rkt ∈ rk_topics (st_rk s) /\
      exists t, topics s !! rkt = Some t /\ rkt_topic t = name /\
                s' = set_topics (<[rkt := set_rkt_refcnt (rkt_refcnt t + 1) t]> (topics s)) s
  end.
Proof. apply topic_scan_inv. Qed.

Lemma broker_scan_inv l nodeid s r s' :
  broker_scan l nodeid s = Done r s' ->
  match r with
  | None => s' = s
  | Some rkb =>
      rkb ∈ l /\
      exists b, brokers s !! rkb = Some b /\ rkb_nodeid b = nodeid /\
                s' = set_brokers (<[rkb := set_rkb_refcnt (rkb_refcnt b + 1) b]> (brokers s)) s
  end.
Proof.
  revert s. induction l as [|a l IH]; intros s H; simpl in H.
  - now inversion H.
  - unfold bind, load_broker in H.
    destruct (brokers s !! a) as [b|] eqn:Ea; [|discriminate].
    destruct (rkb_nodeid b =? nodeid) eqn:En.
    + unfold rd_kafka_broker_keep, bind, load_broker, store_broker, ret in H.
      rewrite Ea in H. inversion H; subst. split; [left|].
      exists b. apply Z.eqb_eq in En. auto.
    + specialize (IH s H). destruct r as [rkb|]; [|exact IH].
      destruct IH as [Hin Hb]. split; [now right | exact Hb].
Qed.

(** A broker list without dangling pointers can always be searched. *)
Lemma broker_scan_total l nodeid s :
  (forall b, b ∈ l -> is_Some (brokers s !! b)) ->
  exists r s', broker_scan l nodeid s = Done r s'.
Proof.
  induction l as [|a l IH]; intros Hl; simpl.
  - now eexists _, _.
  - destruct (Hl a) as [b Hb]; [left|].
    unfold bind, load_broker. rewrite Hb.
    destruct (rkb_nodeid b =? nodeid).
    + unfold rd_kafka_broker_keep, bind, load_broker, store_broker, ret.
      rewrite Hb. now eexists _, _.
    + apply IH. intros b' Hb'. apply Hl. now right.
Qed.

Lemma broker_find_frame nodeid s r s' :
  rd_kafka_broker_find_by_nodeid nodeid s = Done r s' ->
  st_rk s' = st_rk s /\ topics s' = topics s /\ toppars s' = toppars s.
Proof.
  intros H. apply broker_scan_inv in H.
  destruct r as [rkb|]; [|now subst].
  destruct H as (_ & b & _ & _ & ->). now repeat split.
Qed.

(** A partition id outside [0, rkt_partition_cnt) is not found when
    [ua_on_miss] is 0, whatever the id. *)
Lemma toppar_get_miss rkt partition s t :
  topics s !! rkt = Some t ->
  ~ (0 <= partition < rkt_partition_cnt t) ->
  rd_kafka_toppar_get rkt partition 0 s = Done None s.
Proof.
  intros Ht Hr. unfold rd_kafka_toppar_get.
  rewrite (bind_done _ _ s t s) by now apply load_topic_done.
  destruct (0 <=? partition) eqn:E1; destruct (partition <? rkt_partition_cnt t) eqn:E2;
    simpl; try reflexivity.
  apply Z.leb_le in E1. apply Z.ltb_lt in E2. lia.
Qed.

(** The look-up of the unassigned slot, for any value of [ua_on_miss]: the
    sentinel is no index of the array, so the value decides alone between
    NULL and the unassigned partition. *)
Lemma toppar_get_ua_run rkt ua_on_miss s t :
  topics s !! rkt = Some t ->
  rd_kafka_toppar_get rkt RD_KAFKA_PARTITION_UA ua_on_miss s
  = if ua_on_miss =? 0 then Done None s else keep_if_set (rkt_ua t) s.
Proof.
  intros Ht. unfold rd_kafka_toppar_get.
  rewrite (bind_done _ _ s t s) by now apply load_topic_done.
  change (0 <=? RD_KAFKA_PARTITION_UA) with false. cbn [andb].
  now destruct (ua_on_miss =? 0).
Qed.

(** A topic without unassigned partition: the look-up of the unassigned slot
    returns NULL, whatever [ua_on_miss] is. *)
Lemma toppar_get_ua_none rkt ua_on_miss s t :
  topics s !! rkt = Some t ->
  rkt_ua t = None ->
  rd_kafka_toppar_get rkt RD_KAFKA_PARTITION_UA ua_on_miss s = Done None s.
Proof.
  intros Ht Hua. rewrite (toppar_get_ua_run rkt ua_on_miss s t Ht), Hua.
  now destruct (ua_on_miss =? 0).
Qed.

(** With [ua_on_miss] set the look-up returns the unassigned partition, with
    one more reference. *)
Lemma toppar_get_ua_done rkt ua_on_miss s t ua p :
  ua_on_miss <> 0 ->
  topics s !! rkt = Some t ->
  rkt_ua t = Some ua ->
  toppars s !! ua = Some p ->
  rd_kafka_toppar_get rkt RD_KAFKA_PARTITION_UA ua_on_miss s
  = Done (Some ua)
         (set_toppars (<[ua := set_rktp_refcnt (rktp_refcnt p + 1) p]> (toppars s)) s).
Proof.
  intros Hm Ht Hua Hp. rewrite (toppar_get_ua_run rkt ua_on_miss s t Ht), Hua.
  replace (ua_on_miss =? 0) with false by (symmetry; now apply Z.eqb_neq).
  unfold keep_if_set, rd_kafka_toppar_keep. munfold. now rewrite Hp.
Qed.

(** C1, as amended: when the topic is known and the partition id of the
    metadata is outside [0, rkt_partition_cnt), [rd_kafka_topic_update] stops
    at [assert(rktp)]: the process is aborted, nothing is returned to the
    caller, and no partition is created. *)
Theorem topic_update_unknown_partition_aborts :
  forall topic partition leader s rkt s1 t,
    rd_kafka_topic_find topic s = Done (Some rkt) s1 ->
    topics s !! rkt = Some t ->
    ~ (0 <= partition < rkt_partition_cnt t) ->
    (forall b, b ∈ rk_brokers (st_rk s) -> is_Some (brokers s !! b)) ->
    rd_kafka_topic_update topic partition leader s = Crashed AssertFailed.
Proof.
  intros topic partition leader s rkt s1 t Hfind Ht Hr Hb.
  unfold rd_kafka_topic_update.
  rewrite (bind_done _ _ _ _ _ Hfind).
  apply rd_kafka_topic_find_inv in Hfind.
  destruct Hfind as (_ & t0 & Ht0 & _ & ->).
  rewrite Ht in Ht0. inversion Ht0; subst t0; clear Ht0.
  set (s1 := set_topics _ s).
  destruct (broker_scan_total (rk_brokers (st_rk s1)) leader s1) as (rkb & s2 & Hscan);
    [exact Hb|].
  assert (Hfb : rd_kafka_broker_find_by_nodeid leader s1 = Done rkb s2) by exact Hscan.
  rewrite (bind_done _ _ _ _ _ Hfb).
  apply broker_find_frame in Hfb. destruct Hfb as (_ & Htop & _).
  assert (Ht2 : topics s2 !! rkt = Some (set_rkt_refcnt (rkt_refcnt t + 1) t)).
  { rewrite Htop. subst s1. simpl. apply lookup_insert_eq. }
  rewrite (bind_done _ _ _ _ _ (toppar_get_miss rkt partition s2 _ Ht2 Hr)).
  reflexivity.
Qed.

Lemma topic_update_unknown_partition_aborts_witness :
  rd_kafka_topic_update "orders" 7 1 st_orders = Crashed AssertFailed.
Proof.
  eapply (topic_update_unknown_partition_aborts "orders" 7 1 st_orders 1%positive).
  - vm_compute. reflexivity.
  - vm_compute. reflexivity.
  - vm_compute. intros [_ H]. discriminate H.
  - intros b Hb. vm_compute in Hb. inversion Hb.
Defined.

(** C1, as stated, fails: on the topic "orders" with no partition yet, a
    leader update for partition 0 does not return to its caller with an
    error, the failed assertion stops the process. *)
Lemma topic_update_gap_crashes :
  rd_kafka_topic_update "orders" 0 (-1) st_orders = Crashed AssertFailed /\
  ~ exists s', rd_kafka_topic_update "orders" 0 (-1) st_orders = Done tt s'.
Proof.
  assert (H : rd_kafka_topic_update "orders" 0 (-1) st_orders = Crashed AssertFailed)
    by (vm_compute; reflexivity).
  split; [exact H|]. intros [s' Hs']. rewrite H in Hs'. discriminate.
Qed.

(** ** Desired partitions *)

Lemma unknown_after_desired_cleared f :
  Z.land (Z.land f (Z.lnot RD_KAFKA_TOPPAR_F_DESIRED)) RD_KAFKA_TOPPAR_F_UNKNOWN
  = Z.land f RD_KAFKA_TOPPAR_F_UNKNOWN.
Proof. now rewrite <- Z.land_assoc. Qed.

Lemma TAILQ_REMOVE_not_in (a : addr) (l : list addr) :
  NoDup l -> a ∉ TAILQ_REMOVE a l.
Proof.
  induction 1 as [|x l Hx Hl IH]; simpl.
  - apply not_elem_of_nil.
  - destruct (decide (x = a)) as [->|Hne]; [exact Hx|].
    rewrite elem_of_cons. intros [E|E]; [congruence | now apply IH].
Qed.

Lemma TAILQ_REMOVE_absent (a : addr) (l : list addr) :
  a ∉ l -> TAILQ_REMOVE a l = l.
Proof.
  induction l as [|x l IH]; simpl; [reflexivity|].
  rewrite not_elem_of_cons. intros [Hne Hl].
  destruct (decide (x = a)); [congruence|]. now rewrite IH.
Qed.

(** Releasing a reference that is not the last one only lowers the count. *)
Lemma toppar_destroy_not_last rktp s p :
  toppars s !! rktp = Some p ->
  rktp_refcnt p <> 1 ->
  rd_kafka_toppar_destroy rktp s
  = Done tt (set_toppars (<[rktp := set_rktp_refcnt (rktp_refcnt p - 1) p]> (toppars s)) s).
Proof.
  intros Hp Hr. unfold rd_kafka_toppar_destroy.
  rewrite (bind_done _ _ s p s) by now apply load_toppar_done.
  unfold bind, store_toppar.
  destruct (rktp_refcnt p - 1 =? 0) eqn:E; [|reflexivity].
  apply Z.eqb_eq in E. lia.
Qed.

Lemma topic_destroy_not_last rkt s t :
  topics s !! rkt = Some t ->
  2 <= rkt_refcnt t ->
  rd_kafka_topic_destroy rkt s
  = Done tt (set_topics (<[rkt := set_rkt_refcnt (rkt_refcnt t - 1) t]> (topics s)) s).
Proof.
  intros Ht Hr. unfold rd_kafka_topic_destroy, rd_kafka_topic_destroy0.
  rewrite (bind_done _ _ s t s) by now apply load_topic_done.
  unfold bind, store_topic.
  destruct (0 <? rkt_refcnt t - 1) eqn:E; [reflexivity|].
  apply Z.ltb_ge in E. lia.
Qed.

(** The last reference on a partition: the partition is freed and its topic
    loses the reference the partition held. *)
Lemma toppar_destroy_last a s p t :
  toppars s !! a = Some p ->
  rktp_refcnt p = 1 ->
  topics s !! rktp_rkt p = Some t ->
  2 <= rkt_refcnt t ->
  rd_kafka_toppar_destroy a s
  = Done tt (mk_state (st_rk s)
               (<[rktp_rkt p := set_rkt_refcnt (rkt_refcnt t - 1) t]> (topics s))
               (delete a (toppars s)) (brokers s) (st_errno s)).
Proof.
  intros Hp Hr Ht Hrt.
  unfold rd_kafka_toppar_destroy, rd_kafka_toppar_destroy0, rd_kafka_topic_destroy,
    rd_kafka_topic_destroy0, free_toppar.
  munfold. mstep. rewrite Hr. change (1 - 1 =? 0) with true. cbv iota. mstep.
  replace (0 <? rkt_refcnt t - 1) with true by (symmetry; apply Z.ltb_lt; lia).
  f_equal. apply state_eq; simpl; try reflexivity.
  now rewrite delete_insert_eq.
Qed.

(** The last reference on a topic: the topic leaves the registry, the client
    handle loses the reference the topic held, and the topic is freed. *)
Lemma topic_destroy_last rkt s t :
  topics s !! rkt = Some t ->
  rkt_refcnt t = 1 ->
  rd_kafka_topic_destroy rkt s
  = Done tt (mk_state
               (mk_rk (TAILQ_REMOVE rkt (rk_topics (st_rk s))) (rk_topic_cnt (st_rk s))
                      (rk_brokers (st_rk s)) (rk_refcnt (st_rk s) - 1)
                      (rk_leader_queries (st_rk s)))
               (delete rkt (topics s)) (toppars s) (brokers s) (st_errno s)).
Proof.
  intros Ht Hr.
  unfold rd_kafka_topic_destroy, rd_kafka_topic_destroy0, rd_kafka_destroy0, free_topic.
  munfold. mstep. rewrite Hr. change (0 <? 1 - 1) with false.
  change (1 - 1 =? 0) with true. cbn [assert]. munfold. mstep.
  f_equal. apply state_eq; simpl; try reflexivity.
  now rewrite delete_insert_eq.
Qed.

(** What a release does to a live partition of a live topic.  A reference
    that is not the last one is given back and nothing else happens.  The
    last one frees the partition and gives back the reference it held on its
    topic, which may in turn be the last one on the topic. *)
Lemma toppar_destroy_run a s p t :
  toppars s !! a = Some p ->
  topics s !! rktp_rkt p = Some t ->
  rd_kafka_toppar_destroy a s =
  if rktp_refcnt p =? 1 then
    if 2 <=? rkt_refcnt t then
      Done tt (mk_state (st_rk s)
                 (<[rktp_rkt p := set_rkt_refcnt (rkt_refcnt t - 1) t]> (topics s))
                 (delete a (toppars s)) (brokers s) (st_errno s))
    else if rkt_refcnt t =? 1 then
      Done tt (mk_state
                 (mk_rk (TAILQ_REMOVE (rktp_rkt p) (rk_topics (st_rk s)))
                        (rk_topic_cnt (st_rk s)) (rk_brokers (st_rk s))
                        (rk_refcnt (st_rk s) - 1) (rk_leader_queries (st_rk s)))
                 (delete (rktp_rkt p) (topics s)) (delete a (toppars s))
                 (brokers s) (st_errno s))
    else Crashed AssertFailed
  else
    Done tt (set_toppars (<[a := set_rktp_refcnt (rktp_refcnt p - 1) p]> (toppars s)) s).
Proof.
  intros Hp Ht.
  destruct (rktp_refcnt p =? 1) eqn:E1.
  - apply Z.eqb_eq in E1.
    destruct (2 <=? rkt_refcnt t) eqn:E2.
    + apply Z.leb_le in E2. exact (toppar_destroy_last a s p t Hp E1 Ht E2).
    + apply Z.leb_gt in E2.
      unfold rd_kafka_toppar_destroy, rd_kafka_toppar_destroy0, free_toppar.
      munfold. mstep. rewrite E1. change (1 - 1 =? 0) with true. cbv iota. mstep.
      destruct (rkt_refcnt t =? 1) eqn:E3.
      * apply Z.eqb_eq in E3.
        match goal with
        | |- context [rd_kafka_topic_destroy ?r ?s1] =>
            rewrite (topic_destroy_last r s1 t) by (try exact E3; exact Ht)
        end.
        f_equal. apply state_eq; simpl; try reflexivity.
        now rewrite delete_insert_eq.
      * apply Z.eqb_neq in E3.
        unfold rd_kafka_topic_destroy, rd_kafka_topic_destroy0.
        munfold. mstep.
        replace (0 <? rkt_refcnt t - 1) with false by (symmetry; apply Z.ltb_ge; lia).
        replace (rkt_refcnt t - 1 =? 0) with false by (symmetry; apply Z.eqb_neq; lia).
        reflexivity.
  - apply Z.eqb_neq in E1. now apply toppar_destroy_not_last.
Qed.

(** C6, as amended: [rd_kafka_toppar_desired_del] does nothing when DESIRED is
    not set.  When DESIRED is set it clears DESIRED; it clears UNKNOWN and
    unlinks the partition from the desired list exactly when UNKNOWN is set
    ([undesired], [undesired_topic]); and in both cases it releases one
    reference.  This holds for every live partition, whatever its reference
    count: when the released reference is not the last one the count goes
    down by one; when it is the last one the partition is freed and its topic
    loses the reference the partition held (and is itself unregistered and
    freed if that was its last, or the process stops at the assertion of
    [rd_kafka_topic_destroy0] if the topic had none left). *)
Theorem desired_del_releases_whenever_desired :
  forall s rktp p,
    toppars s !! rktp = Some p ->
    (Z.land (rktp_flags p) RD_KAFKA_TOPPAR_F_DESIRED = 0 ->
     rd_kafka_toppar_desired_del rktp s = Done tt s) /\
    (forall t,
        topics s !! rktp_rkt p = Some t ->
        Z.land (rktp_flags p) RD_KAFKA_TOPPAR_F_DESIRED <> 0 ->
        rd_kafka_toppar_desired_del rktp s =
        if rktp_refcnt p =? 1 then
          if 2 <=? rkt_refcnt t then
            Done tt
              (mk_state (st_rk s)
                 (<[rktp_rkt p := set_rkt_refcnt (rkt_refcnt t - 1)
                                    (undesired_topic rktp p t)]> (topics s))
                 (delete rktp (toppars s)) (brokers s) (st_errno s))
          else if rkt_refcnt t =? 1 then
            Done tt
              (mk_state
                 (mk_rk (TAILQ_REMOVE (rktp_rkt p) (rk_topics (st_rk s)))
                        (rk_topic_cnt (st_rk s)) (rk_brokers (st_rk s))
                        (rk_refcnt (st_rk s) - 1) (rk_leader_queries (st_rk s)))
                 (delete (rktp_rkt p) (topics s)) (delete rktp (toppars s))
                 (brokers s) (st_errno s))
          else Crashed AssertFailed
        else
          Done tt
            (mk_state (st_rk s)
               (<[rktp_rkt p := undesired_topic rktp p t]> (topics s))
               (<[rktp := set_rktp_refcnt (rktp_refcnt p - 1) (undesired p)]> (toppars s))
               (brokers s) (st_errno s))).
Proof.
  intros s rktp p Hp. split.
  { intros Hd. unfold rd_kafka_toppar_desired_del.
    rewrite (bind_done _ _ s p s) by now apply load_toppar_done.
    now rewrite Hd. }
  intros t Ht Hd. unfold rd_kafka_toppar_desired_del.
  rewrite (bind_done _ _ s p s) by now apply load_toppar_done.
  replace (Z.land (rktp_flags p) RD_KAFKA_TOPPAR_F_DESIRED =? 0) with false
    by (symmetry; now apply Z.eqb_neq).
  rewrite unknown_after_desired_cleared.
  unfold undesired, undesired_topic.
  destruct (Z.land (rktp_flags p) RD_KAFKA_TOPPAR_F_UNKNOWN =? 0); simpl negb; cbv iota.
  - unfold bind at 1 2. unfold store_toppar at 1. unfold ret at 1.
    match goal with
    | |- rd_kafka_toppar_destroy _ ?s1 = _ =>
        rewrite (toppar_destroy_run rktp s1
                   (set_rktp_flags
                      (Z.land (rktp_flags p) (Z.lnot RD_KAFKA_TOPPAR_F_DESIRED)) p) t)
          by (simpl; first [apply lookup_insert_eq | exact Ht])
    end.
    cbn [rktp_refcnt rktp_rkt set_rktp_flags].
    destruct (rktp_refcnt p =? 1).
    + destruct (2 <=? rkt_refcnt t); [|destruct (rkt_refcnt t =? 1); [|reflexivity]];
        f_equal; apply state_eq; simpl; try reflexivity;
        now rewrite delete_insert_eq.
    + f_equal. apply state_eq; simpl; try reflexivity.
      * symmetry. now apply insert_id.
      * now rewrite insert_insert_eq.
  - unfold bind at 1 2. unfold store_toppar at 1.
    unfold bind at 1. unfold load_toppar at 1. simpl toppars. rewrite lookup_insert_eq.
    unfold bind at 1. unfold store_toppar at 1.
    unfold bind at 1. unfold load_topic at 1. simpl topics. simpl rktp_rkt. rewrite Ht.
    unfold store_topic at 1.
    match goal with
    | |- rd_kafka_toppar_destroy _ ?s1 = _ =>
        rewrite (toppar_destroy_run rktp s1
                   (set_rktp_flags
                      (Z.land (Z.land (rktp_flags p) (Z.lnot RD_KAFKA_TOPPAR_F_DESIRED))
                              (Z.lnot RD_KAFKA_TOPPAR_F_UNKNOWN)) p)
                   (set_rkt_desp (TAILQ_REMOVE rktp (rkt_desp t)) t))
          by (simpl; apply lookup_insert_eq)
    end.
    cbn [rktp_refcnt rktp_rkt set_rktp_flags rkt_refcnt set_rkt_desp].
    destruct (rktp_refcnt p =? 1).
    + destruct (2 <=? rkt_refcnt t); [|destruct (rkt_refcnt t =? 1); [|reflexivity]];
        f_equal; apply state_eq; simpl; try reflexivity;
        rewrite ?insert_insert_eq, ?delete_insert_eq; reflexivity.
    + f_equal. apply state_eq; simpl; try reflexivity.
      now rewrite !insert_insert_eq.
Qed.

(** The partition that [rd_kafka_toppar_desired_add] has created for the
    unseen id 3 holds one reference: unmarking it frees it. *)
Lemma desired_del_releases_whenever_desired_witness :
  exists p t s',
    toppars st_desired_unseen !! 2%positive = Some p /\
    topics st_desired_unseen !! rktp_rkt p = Some t /\
    rktp_refcnt p = 1 /\ rkt_desp t = [2%positive] /\
    rd_kafka_toppar_desired_del 2%positive st_desired_unseen = Done tt s' /\
    toppars s' !! 2%positive = None /\
    (rkt_desp <$> topics s' !! 1%positive) = Some [].
Proof.
  assert (Hp : exists p, toppars st_desired_unseen !! 2%positive = Some p /\
                         rktp_rkt p = 1%positive /\ rktp_refcnt p = 1 /\
                         rktp_flags p = 3)
    by (eexists; split; [vm_compute; reflexivity | repeat split]).
  destruct Hp as (p & Hp & Hrkt & Hr & Hf).
  assert (Ht : exists t, topics st_desired_unseen !! rktp_rkt p = Some t /\
                         rkt_refcnt t = 3 /\ rkt_desp t = [2%positive])
    by (rewrite Hrkt; eexists; split; [vm_compute; reflexivity | repeat split]).
  destruct Ht as (t & Ht & Hrt & Hd).
  pose proof (proj2 (desired_del_releases_whenever_desired st_desired_unseen 2%positive
                       p Hp) t Ht) as H.
  rewrite Hf, Hr, Hrt in H. specialize (H ltac:(discriminate)).
  change (1 =? 1) with true in H. change (2 <=? 3) with true in H. cbv iota in H.
  exists p, t. eexists.
  split; [exact Hp|]. split; [exact Ht|]. split; [exact Hr|]. split; [exact Hd|].
  split; [exact H|]. split.
  - simpl. apply lookup_delete_eq.
  - simpl. rewrite Hrkt, lookup_insert_eq. simpl. unfold undesired_topic.
    rewrite Hf, Hd. reflexivity.
Defined.

(** C6, as stated, fails on its last clause: partition 1 of "orders" is
    DESIRED and not UNKNOWN, it is in the partition array and not on the
    desired list; [rd_kafka_toppar_desired_del] unlinks nothing and still
    releases a reference (the count goes from 2 to 1). *)
Lemma desired_del_releases_without_removal :
  exists p t s' p' t',
    toppars st_desired_known !! 3%positive = Some p /\
    topics st_desired_known !! 1%positive = Some t /\
    rktp_partition p = 1 /\
    rktp_flags p = RD_KAFKA_TOPPAR_F_DESIRED /\
    rktp_refcnt p = 2 /\
    rkt_desp t = [] /\
    rd_kafka_toppar_desired_del 3%positive st_desired_known = Done tt s' /\
    toppars s' !! 3%positive = Some p' /\
    topics s' !! 1%positive = Some t' /\
    rkt_desp t' = rkt_desp t /\
    rktp_flags p' = 0 /\
    rktp_refcnt p' = 1.
Proof.
  eexists _, _, _, _, _.
  split; [vm_compute; reflexivity|].
  split; [vm_compute; reflexivity|].
  split; [reflexivity|].
  split; [reflexivity|]. split; [reflexivity|]. split; [reflexivity|].
  split; [vm_compute; reflexivity|].
  split; [vm_compute; reflexivity|].
  split; [vm_compute; reflexivity|].
  repeat split.
Qed.


Lemma delegate_same s a p :
  toppars s !! a = Some p ->
  rd_kafka_toppar_broker_delegate a (rktp_leader p) s = Done tt s.
Proof.
  intros Hp. unfold rd_kafka_toppar_broker_delegate. munfold. rewrite Hp.
  destruct (decide (rktp_leader p = rktp_leader p)); [reflexivity|congruence].
Qed.

Lemma delegate_unlink s a p old rbo :
  toppars s !! a = Some p ->
  rktp_leader p = Some old ->
  brokers s !! old = Some rbo ->
  2 <= rktp_refcnt p ->
  rd_kafka_toppar_broker_delegate a None s
  = Done tt (mk_state (st_rk s) (topics s)
               (<[a := set_rktp_refcnt (rktp_refcnt p - 1) (set_rktp_leader None p)]>
                  (toppars s))
               (<[old := unlink_toppar a rbo]> (brokers s))
               (st_errno s)).
Proof.
  intros Hp Hl Ho Hr.
  unfold rd_kafka_toppar_broker_delegate, rd_kafka_toppar_keep, rd_kafka_toppar_destroy,
    rd_kafka_broker_destroy, rd_kafka_broker_keep, TAILQ_INSERT_TAIL.
  munfold. mstep. destruct (decide (Some old = None)); [congruence|].
  mstep. rewrite !insert_insert_eq. mfinish.
Qed.

Lemma delegate_link s a p new rbn :
  toppars s !! a = Some p ->
  rktp_leader p = None ->
  brokers s !! new = Some rbn ->
  1 <= rktp_refcnt p ->
  rd_kafka_toppar_broker_delegate a (Some new) s
  = Done tt (mk_state (st_rk s) (topics s)
               (<[a := set_rktp_refcnt (rktp_refcnt p + 1)
                         (set_rktp_leader (Some new) p)]> (toppars s))
               (<[new := link_toppar a rbn]> (brokers s))
               (st_errno s)).
Proof.
  intros Hp Hl Hn Hr.
  unfold rd_kafka_toppar_broker_delegate, rd_kafka_toppar_keep, rd_kafka_toppar_destroy,
    rd_kafka_broker_destroy, rd_kafka_broker_keep.
  munfold. mstep. destruct (decide (None = Some new)); [congruence|].
  mstep. rewrite !insert_insert_eq. mfinish.
Qed.

(** Migration is undelegation followed by delegation (section 4.5). *)
Lemma delegate_migrate s a p old rbo new rbn :
  toppars s !! a = Some p ->
  rktp_leader p = Some old ->
  brokers s !! old = Some rbo ->
  brokers s !! new = Some rbn ->
  old <> new ->
  2 <= rktp_refcnt p ->
  rd_kafka_toppar_broker_delegate a (Some new) s
  = (rd_kafka_toppar_broker_delegate a None ;;
     rd_kafka_toppar_broker_delegate a (Some new)) s.
Proof.
  intros Hp Hl Ho Hn Hne Hr.
  rewrite (bind_done _ _ _ _ _ (delegate_unlink s a p old rbo Hp Hl Ho Hr)).
  match goal with
  | |- _ = rd_kafka_toppar_broker_delegate _ _ ?s2 =>
      rewrite (delegate_link s2 a
                 (set_rktp_refcnt (rktp_refcnt p - 1) (set_rktp_leader None p)) new rbn)
  end; [| mstep; try reflexivity; lia ..].
  unfold rd_kafka_toppar_broker_delegate, rd_kafka_toppar_keep, rd_kafka_toppar_destroy,
    rd_kafka_broker_destroy, rd_kafka_broker_keep.
  munfold. mstep. destruct (decide (Some old = Some new)); [congruence|].
  mstep. rewrite !insert_insert_eq. mfinish.
Qed.

(** *** Tail queues *)

Lemma elem_of_TAILQ_REMOVE (a x : addr) (l : list addr) :
  NoDup l -> x ∈ TAILQ_REMOVE a l <-> x ∈ l /\ x <> a.
Proof.
  induction 1 as [|y l Hy Hl IH]; simpl.
  - split; [intros H; inversion H | intros [H _]; inversion H].
  - destruct (decide (y = a)) as [->|Hne].
    + rewrite elem_of_cons. split.
      * intros H. split; [now right|]. intros ->. contradiction.
      * intros [[->|H] Hx]; [contradiction | exact H].
    + rewrite !elem_of_cons, IH. split.
      * intros [->|[H1 H2]]; [split; [now left | exact Hne] | split; [now right | exact H2]].
      * intros [[->|H1] H2]; [now left | right; now split].
Qed.

Lemma NoDup_TAILQ_REMOVE (a : addr) (l : list addr) :
  NoDup l -> NoDup (TAILQ_REMOVE a l).
Proof.
  induction 1 as [|y l Hy Hl IH]; simpl; [constructor|].
  destruct (decide (y = a)); [exact Hl|].
  constructor; [|exact IH].
  rewrite elem_of_TAILQ_REMOVE by exact Hl. intros [H _]. contradiction.
Qed.

Lemma length_TAILQ_REMOVE (a : addr) (l : list addr) :
  a ∈ l -> S (length (TAILQ_REMOVE a l)) = length l.
Proof.
  induction l as [|y l IH]; simpl; [intros H; inversion H|].
  rewrite elem_of_cons. intros H.
  destruct (decide (y = a)) as [->|Hne]; [reflexivity|].
  destruct H as [->|H]; [congruence|]. simpl. now rewrite IH.
Qed.

(** *** Broker delegation keeps leader pointers and broker lists in step *)

Lemma leader_of_insert s s' a q x :
  toppars s' = <[a := q]> (toppars s) ->
  leader_of s' x = if decide (a = x) then rktp_leader q else leader_of s x.
Proof.
  intros E. unfold leader_of. rewrite E, lookup_insert.
  now destruct (decide (a = x)).
Qed.

Ltac leader_upd s a x :=
  match goal with
  | |- context [leader_of (mk_state ?r ?t ?pp ?b ?e) x] =>
      rewrite (leader_of_insert s (mk_state r t pp b e) a _ x) by reflexivity
  end.

Lemma leaders_linked_unlink s a p old rbo :
  leaders_linked s ->
  toppars s !! a = Some p ->
  rktp_leader p = Some old ->
  brokers s !! old = Some rbo ->
  leaders_linked
    (mk_state (st_rk s) (topics s)
       (<[a := set_rktp_refcnt (rktp_refcnt p - 1) (set_rktp_leader None p)]> (toppars s))
       (<[old := unlink_toppar a rbo]> (brokers s)) (st_errno s)).
Proof.
  intros [I1 I2] Hp Hl Ho.
  assert (Hla : leader_of s a = Some old) by (unfold leader_of; now rewrite Hp).
  split.
  - intros x q. simpl. rewrite lookup_insert.
    destruct (decide (a = x)) as [<-|Hne].
    + intros [= <-]. simpl. specialize (I1 a p Hp). rewrite Hl in I1. lia.
    + intros Hq. specialize (I1 x q Hq). destruct (rktp_leader q) as [b|]; [|exact I1].
      destruct I1 as [Hb Hr]. split; [|exact Hr].
      rewrite lookup_insert. destruct (decide (old = b)); [eauto | exact Hb].
  - intros b rb. simpl. rewrite lookup_insert.
    destruct (decide (old = b)) as [<-|Hne].
    + intros [= <-]. destruct (I2 old rbo Ho) as (Hnd & Hcnt & Hmem).
      unfold unlink_toppar; simpl. split; [now apply NoDup_TAILQ_REMOVE|]. split.
      * assert (Ha : a ∈ rkb_toppars rbo) by now apply Hmem.
        apply length_TAILQ_REMOVE in Ha. lia.
      * intros x. rewrite elem_of_TAILQ_REMOVE by exact Hnd.
        rewrite Hmem.
        leader_upd s a x. simpl.
        destruct (decide (a = x)) as [<-|Hx]; split; try congruence; intuition congruence.
    + intros Hrb. destruct (I2 b rb Hrb) as (Hnd & Hcnt & Hmem).
      split; [exact Hnd|]. split; [exact Hcnt|].
      intros x. rewrite Hmem.
      leader_upd s a x. simpl.
      destruct (decide (a = x)) as [<-|Hx]; [|reflexivity].
      rewrite Hla. split; congruence.
Qed.

Lemma leaders_linked_link s a p new rbn :
  leaders_linked s ->
  toppars s !! a = Some p ->
  rktp_leader p = None ->
  brokers s !! new = Some rbn ->
  leaders_linked
    (mk_state (st_rk s) (topics s)
       (<[a := set_rktp_refcnt (rktp_refcnt p + 1) (set_rktp_leader (Some new) p)]>
          (toppars s))
       (<[new := link_toppar a rbn]> (brokers s)) (st_errno s)).
Proof.
  intros [I1 I2] Hp Hl Hn.
  assert (Hla : leader_of s a = None) by (unfold leader_of; now rewrite Hp).
  split.
  - intros x q. simpl. rewrite lookup_insert.
    destruct (decide (a = x)) as [<-|Hne].
    + intros [= <-]. simpl. specialize (I1 a p Hp). rewrite Hl in I1.
      split; [|lia]. rewrite lookup_insert_eq. eauto.
    + intros Hq. specialize (I1 x q Hq). destruct (rktp_leader q) as [b|]; [|exact I1].
      destruct I1 as [Hb Hr]. split; [|exact Hr].
      rewrite lookup_insert. destruct (decide (new = b)); [eauto | exact Hb].
  - intros b rb. simpl. rewrite lookup_insert.
    destruct (decide (new = b)) as [<-|Hne].
    + intros [= <-]. destruct (I2 new rbn Hn) as (Hnd & Hcnt & Hmem).
      assert (Ha : a ∉ rkb_toppars rbn) by (rewrite Hmem, Hla; congruence).
      unfold link_toppar, TAILQ_INSERT_TAIL; simpl. split; [|split].
      * apply NoDup_app. split; [exact Hnd|]. split; [|apply NoDup_singleton].
        intros x Hx Hx'. apply list_elem_of_singleton in Hx'. congruence.
      * rewrite length_app. simpl. lia.
      * intros x. rewrite elem_of_app, list_elem_of_singleton, Hmem.
        leader_upd s a x. simpl.
        destruct (decide (a = x)) as [<-|Hx]; split; try congruence; intuition congruence.
    + intros Hrb. destruct (I2 b rb Hrb) as (Hnd & Hcnt & Hmem).
      split; [exact Hnd|]. split; [exact Hcnt|].
      intros x. rewrite Hmem.
      leader_upd s a x. simpl.
      destruct (decide (a = x)) as [<-|Hx]; [|reflexivity].
      rewrite Hla. split; congruence.
Qed.

(** One call: it returns, keeps the invariant, and changes nothing of the
    partition but its leader pointer and its reference count. *)
Lemma delegate_step s a p tgt :
  leaders_linked s ->
  toppars s !! a = Some p ->
  match tgt with Some b => is_Some (brokers s !! b) | None => True end ->
  exists s',
    rd_kafka_toppar_broker_delegate a tgt s = Done tt s' /\
    leaders_linked s' /\
    st_rk s' = st_rk s /\ topics s' = topics s /\
    toppars s'
    = <[a := set_rktp_refcnt
               (rktp_refcnt p + has_leader tgt - has_leader (rktp_leader p))
               (set_rktp_leader tgt p)]> (toppars s) /\
    (forall b, is_Some (brokers s' !! b) <-> is_Some (brokers s !! b)).
Proof.
  intros Hinv Hp Htgt.
  destruct (decide (rktp_leader p = tgt)) as [<-|Hne].
  { exists s. split; [now apply delegate_same|]. split; [exact Hinv|].
    split; [reflexivity|]. split; [reflexivity|]. split; [|reflexivity].
    symmetry. apply insert_id. rewrite Hp. f_equal.
    destruct p as [? ? l ? ? ? ? ?]; unfold set_rktp_refcnt, set_rktp_leader; simpl.
    f_equal. unfold has_leader. destruct l; lia. }
  pose proof (proj1 Hinv a p Hp) as Href.
  assert (Hdomb : forall (m : gmap positive rd_kafka_broker_t) k v v' x,
             m !! k = Some v -> is_Some (<[k := v']> m !! x) <-> is_Some (m !! x)).
  { intros m k v v' x Hk. rewrite lookup_insert.
    destruct (decide (k = x)) as [<-|]; [|reflexivity]. rewrite Hk. split; eauto. }
  destruct (rktp_leader p) as [old|] eqn:Hl.
  - destruct Href as [[rbo Ho] Hr].
    pose proof (delegate_unlink s a p old rbo Hp Hl Ho Hr) as Hun.
    pose proof (leaders_linked_unlink s a p old rbo Hinv Hp Hl Ho) as Hinv1.
    destruct tgt as [new|].
    + assert (Hon : old <> new) by congruence.
      destruct Htgt as [rbn Hn].
      rewrite (delegate_migrate s a p old rbo new rbn Hp Hl Ho Hn Hon Hr).
      rewrite (bind_done _ _ _ _ _ Hun).
      match goal with
      | |- context [rd_kafka_toppar_broker_delegate _ _ ?s2] => set (s1 := s2) in *
      end.
      assert (Hp1 : toppars s1 !! a
                    = Some (set_rktp_refcnt (rktp_refcnt p - 1) (set_rktp_leader None p)))
        by (subst s1; simpl; apply lookup_insert_eq).
      assert (Hn1 : brokers s1 !! new = Some rbn)
        by (subst s1; simpl; now rewrite lookup_insert_ne).
      rewrite (delegate_link s1 a _ new rbn Hp1 eq_refl Hn1) by (simpl; lia).
      eexists. split; [reflexivity|]. split; [now apply leaders_linked_link|].
      simpl. split; [reflexivity|]. split; [reflexivity|]. split.
      * rewrite insert_insert_eq. f_equal.
        unfold set_rktp_refcnt, set_rktp_leader; simpl. f_equal. lia.
      * intros x. rewrite (Hdomb _ _ rbn) by (now rewrite lookup_insert_ne).
        now apply Hdomb with rbo.
    + eexists. split; [exact Hun|]. split; [exact Hinv1|].
      simpl. split; [reflexivity|]. split; [reflexivity|]. split.
      * f_equal. unfold set_rktp_refcnt, set_rktp_leader; simpl. f_equal. lia.
      * intros x. now apply Hdomb with rbo.
  - destruct tgt as [new|]; [|congruence].
    destruct Htgt as [rbn Hn].
    eexists. split; [now apply (delegate_link s a p new rbn)|].
    split; [now apply leaders_linked_link|].
    simpl. split; [reflexivity|]. split; [reflexivity|]. split.
    + f_equal. unfold set_rktp_refcnt, set_rktp_leader; simpl. f_equal. lia.
    + intros x. now apply Hdomb with rbn.
Qed.

Lemma delegate_all_linked calls : forall s,
  leaders_linked s ->
  (forall a tgt, (a, tgt) ∈ calls ->
     is_Some (toppars s !! a) /\
     match tgt with Some b => is_Some (brokers s !! b) | None => True end) ->
  exists s', delegate_all calls s = Done tt s' /\ leaders_linked s'.
Proof.
  induction calls as [|[a tgt] calls IH]; intros s Hinv Hcalls; simpl.
  - now exists s.
  - destruct (Hcalls a tgt) as [[p Hp] Ht]; [left|].
    destruct (delegate_step s a p tgt Hinv Hp Ht)
      as (s1 & Hrun & Hinv1 & _ & _ & Hpp & Hd2).
    rewrite (bind_done _ _ _ _ _ Hrun).
    apply IH; [exact Hinv1|].
    intros a' tgt' Hin. destruct (Hcalls a' tgt') as [Ha' Ht']; [now right|].
    split.
    + rewrite Hpp, lookup_insert. destruct (decide (a = a')); [eauto | exact Ha'].
    + destruct tgt'; [now apply Hd2 | exact I].
Qed.

(** Under the invariant a broker lists as many partitions as point to it. *)
Lemma leaders_linked_count s b rb :
  leaders_linked s ->
  brokers s !! b = Some rb ->
  length (rkb_toppars rb) = size (led_by s b).
Proof.
  intros [_ I2] Hb. destruct (I2 b rb Hb) as (Hnd & _ & Hmem).
  rewrite <- size_dom, <- (size_list_to_set (C := gset positive)) by exact Hnd.
  f_equal. apply set_eq. intros x.
  rewrite elem_of_list_to_set, Hmem, elem_of_dom.
  unfold led_by, leader_of. split.
  - destruct (toppars s !! x) as [p|] eqn:Hp; [|discriminate].
    intros Hl. exists p. now apply map_lookup_filter_Some.
  - intros [p Hp]. apply map_lookup_filter_Some in Hp. destruct Hp as [Hp Hl].
    now rewrite Hp.
Qed.

Lemma leaders_linked_init s :
  (forall a p, toppars s !! a = Some p -> rktp_leader p = None /\ 1 <= rktp_refcnt p) ->
  (forall b rb, brokers s !! b = Some rb -> rkb_toppars rb = [] /\ rkb_toppar_cnt rb = 0) ->
  leaders_linked s.
Proof.
  intros Hp Hb. split.
  - intros a p Ha. destruct (Hp a p Ha) as [-> Hr]. exact Hr.
  - intros b rb Hrb. destruct (Hb b rb Hrb) as [-> ->].
    split; [constructor|]. split; [reflexivity|].
    intros a. split; [intros H; inversion H|].
    unfold leader_of. destruct (toppars s !! a) as [p|] eqn:Ha; [|discriminate].
    destruct (Hp a p Ha) as [-> _]. discriminate.
Qed.

(** C7: start from a store where no partition has a leader (and every
    partition is referenced) and no broker lists a partition, and run any
    sequence of calls to [rd_kafka_toppar_broker_delegate] on partitions and
    brokers of that store.  After
    each call (after the first [n] calls, for every [n]) every broker lists
    exactly as many partitions as have it as leader, its counter says the
    same, and a partition is in the list if and only if its leader pointer is
    that broker.  Delegating a partition to its current leader leaves the
    store as it is. *)
Theorem delegate_keeps_leader_links :
  forall s0 calls n,
    (forall a p, toppars s0 !! a = Some p ->
                 rktp_leader p = None /\ 1 <= rktp_refcnt p) ->
    (forall b rb, brokers s0 !! b = Some rb ->
                  rkb_toppars rb = [] /\ rkb_toppar_cnt rb = 0) ->
    (forall a tgt, (a, tgt) ∈ calls ->
       is_Some (toppars s0 !! a) /\
       match tgt with Some b => is_Some (brokers s0 !! b) | None => True end) ->
    exists s,
      delegate_all (take n calls) s0 = Done tt s /\
      (forall b rb, brokers s !! b = Some rb ->
         length (rkb_toppars rb) = size (led_by s b) /\
         rkb_toppar_cnt rb = Z.of_nat (size (led_by s b)) /\
         forall a, a ∈ rkb_toppars rb <-> leader_of s a = Some b) /\
      (forall a p, toppars s !! a = Some p ->
         rd_kafka_toppar_broker_delegate a (rktp_leader p) s = Done tt s).
Proof.
  intros s0 calls n Hp Hb Hcalls.
  destruct (delegate_all_linked (take n calls) s0) as (s & Hrun & Hinv).
  - now apply leaders_linked_init.
  - intros a tgt Hin. apply Hcalls. now apply (subseteq_take n calls).
  - exists s. split; [exact Hrun|]. split.
    + intros b rb Hrb. pose proof (leaders_linked_count s b rb Hinv Hrb) as Hc.
      destruct (proj2 Hinv b rb Hrb) as (_ & Hcnt & Hmem).
      split; [exact Hc|]. split; [now rewrite Hcnt, Hc | exact Hmem].
    + intros a p. apply delegate_same.
Qed.

Lemma delegate_keeps_leader_links_witness :
  exists s,
    delegate_all (take 5 some_delegations) st_brokers = Done tt s /\
    (forall b rb, brokers s !! b = Some rb ->
       length (rkb_toppars rb) = size (led_by s b) /\
       rkb_toppar_cnt rb = Z.of_nat (size (led_by s b)) /\
       forall a, a ∈ rkb_toppars rb <-> leader_of s a = Some b) /\
    (forall a p, toppars s !! a = Some p ->
       rd_kafka_toppar_broker_delegate a (rktp_leader p) s = Done tt s).
Proof.
  apply (delegate_keeps_leader_links st_brokers some_delegations 5).
  - refine (bool_decide_unpack
              (map_Forall (fun _ p => rktp_leader p = None /\ 1 <= rktp_refcnt p)
                          (toppars st_brokers)) _).
    vm_compute. exact I.
  - refine (bool_decide_unpack
              (map_Forall (fun _ rb => rkb_toppars rb = [] /\ rkb_toppar_cnt rb = 0)
                          (brokers st_brokers)) _).
    vm_compute. exact I.
  - intros a tgt Hin. unfold some_delegations in Hin.
    repeat (apply elem_of_cons in Hin; destruct Hin as [[= -> ->]|Hin];
            [split; vm_compute; eauto|]).
    inversion Hin.
Defined.

(** ** Leader rebinding does not touch message queues *)

Section Preserves.

Context (R : state -> state -> Prop).
Hypothesis R_refl : forall s, R s s.
Hypothesis R_trans : forall s1 s2 s3, R s1 s2 -> R s2 s3 -> R s1 s3.

Lemma preserves_ret {A} (a : A) : preserves R (ret a).
Proof. intros s a' s' [= _ <-]. apply R_refl. Qed.

Lemma preserves_crash {A} c : preserves R (@crash_with A c).
Proof. intros s a s' H. discriminate H. Qed.

Lemma preserves_bind {A B} (m : M A) (k : A -> M B) :
  preserves R m -> (forall a, preserves R (k a)) -> preserves R (bind m k).
Proof.
  intros Hm Hk s b s'' H. apply bind_inv in H. destruct H as (a & s' & H1 & H2).
  eapply R_trans; [eapply Hm | eapply Hk]; eassumption.
Qed.

Lemma preserves_assert b : preserves R (assert b).
Proof. destruct b; [apply preserves_ret | apply preserves_crash]. Qed.

Lemma preserves_load_toppar a : preserves R (load_toppar a).
Proof.
  intros s p s'. unfold load_toppar. destruct (toppars s !! a); [|discriminate].
  intros [= _ <-]. apply R_refl.
Qed.

Lemma preserves_load_topic a : preserves R (load_topic a).
Proof.
  intros s p s'. unfold load_topic. destruct (topics s !! a); [|discriminate].
  intros [= _ <-]. apply R_refl.
Qed.

Lemma preserves_load_broker a : preserves R (load_broker a).
Proof.
  intros s p s'. unfold load_broker. destruct (brokers s !! a); [|discriminate].
  intros [= _ <-]. apply R_refl.
Qed.

Lemma preserves_get_rk : preserves R get_rk.
Proof. intros s p s' [= _ <-]. apply R_refl. Qed.

End Preserves.

Lemma msgq_kept_refl s : msgq_kept s s.
Proof. intros a p Hp. now exists p. Qed.

Lemma msgq_kept_trans s1 s2 s3 : msgq_kept s1 s2 -> msgq_kept s2 s3 -> msgq_kept s1 s3.
Proof.
  intros H12 H23 a p3 Hp3. destruct (H23 a p3 Hp3) as (p2 & Hp2 & E2).
  destruct (H12 a p2 Hp2) as (p1 & Hp1 & E1). exists p1. split; congruence.
Qed.

Lemma toppars_same_kept s s' : toppars_same s s' -> msgq_kept s s'.
Proof. intros E a p Hp. exists p. unfold toppars_same in E. now rewrite <- E. Qed.

Lemma preserves_weaken {A} (R R' : state -> state -> Prop) (m : M A) :
  (forall s s', R s s' -> R' s s') -> preserves R m -> preserves R' m.
Proof. intros HR Hm s a s' H. apply HR. eapply Hm. exact H. Qed.

Lemma toppars_same_trans s1 s2 s3 :
  toppars_same s1 s2 -> toppars_same s2 s3 -> toppars_same s1 s3.
Proof. unfold toppars_same. congruence. Qed.

Create HintDb frame.
#[local] Hint Resolve msgq_kept_refl msgq_kept_trans toppars_same_trans : frame.
#[local] Hint Extern 0 (toppars_same ?s ?s) => reflexivity : frame.

(** Writing back a partition whose queue is the one it had keeps all queues. *)
Lemma kept_update_toppar {A} a (f : rd_kafka_toppar_t -> rd_kafka_toppar_t)
      (k : rd_kafka_toppar_t -> M A) :
  (forall p, rktp_msgq (f p) = rktp_msgq p) ->
  (forall p, preserves msgq_kept (k p)) ->
  preserves msgq_kept (let* p := load_toppar a in store_toppar a (f p) ;; k p).
Proof.
  intros Hf Hk s r s'. unfold bind at 1. unfold load_toppar.
  destruct (toppars s !! a) as [p|] eqn:Hp; [|discriminate].
  unfold bind, store_toppar.
  intros H. eapply msgq_kept_trans; [|eapply Hk; exact H].
  intros x q. simpl. rewrite lookup_insert.
  destruct (decide (a = x)) as [<-|_].
  - intros [= <-]. exists p. now rewrite Hf.
  - intros Hq. now exists q.
Qed.

Lemma kept_update_toppar_last a (f : rd_kafka_toppar_t -> rd_kafka_toppar_t) :
  (forall p, rktp_msgq (f p) = rktp_msgq p) ->
  preserves msgq_kept (let* p := load_toppar a in store_toppar a (f p)).
Proof.
  intros Hf s r s'. unfold bind, load_toppar, store_toppar.
  destruct (toppars s !! a) as [p|] eqn:Hp; [|discriminate].
  intros [= _ <-]. intros x q. simpl. rewrite lookup_insert.
  destruct (decide (a = x)) as [<-|_].
  - intros [= <-]. exists p. now rewrite Hf.
  - intros Hq. now exists q.
Qed.

Lemma same_store_topic a t : preserves toppars_same (store_topic a t).
Proof. now intros s r s' [= _ <-]. Qed.

Lemma same_store_broker a b : preserves toppars_same (store_broker a b).
Proof. now intros s r s' [= _ <-]. Qed.

Lemma same_put_rk r : preserves toppars_same (put_rk r).
Proof. now intros s x s' [= _ <-]. Qed.

Lemma same_free_topic a : preserves toppars_same (free_topic a).
Proof. now intros s r s' [= _ <-]. Qed.

Lemma kept_free_toppar a : preserves msgq_kept (free_toppar a).
Proof.
  intros s r s' [= _ <-] x q. simpl. rewrite lookup_delete.
  destruct (decide (a = x)); [discriminate|]. intros Hq. now exists q.
Qed.

Ltac same_step :=
  first
    [ apply preserves_ret | apply preserves_crash | apply preserves_assert
    | apply preserves_load_toppar | apply preserves_load_topic
    | apply preserves_load_broker | apply preserves_get_rk
    | apply same_store_topic | apply same_store_broker | apply same_put_rk
    | apply same_free_topic
    | apply preserves_bind; [solve [eauto with frame]| |intros ?] ];
  eauto with frame.

Lemma same_topic_keep rkt : preserves toppars_same (rd_kafka_topic_keep rkt).
Proof. unfold rd_kafka_topic_keep. repeat same_step. Qed.

Lemma same_broker_keep rkb : preserves toppars_same (rd_kafka_broker_keep rkb).
Proof. unfold rd_kafka_broker_keep. repeat same_step. Qed.

Lemma same_broker_destroy rkb : preserves toppars_same (rd_kafka_broker_destroy rkb).
Proof. unfold rd_kafka_broker_destroy. repeat same_step. Qed.

Lemma same_topic_destroy rkt : preserves toppars_same (rd_kafka_topic_destroy rkt).
Proof.
  unfold rd_kafka_topic_destroy, rd_kafka_topic_destroy0, rd_kafka_destroy0.
  repeat same_step. destruct (0 <? _); repeat same_step.
Qed.

Lemma same_leader_query rkt : preserves toppars_same (rd_kafka_topic_leader_query rkt).
Proof. unfold rd_kafka_topic_leader_query. repeat same_step. Qed.

Lemma same_topic_scan l name : preserves toppars_same (topic_scan l name).
Proof.
  induction l as [|a l IH]; simpl; repeat same_step.
  destruct (_ =? 0); [|exact IH]. repeat same_step.
Qed.

Lemma same_broker_scan l n : preserves toppars_same (broker_scan l n).
Proof.
  induction l as [|a l IH]; simpl; repeat same_step.
  destruct (_ =? _); [|exact IH]. repeat same_step.
Qed.

Ltac kept_step :=
  first
    [ apply preserves_ret | apply preserves_crash | apply preserves_assert
    | apply kept_update_toppar; [reflexivity | intros ?]
    | apply kept_update_toppar_last; reflexivity
    | apply kept_free_toppar
    | apply (preserves_weaken toppars_same msgq_kept _ toppars_same_kept);
      first [ apply same_topic_destroy | apply same_broker_destroy
            | apply same_broker_keep | apply same_leader_query
            | apply same_topic_scan | apply same_broker_scan
            | apply same_store_broker | apply same_store_topic ]
    | apply preserves_load_toppar | apply preserves_load_topic
    | apply preserves_load_broker | apply preserves_get_rk
    | apply preserves_bind; [solve [eauto with frame]| |intros ?]
    | match goal with
      | |- preserves _ (if ?b then _ else _) => destruct b
      | |- preserves _ (match ?x with _ => _ end) => destruct x
      end ];
  eauto with frame.

Lemma kept_toppar_keep a : preserves msgq_kept (rd_kafka_toppar_keep a).
Proof. unfold rd_kafka_toppar_keep. repeat kept_step. Qed.

Lemma kept_toppar_destroy a : preserves msgq_kept (rd_kafka_toppar_destroy a).
Proof. unfold rd_kafka_toppar_destroy. repeat kept_step. Qed.

#[local] Hint Resolve kept_toppar_keep kept_toppar_destroy : frame.

Lemma kept_toppar_get rkt partition ua_on_miss :
  preserves msgq_kept (rd_kafka_toppar_get rkt partition ua_on_miss).
Proof. unfold rd_kafka_toppar_get, keep_if_set. repeat kept_step. Qed.

Lemma kept_broker_delegate rktp rkb :
  preserves msgq_kept (rd_kafka_toppar_broker_delegate rktp rkb).
Proof. unfold rd_kafka_toppar_broker_delegate. repeat kept_step. Qed.

#[local] Hint Resolve kept_toppar_get kept_broker_delegate : frame.

Lemma kept_topic_update topic partition leader :
  preserves msgq_kept (rd_kafka_topic_update topic partition leader).
Proof.
  unfold rd_kafka_topic_update, rd_kafka_topic_find, rd_kafka_broker_find_by_nodeid.
  repeat kept_step.
Qed.

(** *** Leader updates return on well-formed stores *)



Lemma leaders_linked_topics s m :
  leaders_linked s -> leaders_linked (set_topics m s).
Proof. intros H. exact H. Qed.


Lemma toppar_keep_done rktp s p :
  toppars s !! rktp = Some p ->
  rd_kafka_toppar_keep rktp s
  = Done tt (set_toppars (<[rktp := set_rktp_refcnt (rktp_refcnt p + 1) p]> (toppars s)) s).
Proof.
  intros Hp. unfold rd_kafka_toppar_keep.
  now rewrite (bind_done _ _ s p s) by now apply load_toppar_done.
Qed.

(** A partition id inside the array is found, with one more reference. *)
Lemma toppar_get_hit rkt partition ua_on_miss s t rktp p :
  topics s !! rkt = Some t ->
  0 <= partition < rkt_partition_cnt t ->
  rkt_p t !! Z.to_nat partition = Some (Some rktp) ->
  toppars s !! rktp = Some p ->
  rd_kafka_toppar_get rkt partition ua_on_miss s
  = Done (Some rktp)
         (set_toppars (<[rktp := set_rktp_refcnt (rktp_refcnt p + 1) p]> (toppars s)) s).
Proof.
  intros Ht Hr Hi Hp. unfold rd_kafka_toppar_get.
  rewrite (bind_done _ _ s t s) by now apply load_topic_done.
  replace (0 <=? partition) with true by (symmetry; apply Z.leb_le; lia).
  replace (partition <? rkt_partition_cnt t) with true by (symmetry; apply Z.ltb_lt; lia).
  simpl. rewrite Hi. simpl.
  now rewrite (bind_done _ _ _ _ _ (toppar_keep_done rktp s p Hp)).
Qed.

(** The end of every path of [rd_kafka_topic_update]: the references taken
    by the two look-ups are given back. *)
Lemma update_release rktp rkt s q t :
  toppars s !! rktp = Some q -> 2 <= rktp_refcnt q ->
  topics s !! rkt = Some t -> 2 <= rkt_refcnt t ->
  exists s',
    (rd_kafka_toppar_destroy rktp ;; rd_kafka_topic_destroy rkt) s = Done tt s' /\
    is_Some (toppars s' !! rktp).
Proof.
  intros Hq Hrq Ht Hrt.
  rewrite (bind_done _ _ _ _ _ (toppar_destroy_not_last rktp s q Hq ltac:(lia))).
  erewrite topic_destroy_not_last; [|exact Ht|exact Hrt].
  eexists. split; [reflexivity|]. simpl. rewrite lookup_insert_eq. eauto.
Qed.

Lemma broker_destroy_done rkb s b :
  brokers s !! rkb = Some b ->
  rd_kafka_broker_destroy rkb s
  = Done tt (set_brokers (<[rkb := set_rkb_refcnt (rkb_refcnt b - 1) b]> (brokers s)) s).
Proof.
  intros Hb. unfold rd_kafka_broker_destroy.
  now rewrite (bind_done _ _ s b s) by now apply load_broker_done.
Qed.

Lemma leader_query_done rkt s :
  rd_kafka_topic_leader_query rkt s
  = Done tt (set_st_rk (mk_rk (rk_topics (st_rk s)) (rk_topic_cnt (st_rk s))
                              (rk_brokers (st_rk s)) (rk_refcnt (st_rk s))
                              (rk_leader_queries (st_rk s) ++ [rkt])) s).
Proof. reflexivity. Qed.

(** Migration when only the invariants of the partition at hand are known:
    the reference of the old link is given back and the one of the new link
    is taken, so that the count is what it was. *)
Lemma delegate_migrate_run s a p old rbo new rbn :
  toppars s !! a = Some p ->
  rktp_leader p = Some old ->
  brokers s !! old = Some rbo ->
  brokers s !! new = Some rbn ->
  old <> new ->
  1 <= rktp_refcnt p ->
  rd_kafka_toppar_broker_delegate a (Some new) s
  = Done tt (mk_state (st_rk s) (topics s)
               (<[a := set_rktp_refcnt (rktp_refcnt p) (set_rktp_leader (Some new) p)]>
                  (toppars s))
               (<[new := link_toppar a rbn]> (<[old := unlink_toppar a rbo]> (brokers s)))
               (st_errno s)).
Proof.
  intros Hp Hl Ho Hn Hne Hr.
  unfold rd_kafka_toppar_broker_delegate, rd_kafka_toppar_keep, rd_kafka_toppar_destroy,
    rd_kafka_broker_destroy, rd_kafka_broker_keep, TAILQ_INSERT_TAIL.
  munfold. mstep. destruct (decide (Some old = Some new)); [congruence|].
  mstep. rewrite !insert_insert_eq. mfinish.
Qed.

(** Taking the leader away from a partition whose only reference is the one
    of its leader link: what is left to do after the unlinking is the release
    of that reference. *)
Lemma delegate_unlink_last s a p old rbo :
  toppars s !! a = Some p ->
  rktp_leader p = Some old ->
  brokers s !! old = Some rbo ->
  rktp_refcnt p = 1 ->
  rd_kafka_toppar_broker_delegate a None s
  = rd_kafka_toppar_destroy a
      (mk_state (st_rk s) (topics s)
         (<[a := set_rktp_leader None p]> (toppars s))
         (<[old := unlink_toppar a rbo]> (brokers s)) (st_errno s)).
Proof.
  intros Hp Hl Ho Hr.
  unfold rd_kafka_toppar_broker_delegate, rd_kafka_toppar_keep, rd_kafka_broker_destroy.
  munfold. mstep. destruct (decide (Some old = None)); [congruence|].
  mstep.
  unfold rd_kafka_toppar_destroy at 1. munfold. mstep.
  rewrite Hr. change (1 + 1 - 1 =? 0) with false. cbv iota.
  mstep. rewrite !insert_insert_eq.
  f_equal. apply state_eq; simpl; try reflexivity.
  f_equal. unfold set_rktp_refcnt, set_rktp_leader. simpl. now rewrite Hr.
Qed.

(** One call on a live, referenced partition whose leader, if any, is a live
    broker: unless the call takes the last reference away, it returns and
    changes nothing of the partition but its leader pointer and its
    reference count, and nothing of any other partition. *)
Lemma delegate_run s a p tgt :
  toppars s !! a = Some p ->
  1 <= rktp_refcnt p ->
  match rktp_leader p with Some b => is_Some (brokers s !! b) | None => True end ->
  match tgt with Some b => is_Some (brokers s !! b) | None => True end ->
  ~ (rktp_refcnt p = 1 /\ is_Some (rktp_leader p) /\ tgt = None) ->
  exists s',
    rd_kafka_toppar_broker_delegate a tgt s = Done tt s' /\
    st_rk s' = st_rk s /\ topics s' = topics s /\
    toppars s'
    = <[a := set_rktp_refcnt
               (rktp_refcnt p + has_leader tgt - has_leader (rktp_leader p))
               (set_rktp_leader tgt p)]> (toppars s) /\
    (forall b, is_Some (brokers s' !! b) <-> is_Some (brokers s !! b)).
Proof.
  intros Hp Hr Hold Htgt Hlast.
  destruct (decide (rktp_leader p = tgt)) as [<-|Hne].
  { exists s. split; [now apply delegate_same|].
    split; [reflexivity|]. split; [reflexivity|]. split; [|reflexivity].
    symmetry. apply insert_id. rewrite Hp. f_equal.
    destruct p as [? ? l ? ? ? ? ?]; unfold set_rktp_refcnt, set_rktp_leader; simpl.
    f_equal. unfold has_leader. destruct l; lia. }
  assert (Hdomb : forall (m : gmap positive rd_kafka_broker_t) k v v' x,
             m !! k = Some v -> is_Some (<[k := v']> m !! x) <-> is_Some (m !! x)).
  { intros m k v v' x Hk. rewrite lookup_insert.
    destruct (decide (k = x)) as [<-|]; [|reflexivity]. rewrite Hk. split; eauto. }
  destruct (rktp_leader p) as [old|] eqn:Hl.
  - destruct Hold as [rbo Ho].
    destruct tgt as [new|].
    + assert (Hon : old <> new) by congruence.
      destruct Htgt as [rbn Hn].
      eexists. split; [exact (delegate_migrate_run s a p old rbo new rbn Hp Hl Ho Hn Hon Hr)|].
      simpl. split; [reflexivity|]. split; [reflexivity|]. split.
      * f_equal. unfold set_rktp_refcnt, set_rktp_leader; simpl. f_equal. lia.
      * intros x. rewrite (Hdomb _ _ rbn) by (now rewrite lookup_insert_ne).
        now apply Hdomb with rbo.
    + assert (Hr2 : 2 <= rktp_refcnt p).
      { destruct (decide (rktp_refcnt p = 1)) as [E|E]; [|lia].
        exfalso. apply Hlast. split; [exact E|]. split; [eauto | reflexivity]. }
      eexists. split; [exact (delegate_unlink s a p old rbo Hp Hl Ho Hr2)|].
      simpl. split; [reflexivity|]. split; [reflexivity|]. split.
      * f_equal. unfold set_rktp_refcnt, set_rktp_leader; simpl. f_equal. lia.
      * intros x. now apply Hdomb with rbo.
  - destruct tgt as [new|]; [|congruence].
    destruct Htgt as [rbn Hn].
    eexists. split; [now apply (delegate_link s a p new rbn)|].
    simpl. split; [reflexivity|]. split; [reflexivity|]. split.
    + f_equal. unfold set_rktp_refcnt, set_rktp_leader; simpl. f_equal. lia.
    + intros x. now apply Hdomb with rbn.
Qed.

(** A leader update on a partition of the array: unless it takes the last
    reference away, it returns and the partition is still there. *)
Lemma topic_update_returns s topic partition leader rkt s1 rkb s2 t rktp p :
  rd_kafka_topic_find topic s = Done (Some rkt) s1 ->
  rd_kafka_broker_find_by_nodeid leader s1 = Done rkb s2 ->
  topics s !! rkt = Some t ->
  1 <= rkt_refcnt t ->
  0 <= partition < rkt_partition_cnt t ->
  rkt_p t !! Z.to_nat partition = Some (Some rktp) ->
  toppars s !! rktp = Some p ->
  1 <= rktp_refcnt p ->
  match rktp_leader p with Some b => is_Some (brokers s !! b) | None => True end ->
  ~ (rktp_refcnt p = 1 /\ is_Some (rktp_leader p) /\ (leader = -1 \/ rkb = None)) ->
  exists s',
    rd_kafka_topic_update topic partition leader s = Done tt s' /\
    is_Some (toppars s' !! rktp).
Proof.
  intros Hfind Hfb Ht Hrt Hr Hi Hp Hr1 Hold Hlast.
  unfold rd_kafka_topic_update.
  rewrite (bind_done _ _ _ _ _ Hfind).
  apply rd_kafka_topic_find_inv in Hfind.
  destruct Hfind as (_ & t0 & Ht0 & _ & ->).
  rewrite Ht in Ht0. inversion Ht0; subst t0; clear Ht0.
  set (t1 := set_rkt_refcnt (rkt_refcnt t + 1) t).
  set (s1 := set_topics _ s) in *.
  (* the broker look-up *)
  rewrite (bind_done _ _ _ _ _ Hfb).
  assert (H2 : topics s2 = topics s1 /\ toppars s2 = toppars s1 /\
               (forall b, is_Some (brokers s !! b) -> is_Some (brokers s2 !! b)) /\
               match rkb with Some b => is_Some (brokers s2 !! b) | None => True end).
  { apply broker_scan_inv in Hfb. destruct rkb as [b|].
    - destruct Hfb as (_ & rb & Hrb & _ & ->).
      split; [reflexivity|]. split; [reflexivity|]. split.
      + intros x Hx. simpl. rewrite lookup_insert.
        destruct (decide (b = x)); [eauto | exact Hx].
      + simpl. rewrite lookup_insert_eq. eauto.
    - subst s2. split; [reflexivity|]. split; [reflexivity|]. split; [|exact I].
      intros x Hx. exact Hx. }
  destruct H2 as (Htop2 & Hpp2 & Hlive2 & Hrkb).
  (* the partition look-up *)
  assert (Ht2 : topics s2 !! rkt = Some t1)
    by (rewrite Htop2; subst s1; simpl; apply lookup_insert_eq).
  assert (Hp2 : toppars s2 !! rktp = Some p) by (rewrite Hpp2; exact Hp).
  rewrite (bind_done _ _ _ _ _
             (toppar_get_hit rkt partition 0 s2 t1 rktp p Ht2 Hr Hi Hp2)).
  set (p3 := set_rktp_refcnt (rktp_refcnt p + 1) p).
  set (s3 := set_toppars _ s2).
  assert (Hp3 : toppars s3 !! rktp = Some p3) by (subst s3; simpl; apply lookup_insert_eq).
  assert (Ht3 : topics s3 !! rkt = Some t1) by exact Ht2.
  assert (Hold3 : match rktp_leader p3 with
                  | Some b => is_Some (brokers s3 !! b)
                  | None => True
                  end).
  { subst p3. simpl. destruct (rktp_leader p); [|exact I]. now apply Hlive2. }
  assert (Hrt1 : 2 <= rkt_refcnt t1) by (subst t1; simpl; lia).
  simpl assert. rewrite (bind_done _ _ s3 tt s3) by reflexivity.
  (* the two paths that undelegate, and the one that delegates *)
  assert (Hdel : forall tgt,
             match tgt with Some b => is_Some (brokers s3 !! b) | None => True end ->
             ~ (rktp_refcnt p = 1 /\ is_Some (rktp_leader p) /\ tgt = None) ->
             exists s4 q4,
               rd_kafka_toppar_broker_delegate rktp tgt s3 = Done tt s4 /\
               toppars s4 !! rktp = Some q4 /\ 2 <= rktp_refcnt q4 /\
               topics s4 = topics s3 /\
               (forall b, is_Some (brokers s4 !! b) <-> is_Some (brokers s3 !! b))).
  { intros tgt Htgt Hl.
    destruct (delegate_run s3 rktp p3 tgt Hp3) as (s4 & Hrun & _ & Htop4 & Hpp4 & Hb4);
      [subst p3; simpl; lia | exact Hold3 | exact Htgt
      | subst p3; simpl; intros (E & _); lia |].
    eexists s4, _. split; [exact Hrun|]. split; [rewrite Hpp4; apply lookup_insert_eq|].
    split; [|split; [exact Htop4 | exact Hb4]].
    subst p3. simpl. unfold has_leader in *.
    destruct tgt as [b|]; destruct (rktp_leader p) as [o|] eqn:El; try lia.
    destruct (decide (rktp_refcnt p = 1)) as [E|E]; [|lia].
    exfalso. apply Hl. split; [exact E|]. split; [eauto | reflexivity]. }
  assert (Hundel :
            ~ (rktp_refcnt p = 1 /\ is_Some (rktp_leader p)) ->
            exists s',
              (rd_kafka_toppar_broker_delegate rktp None ;;
               rd_kafka_topic_leader_query rkt ;;
               rd_kafka_toppar_destroy rktp ;;
               rd_kafka_topic_destroy rkt) s3 = Done tt s' /\
              is_Some (toppars s' !! rktp)).
  { intros Hl.
    destruct (Hdel None I) as (s4 & q4 & Hrun & Hq4 & Hrq4 & Htop4 & _);
      [intros (E1 & E2 & _); apply Hl; now split|].
    rewrite (bind_done _ _ _ _ _ Hrun).
    rewrite (bind_done _ _ _ _ _ (leader_query_done rkt s4)).
    eapply update_release; simpl; [exact Hq4 | exact Hrq4 | | exact Hrt1].
    rewrite Htop4. exact Ht3. }
  destruct (leader =? -1) eqn:El.
  { apply Z.eqb_eq in El. apply Hundel. intros (E1 & E2). apply Hlast.
    split; [exact E1|]. split; [exact E2 | now left]. }
  destruct rkb as [b|];
    [|apply Hundel; intros (E1 & E2); apply Hlast;
      split; [exact E1|]; split; [exact E2 | now right]].
  rewrite (bind_done _ _ _ _ _ (load_toppar_done s3 rktp p3 Hp3)).
  assert (Hb3 : is_Some (brokers s3 !! b)) by exact Hrkb.
  destruct (decide (rktp_leader p3 = Some b)) as [_|_].
  - destruct Hb3 as [rb Hrb].
    rewrite (bind_done _ _ _ _ _ (broker_destroy_done b s3 rb Hrb)).
    eapply update_release; simpl; [exact Hp3 | subst p3; simpl; lia | exact Ht3 | exact Hrt1].
  - destruct (Hdel (Some b) Hb3) as (s4 & q4 & Hrun & Hq4 & Hrq4 & Htop4 & Hb4);
      [intros (_ & _ & E); discriminate E|].
    rewrite (bind_done _ _ _ _ _ Hrun).
    destruct (proj2 (Hb4 b) Hb3) as [rb Hrb].
    rewrite (bind_done _ _ _ _ _ (broker_destroy_done b s4 rb Hrb)).
    eapply update_release; simpl; [exact Hq4 | exact Hrq4 | | exact Hrt1].
    rewrite Htop4. exact Ht3.
Qed.

(** C9, as amended: rebinding the leader of a partition, by
    [rd_kafka_toppar_broker_delegate] or through [rd_kafka_topic_update],
    leaves the partition's message queue as it was (same messages, same
    order, same message and byte counters), with one exception: when the
    reference of the leader link is the only one the partition holds and the
    leader is taken away, the partition is freed, and its queue with it.  In
    full: whenever either operation returns, every partition that is still
    there has the queue it had; on a live, referenced partition whose leader,
    if any, is a live broker, [rd_kafka_toppar_broker_delegate] returns and,
    outside the exception, leaves the partition in place with the new leader
    and its queue, and every other partition untouched; in the exceptional
    case it returns and the partition is gone from the heap; and
    [rd_kafka_topic_update] on such a partition of the array returns and
    leaves the partition in place with its queue, outside the same exception
    (the leader link holds the only reference and the update takes the leader
    away: its node id is -1 or that of no broker on the client's list). *)
Theorem leader_rebinding_keeps_msgq :
  (forall s rktp rkb s',
      rd_kafka_toppar_broker_delegate rktp rkb s = Done tt s' -> msgq_kept s s') /\
  (forall s topic partition leader s',
      rd_kafka_topic_update topic partition leader s = Done tt s' -> msgq_kept s s') /\
  (forall s rktp p rkb,
      toppars s !! rktp = Some p ->
      1 <= rktp_refcnt p ->
      match rktp_leader p with Some b => is_Some (brokers s !! b) | None => True end ->
      match rkb with Some b => is_Some (brokers s !! b) | None => True end ->
      ~ (rktp_refcnt p = 1 /\ is_Some (rktp_leader p) /\ rkb = None) ->
      exists s' p',
        rd_kafka_toppar_broker_delegate rktp rkb s = Done tt s' /\
        toppars s' !! rktp = Some p' /\
        rktp_leader p' = rkb /\
        rktp_msgq p' = rktp_msgq p /\
        forall a, a <> rktp -> toppars s' !! a = toppars s !! a) /\
  (forall s rktp p t,
      toppars s !! rktp = Some p ->
      rktp_refcnt p = 1 ->
      match rktp_leader p with Some b => is_Some (brokers s !! b) | None => False end ->
      topics s !! rktp_rkt p = Some t ->
      1 <= rkt_refcnt t ->
      exists s',
        rd_kafka_toppar_broker_delegate rktp None s = Done tt s' /\
        toppars s' = delete rktp (toppars s)) /\
  (forall s rktp p topic partition leader rkt s1 rkb s2 t,
      toppars s !! rktp = Some p ->
      1 <= rktp_refcnt p ->
      match rktp_leader p with Some b => is_Some (brokers s !! b) | None => True end ->
      rd_kafka_topic_find topic s = Done (Some rkt) s1 ->
      rd_kafka_broker_find_by_nodeid leader s1 = Done rkb s2 ->
      topics s !! rkt = Some t ->
      1 <= rkt_refcnt t ->
      0 <= partition < rkt_partition_cnt t ->
      rkt_p t !! Z.to_nat partition = Some (Some rktp) ->
      ~ (rktp_refcnt p = 1 /\ is_Some (rktp_leader p) /\ (leader = -1 \/ rkb = None)) ->
      exists s' p',
        rd_kafka_topic_update topic partition leader s = Done tt s' /\
        toppars s' !! rktp = Some p' /\
        rktp_msgq p' = rktp_msgq p).
Proof.
  split; [|split; [|split; [|split]]].
  - intros s rktp rkb s' Hrun. exact (kept_broker_delegate rktp rkb s tt s' Hrun).
  - intros s topic partition leader s' Hrun.
    exact (kept_topic_update topic partition leader s tt s' Hrun).
  - intros s rktp p rkb Hp Hr Hold Hrkb Hlast.
    destruct (delegate_run s rktp p rkb Hp Hr Hold Hrkb Hlast)
      as (s' & Hrun & _ & _ & Hpp & _).
    eexists s', _. split; [exact Hrun|].
    split; [rewrite Hpp; apply lookup_insert_eq|].
    split; [reflexivity|]. split; [reflexivity|].
    intros a Ha. rewrite Hpp. now apply lookup_insert_ne.
  - intros s rktp p t Hp Hr Hold Ht Hrt.
    destruct (rktp_leader p) as [old|] eqn:Hl; [|contradiction].
    destruct Hold as [rbo Ho].
    rewrite (delegate_unlink_last s rktp p old rbo Hp Hl Ho Hr).
    match goal with
    | |- context [rd_kafka_toppar_destroy _ ?s1] =>
        rewrite (toppar_destroy_run rktp s1 (set_rktp_leader None p) t)
          by (simpl; first [apply lookup_insert_eq | exact Ht])
    end.
    cbn [rktp_refcnt rktp_rkt set_rktp_leader]. rewrite Hr.
    change (1 =? 1) with true. cbv iota.
    destruct (2 <=? rkt_refcnt t) eqn:E2.
    + eexists. split; [reflexivity|]. simpl. now rewrite delete_insert_eq.
    + apply Z.leb_gt in E2.
      replace (rkt_refcnt t =? 1) with true by (symmetry; apply Z.eqb_eq; lia).
      eexists. split; [reflexivity|]. simpl. now rewrite delete_insert_eq.
  - intros s rktp p topic partition leader rkt s1 rkb s2 t
           Hp Hr1 Hold Hfind Hfb Ht Hrt Hr Hi Hlast.
    destruct (topic_update_returns s topic partition leader rkt s1 rkb s2 t rktp p
                Hfind Hfb Ht Hrt Hr Hi Hp Hr1 Hold Hlast) as (s' & Hrun & [p' Hp']).
    exists s', p'. split; [exact Hrun|]. split; [exact Hp'|].
    destruct (kept_topic_update topic partition leader s tt s' Hrun rktp p' Hp')
      as (p0 & Hp0 & E).
    congruence.
Qed.


Lemma leader_rebinding_keeps_msgq_witness :
  exists s' p',
    rd_kafka_topic_update "orders" 0 2 st_queued = Done tt s' /\
    toppars s' !! 2%positive = Some p' /\
    rktp_msgq p' = mk_msgq [msg_a; msg_b] 2 3.
Proof.
  assert (Hp : exists p, toppars st_queued !! 2%positive = Some p /\
                         rktp_msgq p = mk_msgq [msg_a; msg_b] 2 3 /\
                         rktp_refcnt p = 2 /\ rktp_leader p = Some 1%positive)
    by (eexists; split; [vm_compute; reflexivity | repeat split]).
  destruct Hp as (p & Hp & Hq & Hr & Hl).
  assert (Ht : exists t, topics st_queued !! 1%positive = Some t /\
                         rkt_refcnt t = 4 /\ rkt_partition_cnt t = 2 /\
                         rkt_p t = [Some 2%positive; Some 3%positive])
    by (eexists; split; [vm_compute; reflexivity | repeat split]).
  destruct Ht as (t & Ht & Hrt & Hcnt & Harr).
  assert (Hfind : rd_kafka_topic_find "orders" st_queued
                  = Done (Some 1%positive) (exec (rd_kafka_topic_find "orders") st_queued))
    by (vm_compute; reflexivity).
  assert (Hfb : rd_kafka_broker_find_by_nodeid
                  2 (exec (rd_kafka_topic_find "orders") st_queued)
                = Done (Some 2%positive)
                       (exec (rd_kafka_broker_find_by_nodeid 2)
                             (exec (rd_kafka_topic_find "orders") st_queued)))
    by (vm_compute; reflexivity).
  destruct leader_rebinding_keeps_msgq as (_ & _ & _ & _ & Hupd).
  destruct (Hupd st_queued 2%positive p "orders"%string 0 2 1%positive
                 (exec (rd_kafka_topic_find "orders") st_queued)
                 (Some 2%positive)
                 (exec (rd_kafka_broker_find_by_nodeid 2)
                       (exec (rd_kafka_topic_find "orders") st_queued))
                 t Hp) as (s' & p' & H1 & H2 & H3).
  - rewrite Hr. lia.
  - rewrite Hl. eexists. vm_compute. reflexivity.
  - exact Hfind.
  - exact Hfb.
  - exact Ht.
  - rewrite Hrt. lia.
  - rewrite Hcnt. lia.
  - rewrite Harr. reflexivity.
  - intros (E & _). rewrite Hr in E. discriminate E.
  - exists s', p'. split; [exact H1|]. split; [exact H2|]. now rewrite H3.
Defined.

(** C9, as stated, fails where the leader link holds the last reference.
    Partition 3 of "orders" is created as a desired partition, a message is
    queued on it, broker 1 becomes its leader, and the application unmarks
    it: the partition now has one message and one reference, the one of
    broker 1's list.  Taking the leader away frees the partition, and the
    message with it. *)
Lemma leader_rebinding_frees_last_reference :
  exists p s',
    toppars st_last_link !! 4%positive = Some p /\
    rktp_msgq p = mk_msgq [msg_a] 1 1 /\
    rktp_leader p = Some 1%positive /\
    rktp_refcnt p = 1 /\
    rd_kafka_toppar_broker_delegate 4%positive None st_last_link = Done tt s' /\
    toppars s' !! 4%positive = None.
Proof.
  eexists _, _.
  split; [vm_compute; reflexivity|].
  split; [reflexivity|]. split; [reflexivity|]. split; [reflexivity|].
  split; [vm_compute; reflexivity|].
  vm_compute. reflexivity.
Qed.

(** ** Creating a topic twice *)

Lemma topic_keep_done rkt s t :
  topics s !! rkt = Some t ->
  rd_kafka_topic_keep rkt s
  = Done tt (set_topics (<[rkt := set_rkt_refcnt (rkt_refcnt t + 1) t]> (topics s)) s).
Proof.
  intros Ht. unfold rd_kafka_topic_keep.
  now rewrite (bind_done _ _ _ _ _ (load_topic_done s rkt t Ht)).
Qed.

Lemma topic_scan_total l name s :
  (forall a, a ∈ l -> is_Some (topics s !! a)) ->
  exists r s', topic_scan l name s = Done r s'.
Proof.
  induction l as [|a l IH]; intros Hl; simpl.
  - now eexists _, _.
  - destruct (Hl a) as [t Ht]; [left|].
    rewrite (bind_done _ _ _ _ _ (load_topic_done s a t Ht)).
    destruct (_ =? 0).
    + rewrite (bind_done _ _ _ _ _ (topic_keep_done a s t Ht)). now eexists _, _.
    + apply IH. intros b Hb. apply Hl. now right.
Qed.

Lemma topic_scan_none l name s s' :
  topic_scan l name s = Done None s' ->
  forall a t, a ∈ l -> topics s !! a = Some t -> rkt_topic t <> name.
Proof.
  induction l as [|a l IH]; simpl; intros H b t Hb Ht.
  - inversion Hb.
  - unfold bind at 1 in H. unfold load_topic in H.
    destruct (topics s !! a) as [ta|] eqn:Ha; [|discriminate].
    unfold rd_kafkap_str_cmp_str in H.
    destruct (String.eqb (rkt_topic ta) name) eqn:En; simpl in H.
    + apply bind_inv in H. destruct H as (? & ? & _ & H). discriminate.
    + apply elem_of_cons in Hb. destruct Hb as [->|Hb].
      * rewrite Ha in Ht. injection Ht as <-. now apply String.eqb_neq.
      * now apply (IH H b t).
Qed.

(** When a single registered topic bears the name, the scan returns it. *)
Lemma topic_scan_hit l name s rkt t :
  (forall a, a ∈ l -> is_Some (topics s !! a)) ->
  rkt ∈ l ->
  topics s !! rkt = Some t ->
  rkt_topic t = name ->
  (forall a ta, a ∈ l -> topics s !! a = Some ta -> rkt_topic ta = name -> a = rkt) ->
  topic_scan l name s
  = Done (Some rkt)
         (set_topics (<[rkt := set_rkt_refcnt (rkt_refcnt t + 1) t]> (topics s)) s).
Proof.
  intros Hl Hin Ht Hn Huniq.
  destruct (topic_scan_total l name s Hl) as (r & s' & Hrun).
  rewrite Hrun. destruct r as [a|].
  - apply topic_scan_inv in Hrun. destruct Hrun as (Ha & ta & Hta & Hna & ->).
    assert (a = rkt) by (eapply Huniq; eassumption). subst a.
    rewrite Ht in Hta. now injection Hta as <-.
  - exfalso. eapply topic_scan_none; eassumption.
Qed.

Lemma filter_eq_NoDup (x : string) (l : list string) :
  NoDup l -> x ∈ l -> filter (fun n => n = x) l = [x].
Proof.
  induction 1 as [|y l Hy Hl IH]; intros Hx; [inversion Hx|].
  rewrite filter_cons. destruct (decide (y = x)) as [->|Hne].
  - f_equal. clear IH Hx Hl. induction l as [|z l IH]; [reflexivity|].
    rewrite filter_cons. rewrite not_elem_of_cons in Hy. destruct Hy as [Hz Hy].
    destruct (decide (z = x)); [congruence | now apply IH].
  - apply elem_of_cons in Hx. destruct Hx as [->|Hx]; [congruence | now apply IH].
Qed.

Lemma filter_eq_absent (x : string) (l : list string) :
  x ∉ l -> filter (fun n => n = x) l = [].
Proof.
  induction l as [|z l IH]; [reflexivity|].
  rewrite not_elem_of_cons. intros [Hz Hl]. rewrite filter_cons.
  destruct (decide (z = x)); [congruence | now apply IH].
Qed.

Lemma elem_of_registry_names s n :
  n ∈ registry_names s <->
  exists rkt t, rkt ∈ rk_topics (st_rk s) /\ topics s !! rkt = Some t /\ rkt_topic t = n.
Proof.
  unfold registry_names. rewrite list_elem_of_omap. split.
  - intros (rkt & Hin & Hn). destruct (topics s !! rkt) as [t|] eqn:Ht; [|discriminate].
    injection Hn as <-. now exists rkt, t.
  - intros (rkt & t & Hin & Ht & <-). exists rkt. split; [exact Hin|]. now rewrite Ht.
Qed.

(** Names do not change when a registered topic gets one more reference. *)
Lemma registry_names_keep s rkt t n :
  topics s !! rkt = Some t ->
  registry_names (set_topics (<[rkt := set_rkt_refcnt n t]> (topics s)) s)
  = registry_names s.
Proof.
  intros Ht. unfold registry_names. cbn [topics st_rk set_topics].
  apply list_omap_ext. apply Forall_Forall2_diag, Forall_forall.
  intros a _. rewrite lookup_insert.
  destruct (decide (rkt = a)) as [<-|_]; [|reflexivity]. now rewrite Ht.
Qed.

(** Names do not change when an unregistered address gets a topic, except
    that the new topic's name is added once it is registered at the tail. *)
Lemma registry_names_create s rkt t rk' tps' pps' bks' e' :
  (forall a, a ∈ rk_topics (st_rk s) -> is_Some (topics s !! a)) ->
  topics s !! rkt = None ->
  rk_topics rk' = TAILQ_INSERT_TAIL (rk_topics (st_rk s)) rkt ->
  tps' = <[rkt := t]> (topics s) ->
  registry_names (mk_state rk' tps' pps' bks' e') = registry_names s ++ [rkt_topic t].
Proof.
  intros Hl Hfresh Hrk ->. unfold registry_names. cbn [topics st_rk]. rewrite Hrk.
  unfold TAILQ_INSERT_TAIL. rewrite omap_app. cbn [omap list_omap].
  rewrite lookup_insert_eq. cbn [fmap option_fmap option_map].
  f_equal. apply list_omap_ext. apply Forall_Forall2_diag, Forall_forall.
  intros a Ha. rewrite lookup_insert_ne; [reflexivity|].
  intros <-. destruct (Hl rkt Ha) as [x Hx]. congruence.
Qed.

Section TopicNewTwice.

Variable conf_new : rd_kafka_topic_conf_t.
Variable random : nat.

(** The creation path, once the look-up has missed. *)
Lemma topic_new_create_done name conf s :
  exists s1 t1,
    topic_new_create conf_new random name conf s
    = Done (Some (fresh (dom (topics s)))) s1 /\
    rk_topics (st_rk s1)
    = TAILQ_INSERT_TAIL (rk_topics (st_rk s)) (fresh (dom (topics s))) /\
    topics s1 = <[fresh (dom (topics s)) := t1]> (topics s) /\
    rkt_topic t1 = name /\ rkt_refcnt t1 = 2.
Proof.
  unfold topic_new_create, rd_kafka_toppar_new, alloc_topic, rd_kafka_topic_keep,
    rd_kafka_keep, alloc_toppar, rd_kafka_toppar_keep, rd_kafka_topic_leader_query.
  munfold. mstep.
  eexists _, _. split; [reflexivity|]. cbn [st_rk set_st_rk rk_topics topics set_topics].
  split; [reflexivity|]. rewrite !insert_insert_eq.
  split; [reflexivity|]. split; reflexivity.
Qed.

Lemma topic_new_valid name c s :
  0 < message_timeout_ms c -> 0 < request_timeout_ms c ->
  rd_kafka_topic_new conf_new random (Some name) (Some c) s
  = (let* r := rd_kafka_topic_find name in
     match r with
     | Some rkt => ret (Some rkt)
     | None => topic_new_create conf_new random name (Some c)
     end) s.
Proof.
  intros H1 H2. unfold rd_kafka_topic_new, deref_conf.
  rewrite (bind_done _ _ s c s) by reflexivity.
  replace (message_timeout_ms c <=? 0) with false by (symmetry; apply Z.leb_gt; lia).
  replace (request_timeout_ms c <=? 0) with false by (symmetry; apply Z.leb_gt; lia).
  reflexivity.
Qed.

End TopicNewTwice.

Lemma registry_names_inj s a b n :
  NoDup (registry_names s) ->
  a ∈ rk_topics (st_rk s) -> b ∈ rk_topics (st_rk s) ->
  rkt_topic <$> topics s !! a = Some n ->
  rkt_topic <$> topics s !! b = Some n ->
  a = b.
Proof.
  unfold registry_names. generalize (rk_topics (st_rk s)) as l.
  induction l as [|x l IH]; intros Hnd Ha Hb Hfa Hfb; [inversion Ha|].
  apply elem_of_cons in Ha, Hb. simpl in Hnd.
  assert (Hin : forall c, c ∈ l -> rkt_topic <$> topics s !! c = Some n ->
                          n ∈ omap (fun rkt => rkt_topic <$> topics s !! rkt) l).
  { intros c Hc Hfc. apply list_elem_of_omap. now exists c. }
  destruct Ha as [->|Ha], Hb as [->|Hb]; [reflexivity| | |].
  - rewrite Hfa in Hnd. apply NoDup_cons in Hnd. destruct Hnd as [Hn _].
    exfalso. apply Hn. now apply (Hin b).
  - rewrite Hfb in Hnd. apply NoDup_cons in Hnd. destruct Hnd as [Hn _].
    exfalso. apply Hn. now apply (Hin a).
  - apply IH; try assumption.
    destruct (rkt_topic <$> topics s !! x); [|exact Hnd].
    apply NoDup_cons in Hnd. tauto.
Qed.

(** C8: on a registry without dangling entries and without duplicate names,
    two calls of [rd_kafka_topic_new] with the same name and valid
    configurations return the same topic; the second call adds nothing, it
    only takes one more reference on the topic; and the registry then holds
    exactly one entry with that name. *)
Theorem topic_new_twice_same_topic :
  forall conf_new random s name c1 c2,
    registry_ok s ->
    0 < message_timeout_ms c1 -> 0 < request_timeout_ms c1 ->
    0 < message_timeout_ms c2 -> 0 < request_timeout_ms c2 ->
    exists rkt s1 s2 t1,
      rd_kafka_topic_new conf_new random (Some name) (Some c1) s = Done (Some rkt) s1 /\
      rd_kafka_topic_new conf_new random (Some name) (Some c2) s1 = Done (Some rkt) s2 /\
      topics s1 !! rkt = Some t1 /\ rkt_topic t1 = name /\
      s2 = set_topics (<[rkt := set_rkt_refcnt (rkt_refcnt t1 + 1) t1]> (topics s1)) s1 /\
      filter (fun n => n = name) (registry_names s2) = [name].
Proof.
  intros conf_new random s name c1 c2 [Hlive Hnd] Hm1 Hr1 Hm2 Hr2.
  (* what the second call needs of the store left by the first *)
  assert (Hsecond : forall rkt s1 t1,
             (forall a, a ∈ rk_topics (st_rk s1) -> is_Some (topics s1 !! a)) ->
             rkt ∈ rk_topics (st_rk s1) ->
             topics s1 !! rkt = Some t1 -> rkt_topic t1 = name ->
             (forall a ta, a ∈ rk_topics (st_rk s1) -> topics s1 !! a = Some ta ->
                           rkt_topic ta = name -> a = rkt) ->
             filter (fun n => n = name) (registry_names s1) = [name] ->
             rd_kafka_topic_new conf_new random (Some name) (Some c2) s1
             = Done (Some rkt)
                 (set_topics (<[rkt := set_rkt_refcnt (rkt_refcnt t1 + 1) t1]> (topics s1)) s1)
             /\ filter (fun n => n = name)
                  (registry_names
                     (set_topics (<[rkt := set_rkt_refcnt (rkt_refcnt t1 + 1) t1]>
                                    (topics s1)) s1)) = [name]).
  { intros rkt s1 t1 Hl1 Hin1 Ht1 Hn1 Hu1 Hc1. split.
    - rewrite topic_new_valid by assumption.
      assert (Hhit := topic_scan_hit _ name s1 rkt t1 Hl1 Hin1 Ht1 Hn1 Hu1).
      assert (Hf : rd_kafka_topic_find name s1 = Done (Some rkt)
                (set_topics (<[rkt := set_rkt_refcnt (rkt_refcnt t1 + 1) t1]> (topics s1)) s1))
        by exact Hhit.
      now rewrite (bind_done _ _ _ _ _ Hf).
    - now rewrite (registry_names_keep s1 rkt t1 _ Ht1). }
  rewrite topic_new_valid by assumption.
  destruct (topic_scan_total (rk_topics (st_rk s)) name s Hlive) as (r & s' & Hscan).
  assert (Hf : rd_kafka_topic_find name s = Done r s') by exact Hscan.
  rewrite (bind_done _ _ _ _ _ Hf). clear Hf.
  destruct r as [rkt|].
  - (* the topic is registered already *)
    apply topic_scan_inv in Hscan. destruct Hscan as (Hin & t & Ht & Hn & ->).
    set (t1 := set_rkt_refcnt (rkt_refcnt t + 1) t).
    set (s1 := set_topics _ s).
    assert (Ht1 : topics s1 !! rkt = Some t1) by (subst s1; simpl; apply lookup_insert_eq).
    destruct (Hsecond rkt s1 t1) as [Hcall Hcnt].
    + intros a Ha. subst s1. simpl. rewrite lookup_insert.
      destruct (decide (rkt = a)); [eauto | now apply Hlive].
    + exact Hin.
    + exact Ht1.
    + exact Hn.
    + intros a ta Ha Hta Hna. subst s1. simpl in Hta, Ha.
      apply (registry_names_inj s a rkt name Hnd Ha Hin);
        [|rewrite Ht; simpl; now rewrite Hn].
      rewrite lookup_insert in Hta. destruct (decide (rkt = a)) as [<-|_].
      * rewrite Ht; simpl; now rewrite Hn.
      * rewrite Hta; simpl; now rewrite Hna.
    + subst s1 t1. rewrite (registry_names_keep s rkt t _ Ht).
      apply filter_eq_NoDup; [exact Hnd|].
      apply elem_of_registry_names. now exists rkt, t.
    + exists rkt, s1. eexists. exists t1.
      split; [reflexivity|]. split; [exact Hcall|]. split; [exact Ht1|].
      split; [exact Hn|]. split; [reflexivity | exact Hcnt].
  - (* the topic is new *)
    assert (Hnone := topic_scan_none _ _ _ _ Hscan).
    apply topic_scan_inv in Hscan. subst s'.
    destruct (topic_new_create_done conf_new random name (Some c1) s)
      as (s1 & t1 & Hcall1 & Hreg & Htop & Hn1 & _).
    set (rkt := fresh (dom (topics s))) in *.
    assert (Hfresh : topics s !! rkt = None)
      by (apply not_elem_of_dom; subst rkt; apply is_fresh).
    assert (Ht1 : topics s1 !! rkt = Some t1) by (rewrite Htop; apply lookup_insert_eq).
    assert (Hold : forall a, a ∈ rk_topics (st_rk s) -> a <> rkt).
    { intros a Ha ->. destruct (Hlive rkt Ha) as [x Hx]. congruence. }
    destruct (Hsecond rkt s1 t1) as [Hcall Hcnt].
    + intros a. rewrite Hreg, Htop. unfold TAILQ_INSERT_TAIL.
      rewrite elem_of_app, list_elem_of_singleton, lookup_insert.
      intros [Ha| ->]; destruct (decide _); eauto; congruence.
    + rewrite Hreg. unfold TAILQ_INSERT_TAIL.
      rewrite elem_of_app, list_elem_of_singleton. now right.
    + exact Ht1.
    + exact Hn1.
    + intros a ta. rewrite Hreg, Htop. unfold TAILQ_INSERT_TAIL.
      rewrite elem_of_app, list_elem_of_singleton, lookup_insert.
      intros [Ha| ->]; [|reflexivity].
      destruct (decide (rkt = a)); [congruence|].
      intros Hta Hna. exfalso. now apply (Hnone a ta).
    + destruct s1 as [rk1 tps1 pps1 bks1 e1]. simpl in Hreg, Htop.
      rewrite (registry_names_create s rkt t1 rk1 tps1 pps1 bks1 e1 Hlive Hfresh Hreg Htop).
      rewrite filter_app, Hn1, filter_eq_absent.
      * simpl. rewrite filter_cons. now destruct (decide (name = name)).
      * rewrite elem_of_registry_names. intros (a & ta & Ha & Hta & Hna).
        now apply (Hnone a ta).
    + exists rkt, s1. eexists. exists t1.
      split; [exact Hcall1|]. split; [exact Hcall|]. split; [exact Ht1|].
      split; [exact Hn1|]. split; [reflexivity | exact Hcnt].
Qed.

Lemma topic_new_twice_same_topic_witness :
  exists rkt s1 s2 t1,
    rd_kafka_topic_new default_conf 0%nat (Some "orders"%string) (Some default_conf)
                       rd_kafka_new = Done (Some rkt) s1 /\
    rd_kafka_topic_new default_conf 0%nat (Some "orders"%string) (Some default_conf)
                       s1 = Done (Some rkt) s2 /\
    topics s1 !! rkt = Some t1 /\ rkt_topic t1 = "orders"%string /\
    s2 = set_topics (<[rkt := set_rkt_refcnt (rkt_refcnt t1 + 1) t1]> (topics s1)) s1 /\
    filter (fun n => n = "orders"%string) (registry_names s2) = ["orders"%string].
Proof.
  apply (topic_new_twice_same_topic default_conf 0%nat rd_kafka_new "orders"
           default_conf default_conf).
  - split; [intros a Ha; inversion Ha | constructor].
  - simpl. lia.
  - simpl. lia.
  - simpl. lia.
  - simpl. lia.
Defined.

(** ** Shrinking the partition count *)

(** C3 (defect in the code): [rd_kafka_topic_partition_cnt_update] looks the
    unassigned partition up with [rd_kafka_toppar_get(rkt,
    RD_KAFKA_PARTITION_UA, 0)].  The sentinel is no index of the array and
    [ua_on_miss] is 0, so the look-up gives NULL on every store, and the
    messages of a removed partition are purged even though the unassigned
    partition exists.  In scenario S3 the two messages of partition 2 are in
    no queue after the update and the unassigned queue is still empty. *)
Theorem cnt_update_shrink_drops_messages :
  (forall rkt s t,
      topics s !! rkt = Some t ->
      rd_kafka_toppar_get rkt RD_KAFKA_PARTITION_UA 0 s = Done None s) /\
  (exists t ua p s',
      topics st_shrink !! 1%positive = Some t /\
      rkt_partition_cnt t = 3 /\
      rkt_p t !! 2%nat = Some (Some 4%positive) /\
      rkt_ua t = Some 1%positive /\
      toppars st_shrink !! 1%positive = Some ua /\
      rktp_msgq ua = rd_kafka_msgq_init /\
      toppars st_shrink !! 4%positive = Some p /\
      rktp_msgq p = mk_msgq [msg_a; msg_b] 2 3 /\
      rd_kafka_topic_partition_cnt_update "orders" 2 st_shrink = Done 1 s' /\
      map_Forall (fun _ q => rktp_msgq q = rd_kafka_msgq_init) (toppars s') /\
      is_Some (toppars s' !! 1%positive)).
Proof.
  split.
  - intros rkt s t Ht. apply (toppar_get_miss rkt RD_KAFKA_PARTITION_UA s t Ht).
    unfold RD_KAFKA_PARTITION_UA. lia.
  - eexists _, _, _, _.
    split; [vm_compute; reflexivity|].
    split; [reflexivity|]. split; [reflexivity|]. split; [reflexivity|].
    split; [vm_compute; reflexivity|]. split; [reflexivity|].
    split; [vm_compute; reflexivity|]. split; [reflexivity|].
    split; [vm_compute; reflexivity|].
    split.
    + match goal with
      | |- map_Forall ?P ?m => refine (bool_decide_unpack (map_Forall P m) _)
      end.
      vm_compute. exact I.
    + eexists. vm_compute. reflexivity.
Qed.

(** ** Draining the unassigned partition *)

Lemma msgq_enq_all_msgs l F :
  rkmq_msgs (fold_left rd_kafka_msgq_enq l F) = rkmq_msgs F ++ l.
Proof.
  revert F. induction l as [|m l IH]; intros F; simpl.
  - now rewrite app_nil_r.
  - rewrite IH. simpl. now rewrite <- app_assoc.
Qed.

Lemma msgq_enq_all_cnt l F :
  rkmq_msg_cnt (fold_left rd_kafka_msgq_enq l F) = rkmq_msg_cnt F + Z.of_nat (length l).
Proof.
  revert F. induction l as [|m l IH]; intros F; simpl; [lia|].
  rewrite IH. simpl. lia.
Qed.

Lemma msgq_enq_all_bytes l F :
  rkmq_msg_bytes (fold_left rd_kafka_msgq_enq l F)
  = rkmq_msg_bytes F + foldr (fun m acc => rkm_len m + acc) 0 l.
Proof.
  revert F. induction l as [|m l IH]; intros F; simpl; [lia|].
  rewrite IH. simpl. lia.
Qed.



Section Drain.

Variable partition_for : nat -> string -> Z -> rd_kafka_msg_t -> option Z.

(** The verdict of [rejects] does not look at the reference count. *)
Lemma rejects_refcnt t n rkm :
  rejects partition_for (set_rkt_refcnt n t) rkm = rejects partition_for t rkm.
Proof. reflexivity. Qed.

(** A rejected message: -1, and the store is untouched. *)
Lemma msg_partitioner_rejects rkt t rkm s f :
  topics s !! rkt = Some t ->
  partitioner (rkt_conf t) = Some f ->
  rejects partition_for t rkm = true ->
  rd_kafka_msg_partitioner partition_for rkt rkm s = Done (-1) s.
Proof.
  intros Ht Hf Hrej. unfold rd_kafka_msg_partitioner, rejects in *.
  rewrite (bind_done _ _ _ _ _ (load_topic_done s rkt t Ht)). rewrite Hf in *.
  destruct (partition_for f _ _ rkm) as [partition|]; [|reflexivity].
  assert (Hout : ~ (0 <= partition < rkt_partition_cnt t)).
  { intros [H1 H2]. apply Z.leb_le in H1. apply Z.ltb_lt in H2.
    rewrite H1, H2 in Hrej. discriminate. }
  now rewrite (bind_done _ _ _ _ _ (toppar_get_miss rkt partition s t Ht Hout)).
Qed.


Lemma parts_ok_update s t ua a q q' :
  parts_ok s t ua ->
  toppars s !! a = Some q ->
  rktp_refcnt q <= rktp_refcnt q' ->
  parts_ok (set_toppars (<[a := q']> (toppars s)) s) t ua.
Proof.
  intros Hparts Hq Hr i Hi. destruct (Hparts i Hi) as (b & qb & Hb & Hne & Hqb & Hrb).
  simpl. destruct (decide (a = b)) as [<-|Hab].
  - exists a, q'. rewrite lookup_insert_eq. repeat split; try assumption.
    rewrite Hq in Hqb. injection Hqb as <-. lia.
  - exists b, qb. rewrite lookup_insert_ne by exact Hab. now repeat split.
Qed.



Lemma set_rkt_refcnt_back t n :
  n = rkt_refcnt t -> set_rkt_refcnt n (set_rkt_refcnt (rkt_refcnt t + 1) t) = t.
Proof. intros ->. now destruct t. Qed.

(** The reference a look-up has taken on a topic, once released, leaves the
    store as it was before the look-up. *)
Lemma topic_find_release name s rkt s1 t :
  rd_kafka_topic_find name s = Done (Some rkt) s1 ->
  topics s !! rkt = Some t ->
  1 <= rkt_refcnt t ->
  rd_kafka_topic_destroy rkt s1 = Done tt s.
Proof.
  intros Hfind Ht Hr. apply rd_kafka_topic_find_inv in Hfind.
  destruct Hfind as (_ & t0 & Ht0 & _ & ->).
  rewrite Ht in Ht0. injection Ht0 as <-.
  erewrite topic_destroy_not_last;
    [|simpl; apply lookup_insert_eq | simpl; lia].
  f_equal. apply state_eq; simpl; try reflexivity.
  rewrite insert_insert_eq. apply insert_id. rewrite Ht. f_equal.
  symmetry. apply set_rkt_refcnt_back. simpl. lia.
Qed.


(** When the look-up of the unassigned partition misses, the drain gives the
    topic reference back and nothing has changed. *)
Lemma assign_uas_miss ua_on_miss s topic rkt s1 t :
  rd_kafka_topic_find topic s = Done (Some rkt) s1 ->
  topics s !! rkt = Some t ->
  1 <= rkt_refcnt t ->
  ua_on_miss = 0 \/ rkt_ua t = None ->
  rd_kafka_topic_assign_uas partition_for ua_on_miss topic s = Done tt s.
Proof.
  intros Hfind Ht Hrt Hmiss.
  pose proof (topic_find_release topic s rkt s1 t Hfind Ht Hrt) as Hrel.
  unfold rd_kafka_topic_assign_uas.
  rewrite (bind_done _ _ _ _ _ Hfind).
  apply rd_kafka_topic_find_inv in Hfind.
  destruct Hfind as (_ & t0 & Ht0 & _ & Hs1).
  rewrite Ht in Ht0. injection Ht0 as <-.
  assert (Ht1 : topics s1 !! rkt = Some (set_rkt_refcnt (rkt_refcnt t + 1) t))
    by (rewrite Hs1; simpl; apply lookup_insert_eq).
  assert (Hget : rd_kafka_toppar_get rkt RD_KAFKA_PARTITION_UA ua_on_miss s1
                 = Done None s1).
  { rewrite (toppar_get_ua_run rkt ua_on_miss s1 _ Ht1).
    destruct Hmiss as [-> | Hua]; [reflexivity|].
    cbn [rkt_ua set_rkt_refcnt]. rewrite Hua. now destruct (ua_on_miss =? 0). }
  rewrite (bind_done _ _ _ _ _ Hget). exact Hrel.
Qed.


End Drain.



(** ** Growing the partition count *)

Lemma desired_scan_inv l partition s r s' :
  desired_scan l partition s = Done r s' ->
  match r with
  | None => s' = s
  | Some a =>
      a ∈ l /\
      exists p, toppars s !! a = Some p /\ rktp_partition p = partition /\
                s' = set_toppars (<[a := set_rktp_refcnt (rktp_refcnt p + 1) p]> (toppars s)) s
  end.
Proof.
  revert s. induction l as [|a l IH]; intros s H; simpl in H.
  - now inversion H.
  - unfold bind at 1 in H. unfold load_toppar in H.
    destruct (toppars s !! a) as [p|] eqn:Ea; [|discriminate].
    destruct (rktp_partition p =? partition) eqn:En.
    + rewrite (bind_done _ _ _ _ _ (toppar_keep_done a s p Ea)) in H.
      inversion H; subst. split; [left|].
      exists p. apply Z.eqb_eq in En. auto.
    + specialize (IH s H). destruct r as [b|]; [|exact IH].
      destruct IH as [Hin Hb]. split; [now right | exact Hb].
Qed.

Lemma desired_scan_total l partition s :
  (forall a, a ∈ l -> is_Some (toppars s !! a)) ->
  exists r s', desired_scan l partition s = Done r s'.
Proof.
  induction l as [|a l IH]; intros Hl; simpl.
  - now eexists _, _.
  - destruct (Hl a) as [p Hp]; [left|].
    rewrite (bind_done _ _ _ _ _ (load_toppar_done s a p Hp)).
    destruct (_ =? _).
    + rewrite (bind_done _ _ _ _ _ (toppar_keep_done a s p Hp)). now eexists _, _.
    + apply IH. intros b Hb. apply Hl. now right.
Qed.

Lemma desired_scan_none l partition s s' :
  desired_scan l partition s = Done None s' ->
  forall a p, a ∈ l -> toppars s !! a = Some p -> rktp_partition p <> partition.
Proof.
  induction l as [|a l IH]; simpl; intros H b p Hb Hp.
  - inversion Hb.
  - unfold bind at 1 in H. unfold load_toppar in H.
    destruct (toppars s !! a) as [pa|] eqn:Ha; [|discriminate].
    destruct (rktp_partition pa =? partition) eqn:En.
    + apply bind_inv in H. destruct H as (? & ? & _ & H). discriminate.
    + apply elem_of_cons in Hb. destruct Hb as [->|Hb].
      * rewrite Ha in Hp. injection Hp as <-. now apply Z.eqb_neq.
      * now apply (IH H b p).
Qed.

(** On a desired list without dangling entries the look-up either finds a
    partition with the id, or there is none on the list. *)
Lemma desired_get_cases rkt partition s t :
  topics s !! rkt = Some t ->
  (forall a, a ∈ rkt_desp t -> is_Some (toppars s !! a)) ->
  (exists a p,
      a ∈ rkt_desp t /\ toppars s !! a = Some p /\ rktp_partition p = partition /\
      rd_kafka_toppar_desired_get rkt partition s
      = Done (Some a)
             (set_toppars (<[a := set_rktp_refcnt (rktp_refcnt p + 1) p]> (toppars s)) s)) \/
  ((forall a p, a ∈ rkt_desp t -> toppars s !! a = Some p -> rktp_partition p <> partition) /\
   rd_kafka_toppar_desired_get rkt partition s = Done None s).
Proof.
  intros Ht Hl. unfold rd_kafka_toppar_desired_get.
  rewrite (bind_done _ _ _ _ _ (load_topic_done s rkt t Ht)).
  destruct (desired_scan_total (rkt_desp t) partition s Hl) as (r & s' & Hrun).
  rewrite Hrun. destruct r as [a|].
  - left. apply desired_scan_inv in Hrun. destruct Hrun as (Hin & p & Hp & Hid & ->).
    now exists a, p.
  - right. split; [now apply (desired_scan_none _ _ _ _ Hrun)|].
    apply desired_scan_inv in Hrun. now subst.
Qed.

(** Distinct ids on the desired list: the id names the entry. *)
Lemma desp_ids_inj s t a b pa pb :
  NoDup (desp_ids s t) ->
  a ∈ rkt_desp t -> b ∈ rkt_desp t ->
  toppars s !! a = Some pa -> toppars s !! b = Some pb ->
  rktp_partition pa = rktp_partition pb ->
  a = b.
Proof.
  unfold desp_ids. generalize (rkt_desp t) as l.
  induction l as [|x l IH]; intros Hnd Ha Hb Hpa Hpb Hid; [inversion Ha|].
  apply elem_of_cons in Ha, Hb. simpl in Hnd.
  assert (Hin : forall c pc, c ∈ l -> toppars s !! c = Some pc ->
                  rktp_partition pc ∈ omap (fun a => rktp_partition <$> toppars s !! a) l).
  { intros c pc Hc Hpc. apply list_elem_of_omap. exists c. now rewrite Hpc. }
  destruct Ha as [->|Ha], Hb as [->|Hb]; [reflexivity| | |].
  - rewrite Hpa in Hnd. simpl in Hnd. apply NoDup_cons in Hnd. destruct Hnd as [Hn _].
    exfalso. apply Hn. rewrite Hid. now apply (Hin b).
  - rewrite Hpb in Hnd. simpl in Hnd. apply NoDup_cons in Hnd. destruct Hnd as [Hn _].
    exfalso. apply Hn. rewrite <- Hid. now apply (Hin a).
  - apply IH; try assumption.
    destruct (rktp_partition <$> toppars s !! x); [|exact Hnd].
    apply NoDup_cons in Hnd. tauto.
Qed.

Lemma desp_ok_NoDup s t : desp_ok s t -> NoDup (rkt_desp t).
Proof.
  intros [Hl Hnd]. unfold desp_ids in Hnd. revert Hl Hnd.
  generalize (rkt_desp t) as l. induction l as [|x l IH]; intros Hl Hnd; [constructor|].
  destruct (Hl x) as [p Hp]; [left|]. simpl in Hnd. rewrite Hp in Hnd. simpl in Hnd.
  apply NoDup_cons in Hnd. destruct Hnd as [Hn Hnd].
  constructor.
  - intros Hx. apply Hn. apply list_elem_of_omap. exists x. now rewrite Hp.
  - apply IH; [|exact Hnd]. intros a Ha. apply Hl. now right.
Qed.

(** The three ways a slot of the new array is filled. *)

Lemma slot_keep_run rkt k s t x :
  topics s !! rkt = Some t ->
  Z.of_nat k < rkt_partition_cnt t ->
  rkt_p t !! k = Some x ->
  cnt_update_slot rkt k s = Done x s.
Proof.
  intros Ht Hk Hx. unfold cnt_update_slot.
  rewrite (bind_done _ _ _ _ _ (load_topic_done s rkt t Ht)).
  replace (rkt_partition_cnt t <=? Z.of_nat k) with false
    by (symmetry; apply Z.leb_gt; lia).
  now rewrite Hx.
Qed.

Lemma slot_absorb_run rkt k s t a p :
  topics s !! rkt = Some t ->
  rkt_partition_cnt t <= Z.of_nat k ->
  toppars s !! a = Some p ->
  rd_kafka_toppar_desired_get rkt (Z.of_nat k) s
  = Done (Some a)
         (set_toppars (<[a := set_rktp_refcnt (rktp_refcnt p + 1) p]> (toppars s)) s) ->
  cnt_update_slot rkt k s
  = Done (Some a)
         (mk_state (st_rk s)
            (<[rkt := set_rkt_desp (TAILQ_REMOVE a (rkt_desp t)) t]> (topics s))
            (<[a := absorb p]> (toppars s))
            (brokers s) (st_errno s)).
Proof.
  intros Ht Hk Hp Hget. unfold cnt_update_slot.
  rewrite (bind_done _ _ _ _ _ (load_topic_done s rkt t Ht)).
  replace (rkt_partition_cnt t <=? Z.of_nat k) with true
    by (symmetry; apply Z.leb_le; lia).
  rewrite (bind_done _ _ _ _ _ Hget).
  munfold. mstep. rewrite !insert_insert_eq. mfinish.
Qed.

Lemma slot_fresh_run rkt k s t :
  topics s !! rkt = Some t ->
  rkt_partition_cnt t <= Z.of_nat k ->
  rd_kafka_toppar_desired_get rkt (Z.of_nat k) s = Done None s ->
  cnt_update_slot rkt k s
  = Done (Some (fresh (dom (toppars s))))
         (mk_state (st_rk s)
            (<[rkt := set_rkt_refcnt (rkt_refcnt t + 1) t]> (topics s))
            (<[fresh (dom (toppars s)) := fresh_toppar rkt (Z.of_nat k)]> (toppars s))
            (brokers s) (st_errno s)).
Proof.
  intros Ht Hk Hget. unfold cnt_update_slot.
  rewrite (bind_done _ _ _ _ _ (load_topic_done s rkt t Ht)).
  replace (rkt_partition_cnt t <=? Z.of_nat k) with true
    by (symmetry; apply Z.leb_le; lia).
  rewrite (bind_done _ _ _ _ _ Hget).
  unfold rd_kafka_toppar_new, alloc_toppar, rd_kafka_toppar_keep, rd_kafka_topic_keep.
  munfold. mstep. rewrite !insert_insert_eq. mfinish.
Qed.

(** One round of the first loop keeps [grow_inv]. *)
Lemma grow_step s1 rkt t1 n k s rktps :
  desp_ok s1 t1 ->
  0 <= rkt_partition_cnt t1 ->
  (Z.to_nat (rkt_partition_cnt t1) <= length (rkt_p t1))%nat ->
  grow_inv s1 rkt t1 k s rktps ->
  length rktps = n -> (k < n)%nat ->
  exists x s',
    cnt_update_slot rkt k s = Done x s' /\
    grow_inv s1 rkt t1 (S k) s' (<[k := x]> rktps).
Proof.
  intros [Hlive1 Hnd1] Hold Hlen ((t & Ht & Hcnt & Hparr & Hrc & Hnd & Hmem) & Hpp & Hslots)
         Hn Hk.
  set (old := rkt_partition_cnt t1) in *.
  (* the slots below k stay as they are when the old partitions of the
     store keep their records *)
  assert (Hkeep : forall s' x,
             (forall a q, toppars s1 !! a = None -> toppars s !! a = Some q ->
                          toppars s' !! a = Some q) ->
             forall i, (i < k)%nat ->
               (Z.of_nat i < old -> <[k := x]> rktps !! i = rkt_p t1 !! i) /\
               (old <= Z.of_nat i ->
                (forall a p, a ∈ rkt_desp t1 -> toppars s1 !! a = Some p ->
                             rktp_partition p = Z.of_nat i ->
                             <[k := x]> rktps !! i = Some (Some a)) /\
                ((forall a p, a ∈ rkt_desp t1 -> toppars s1 !! a = Some p ->
                              rktp_partition p <> Z.of_nat i) ->
                 exists a, <[k := x]> rktps !! i = Some (Some a) /\
                           toppars s1 !! a = None /\
                           toppars s' !! a = Some (fresh_toppar rkt (Z.of_nat i))))).
  { intros s' x Hs' i Hi. rewrite list_lookup_insert_ne by lia.
    destruct (Hslots i Hi) as [HK HN]. split; [exact HK|].
    intros Hge. destruct (HN Hge) as [HH HM]. split; [exact HH|].
    intros Hno. destruct (HM Hno) as (a & Ha1 & Ha2 & Ha3).
    exists a. split; [exact Ha1|]. split; [exact Ha2|]. now apply Hs'. }
  destruct (Z_lt_le_dec (Z.of_nat k) old) as [Hlt|Hge].
  - (* an existing partition is moved *)
    destruct (lookup_lt_is_Some_2 (rkt_p t1) k) as [x Hx]; [lia|].
    exists x, s. split.
    { apply (slot_keep_run rkt k s t x Ht); [fold old in Hcnt; lia | now rewrite Hparr]. }
    split; [|split].
    + exists t. repeat (split; [assumption|]).
      intros a. rewrite Hmem. split; intros [Ha Hp]; (split; [exact Ha|]);
        intros p Hpa; specialize (Hp p Hpa); lia.
    + intros a p Hp. rewrite (Hpp a p Hp). f_equal.
      rewrite (bool_decide_ext _ (a ∈ rkt_desp t1 /\ old <= rktp_partition p < Z.of_nat (S k)));
        [reflexivity|].
      split; intros [Ha Hr]; (split; [exact Ha|]); lia.
    + intros i Hi. destruct (decide (i = k)) as [->|Hne].
      * split; [|lia]. intros _. rewrite list_lookup_insert_eq by lia. now rewrite Hx.
      * apply (Hkeep s x); [auto | lia].
  - (* a new partition *)
    assert (Hlive : forall a, a ∈ rkt_desp t -> is_Some (toppars s !! a)).
    { intros a Ha. apply Hmem in Ha. destruct Ha as [Ha _].
      destruct (Hlive1 a Ha) as [p Hp]. rewrite (Hpp a p Hp). eauto. }
    assert (Hcnt' : rkt_partition_cnt t <= Z.of_nat k) by (rewrite Hcnt; exact Hge).
    destruct (desired_get_cases rkt (Z.of_nat k) s t Ht Hlive)
      as [(a & p & Ha & Hp & Hid & Hget) | (Hno & Hget)].
    + (* found on the desired list *)
      apply Hmem in Ha as Ha'. destruct Ha' as [HaD Hnot].
      destruct (Hlive1 a HaD) as [p1 Hp1].
      assert (p = p1).
      { pose proof (Hpp a p1 Hp1) as H. rewrite Hp in H. injection H as ->.
        rewrite bool_decide_eq_false_2; [reflexivity|].
        intros [_ Hr]. now apply (Hnot p1 Hp1). }
      subst p1.
      exists (Some a). eexists. split; [exact (slot_absorb_run rkt k s t a p Ht Hcnt' Hp Hget)|].
      assert (Huniq : forall b pb, b ∈ rkt_desp t1 -> toppars s1 !! b = Some pb ->
                         rktp_partition pb = Z.of_nat k -> b = a).
      { intros b pb Hb Hpb Hidb.
        apply (desp_ids_inj s1 t1 b a pb p Hnd1 Hb HaD Hpb Hp1). congruence. }
      split; [|split].
      * exists (set_rkt_desp (TAILQ_REMOVE a (rkt_desp t)) t). simpl.
        split; [apply lookup_insert_eq|]. repeat (split; [assumption|]).
        split; [now apply NoDup_TAILQ_REMOVE|].
        intros b. rewrite elem_of_TAILQ_REMOVE by exact Hnd. rewrite Hmem. split.
        -- intros [[Hb Hpb] Hne]. split; [exact Hb|]. intros pb Hpb1 Hr.
           specialize (Hpb pb Hpb1).
           assert (rktp_partition pb = Z.of_nat k) by lia.
           apply Hne. now apply (Huniq b pb).
        -- intros [Hb Hpb]. split; [split; [exact Hb|]|].
           ++ intros pb Hpb1 Hr. apply (Hpb pb Hpb1). lia.
           ++ intros ->. apply (Hpb p Hp1). lia.
      * intros b pb Hpb. simpl. rewrite lookup_insert.
        destruct (decide (a = b)) as [<-|Hne].
        -- rewrite Hp1 in Hpb. injection Hpb as <-.
           rewrite bool_decide_eq_true_2; [reflexivity|]. split; [exact HaD | lia].
        -- rewrite (Hpp b pb Hpb). f_equal.
           rewrite (bool_decide_ext _
                      (b ∈ rkt_desp t1 /\ old <= rktp_partition pb < Z.of_nat (S k)));
             [reflexivity|].
           split; intros [Hb Hr]; (split; [exact Hb|]); [lia|].
           assert (rktp_partition pb <> Z.of_nat k); [|lia].
           intros Hidb. apply Hne. symmetry. now apply (Huniq b pb).
      * intros i Hi. destruct (decide (i = k)) as [->|Hne].
        -- split; [lia|]. intros _. split.
           ++ intros b pb Hb Hpb Hidb. rewrite list_lookup_insert_eq by lia.
              now rewrite (Huniq b pb Hb Hpb Hidb).
           ++ intros Hnone. exfalso. apply (Hnone a p HaD Hp1). congruence.
        -- apply Hkeep; [|lia]. intros b q Hb1 Hbq. simpl.
           rewrite lookup_insert_ne; [exact Hbq | congruence].
    + (* not on the desired list *)
      assert (HnoD : forall a p, a ∈ rkt_desp t1 -> toppars s1 !! a = Some p ->
                       rktp_partition p <> Z.of_nat k).
      { intros a p HaD Hp1 Hid.
        assert (Ha : a ∈ rkt_desp t).
        { apply Hmem. split; [exact HaD|]. intros p' Hp'. rewrite Hp1 in Hp'.
          injection Hp' as <-. lia. }
        apply (Hno a p Ha); [|exact Hid].
        rewrite (Hpp a p Hp1). rewrite bool_decide_eq_false_2; [reflexivity|].
        intros [_ Hr]. lia. }
      pose proof (slot_fresh_run rkt k s t Ht Hcnt' Hget) as Hrun.
      remember (fresh (dom (toppars s))) as af eqn:Haf.
      assert (Hfresh : toppars s !! af = None)
        by (apply not_elem_of_dom; subst af; apply is_fresh).
      assert (Hfresh1 : toppars s1 !! af = None).
      { destruct (toppars s1 !! af) as [p|] eqn:E; [|reflexivity].
        rewrite (Hpp af p E) in Hfresh. discriminate. }
      exists (Some af). eexists. split; [exact Hrun|].
      split; [|split].
      * exists (set_rkt_refcnt (rkt_refcnt t + 1) t). simpl.
        split; [apply lookup_insert_eq|]. repeat (split; [assumption|]).
        split; [lia|]. split; [exact Hnd|].
        intros a. rewrite Hmem. split; intros [Ha Hp]; (split; [exact Ha|]);
          intros p Hpa; specialize (Hp p Hpa); [|lia].
        pose proof (HnoD a p Ha Hpa). lia.
      * intros b pb Hpb. simpl.
        rewrite lookup_insert_ne by (intros E; rewrite <- E, Hfresh1 in Hpb; discriminate).
        rewrite (Hpp b pb Hpb). f_equal.
        rewrite (bool_decide_ext _
                   (b ∈ rkt_desp t1 /\ old <= rktp_partition pb < Z.of_nat (S k)));
          [reflexivity|].
        split; intros [Hb Hr]; (split; [exact Hb|]); [lia|].
        pose proof (HnoD b pb Hb Hpb). lia.
      * intros i Hi. destruct (decide (i = k)) as [->|Hne].
        -- split; [lia|]. intros _. split.
           ++ intros b pb Hb Hpb Hidb. exfalso. now apply (HnoD b pb).
           ++ intros _. exists af. rewrite list_lookup_insert_eq by lia.
              split; [reflexivity|]. split; [exact Hfresh1|].
              simpl. apply lookup_insert_eq.
        -- apply Hkeep; [|lia]. intros b q Hb1 Hbq. simpl.
           rewrite lookup_insert_ne; [exact Hbq | congruence].
Qed.

Lemma grow_loop s1 rkt t1 n :
  desp_ok s1 t1 ->
  0 <= rkt_partition_cnt t1 ->
  (Z.to_nat (rkt_partition_cnt t1) <= length (rkt_p t1))%nat ->
  forall m k s rktps,
    (k + m = n)%nat ->
    grow_inv s1 rkt t1 k s rktps ->
    length rktps = n ->
    exists rktps' s',
      cnt_update_assign rkt (seq k m) rktps s = Done rktps' s' /\
      grow_inv s1 rkt t1 n s' rktps' /\
      length rktps' = n.
Proof.
  intros Hok Hold Hlen. induction m as [|m IH]; intros k s rktps Hkm Hinv Hn; simpl.
  - assert (k = n) by lia. subst k. exists rktps, s.
    split; [reflexivity|]. split; assumption.
  - destruct (grow_step s1 rkt t1 n k s rktps Hok Hold Hlen Hinv Hn ltac:(lia))
      as (x & s' & Hrun & Hinv').
    rewrite (bind_done _ _ _ _ _ Hrun).
    apply IH; [lia | exact Hinv' | now rewrite length_insert].
Qed.

Lemma grow_inv_init s1 rkt t1 n :
  topics s1 !! rkt = Some t1 ->
  desp_ok s1 t1 ->
  0 <= rkt_partition_cnt t1 ->
  grow_inv s1 rkt t1 0 s1 (replicate n None).
Proof.
  intros Ht Hok Hold. split; [|split].
  - exists t1. split; [exact Ht|]. split; [reflexivity|]. split; [reflexivity|].
    split; [lia|]. split; [now apply (desp_ok_NoDup s1)|].
    intros a. split; [|tauto]. intros Ha. split; [exact Ha|]. intros p _. lia.
  - intros a p Hp. rewrite Hp. f_equal. rewrite bool_decide_eq_false_2; [reflexivity|].
    intros [_ Hr]. lia.
  - intros i Hi. lia.
Qed.

(** C2: when the partition count of a known topic grows from [old] to
    [new], [rd_kafka_topic_partition_cnt_update] returns 1; the partitions
    below [old] stay in their slots; for every [i] in [old, new) a partition
    of the desired list with id [i] becomes slot [i] itself (the same
    address), with UNKNOWN cleared, and leaves the desired list; and where the
    desired list has no partition with id [i], slot [i] is a partition that
    did not exist before, as [rd_kafka_toppar_new] makes it. *)
Theorem cnt_update_grow_absorbs_desired :
  forall s topic new rkt s1 t,
    rd_kafka_topic_find topic s = Done (Some rkt) s1 ->
    topics s !! rkt = Some t ->
    1 <= rkt_refcnt t ->
    0 <= rkt_partition_cnt t < new ->
    (Z.to_nat (rkt_partition_cnt t) <= length (rkt_p t))%nat ->
    desp_ok s t ->
    exists s' t',
      rd_kafka_topic_partition_cnt_update topic new s = Done 1 s' /\
      topics s' !! rkt = Some t' /\
      rkt_partition_cnt t' = new /\
      (forall i, 0 <= i < rkt_partition_cnt t ->
                 rkt_p t' !! Z.to_nat i = rkt_p t !! Z.to_nat i) /\
      (forall i, rkt_partition_cnt t <= i < new ->
         (forall a p, a ∈ rkt_desp t -> toppars s !! a = Some p -> rktp_partition p = i ->
                      rkt_p t' !! Z.to_nat i = Some (Some a) /\
                      toppars s' !! a = Some (absorb p) /\
                      a ∉ rkt_desp t') /\
         ((forall a p, a ∈ rkt_desp t -> toppars s !! a = Some p -> rktp_partition p <> i) ->
          exists a, rkt_p t' !! Z.to_nat i = Some (Some a) /\
                    toppars s !! a = None /\
                    toppars s' !! a = Some (fresh_toppar rkt i))).
Proof.
  intros s topic new rkt s1 t Hfind Ht Hrt Hcnt Hlen Hok.
  unfold rd_kafka_topic_partition_cnt_update.
  rewrite (bind_done _ _ _ _ _ Hfind).
  apply rd_kafka_topic_find_inv in Hfind.
  destruct Hfind as (_ & t0 & Ht0 & _ & ->).
  rewrite Ht in Ht0. injection Ht0 as <-.
  set (t1 := set_rkt_refcnt (rkt_refcnt t + 1) t).
  set (s1 := set_topics _ s).
  assert (Ht1 : topics s1 !! rkt = Some t1) by (subst s1; simpl; apply lookup_insert_eq).
  rewrite (bind_done _ _ _ _ _ (load_topic_done s1 rkt t1 Ht1)).
  replace (rkt_partition_cnt t1 =? new) with false by (symmetry; apply Z.eqb_neq; simpl; lia).
  assert (Hok1 : desp_ok s1 t1) by exact Hok.
  set (n := Z.to_nat new).
  destruct (grow_loop s1 rkt t1 n Hok1 (proj1 Hcnt) Hlen n 0%nat s1 (replicate n None)
              ltac:(lia) (grow_inv_init s1 rkt t1 n Ht1 Hok1 (proj1 Hcnt)) (length_replicate _ _))
    as (rktps & s2 & Hloop & ((t2 & Ht2 & Hcnt2 & Hp2 & Hrc2 & Hnd2 & Hmem2) & Hpp & Hslots)
        & Hn).
  rewrite (bind_done _ _ _ _ _ Hloop).
  assert (Hmiss : rd_kafka_toppar_get rkt RD_KAFKA_PARTITION_UA 0 s2 = Done None s2).
  { apply (toppar_get_miss rkt _ s2 t2 Ht2). unfold RD_KAFKA_PARTITION_UA. lia. }
  rewrite (bind_done _ _ _ _ _ Hmiss).
  rewrite (bind_done _ _ _ _ _ (load_topic_done s2 rkt t2 Ht2)).
  replace (Z.to_nat (rkt_partition_cnt t2) - n)%nat with 0%nat
    by (rewrite Hcnt2; simpl; lia).
  cbn [seq cnt_update_shrink].
  rewrite (bind_done _ _ s2 tt s2) by reflexivity.
  rewrite (bind_done _ _ s2 tt s2) by reflexivity.
  rewrite (bind_done _ _ _ _ _ (load_topic_done s2 rkt t2 Ht2)).
  unfold bind at 1. unfold store_topic at 1.
  erewrite (bind_done _ _ _ tt);
    [|apply topic_destroy_not_last; [simpl; apply lookup_insert_eq | simpl in *; lia]].
  eexists _, _. split; [reflexivity|].
  cbn [topics set_topics toppars]. rewrite insert_insert_eq.
  split; [apply lookup_insert_eq|]. split; [reflexivity|].
  cbn [rkt_p set_rkt_refcnt set_rkt_parts rkt_desp].
  split.
  - intros i Hi. destruct (Hslots (Z.to_nat i)) as [HK _]; [lia|].
    apply HK. simpl. lia.
  - intros i Hi. destruct (Hslots (Z.to_nat i)) as [_ HN]; [lia|].
    destruct HN as [HH HM]; [simpl; lia|].
    rewrite Z2Nat.id in HH, HM by lia.
    split.
    + intros a p Ha Hp Hid. split; [exact (HH a p Ha Hp Hid)|]. split.
      * rewrite (Hpp a p Hp). f_equal. rewrite bool_decide_eq_true_2; [reflexivity|].
        split; [exact Ha|]. simpl. lia.
      * intros Hin. apply Hmem2 in Hin. destruct Hin as [_ Hnot].
        apply (Hnot p Hp). simpl. lia.
    + exact HM.
Qed.

Lemma cnt_update_grow_absorbs_desired_witness :
  exists s' t' p,
    toppars st_desired_unseen !! 2%positive = Some p /\
    rd_kafka_topic_partition_cnt_update "orders" 5 st_desired_unseen = Done 1 s' /\
    topics s' !! 1%positive = Some t' /\
    rkt_partition_cnt t' = 5 /\
    rkt_p t' !! 3%nat = Some (Some 2%positive) /\
    toppars s' !! 2%positive = Some (absorb p) /\
    rktp_flags (absorb p) = RD_KAFKA_TOPPAR_F_DESIRED /\
    2%positive ∉ rkt_desp t'.
Proof.
  destruct (topics st_desired_unseen !! 1%positive) as [t|] eqn:Ht;
    [|vm_compute in Ht; discriminate Ht].
  destruct (toppars st_desired_unseen !! 2%positive) as [p|] eqn:Hp;
    [|vm_compute in Hp; discriminate Hp].
  assert (Hfind : rd_kafka_topic_find "orders" st_desired_unseen
                  = Done (Some 1%positive)
                         (exec (rd_kafka_topic_find "orders") st_desired_unseen))
    by (vm_compute; reflexivity).
  assert (Hdesp : rkt_desp t = [2%positive] /\ rkt_partition_cnt t = 0 /\
                  rkt_refcnt t = 3 /\ rkt_p t = [])
    by (vm_compute in Ht; injection Ht as <-; repeat split).
  destruct Hdesp as (Hdesp & Hcnt & Hrc & Hparr).
  assert (Hpid : rktp_partition p = 3 /\ rktp_flags (absorb p) = RD_KAFKA_TOPPAR_F_DESIRED)
    by (vm_compute in Hp; injection Hp as <-; split; reflexivity).
  destruct Hpid as [Hpid Hflags].
  destruct (cnt_update_grow_absorbs_desired st_desired_unseen "orders" 5 1%positive _ t
              Hfind Ht) as (s' & t' & Hrun & Ht' & Hcnt' & _ & Hnew).
  - lia.
  - lia.
  - rewrite Hcnt, Hparr. simpl. lia.
  - split.
    + intros a Ha. rewrite Hdesp in Ha. apply list_elem_of_singleton in Ha. subst a. eauto.
    + unfold desp_ids. rewrite Hdesp. simpl. rewrite Hp. simpl. apply NoDup_singleton.
  - destruct (Hnew 3) as [Habs _]; [lia|].
    destruct (Habs 2%positive p) as (H1 & H2 & H3).
    + rewrite Hdesp. now left.
    + exact Hp.
    + exact Hpid.
    + exists s', t', p. now repeat split.
Defined.

(** * Further properties of the code *)

(** ** Look-ups that miss, and references that are given back *)

(** No registered topic bears the name: the scan of the registry returns
    nothing and writes nothing. *)
Lemma topic_scan_miss l name s :
  (forall a, a ∈ l -> exists t, topics s !! a = Some t /\ rkt_topic t <> name) ->
  topic_scan l name s = Done None s.
Proof.
  induction l as [|a l IH]; intros H; simpl; [reflexivity|].
  destruct (H a) as (t & Ht & Hn); [left|].
  rewrite (bind_done _ _ _ _ _ (load_topic_done s a t Ht)).
  unfold rd_kafkap_str_cmp_str.
  destruct (String.eqb_spec (rkt_topic t) name) as [E|_]; [contradiction|].
  simpl. apply IH. intros b Hb. apply H. now right.
Qed.

(** X1: metadata for a topic that the client does not know is ignored.  When
    no registered topic bears the name, a leader update, a partition count
    update, the drain of the unassigned partition and the partition look-up by
    topic name all return (the count update with -1, the look-up with NULL)
    and leave the whole store as it was; the drain does so whatever value the
    argument that its look-up leaves out would have. *)
Theorem unknown_topic_is_ignored :
  forall partition_for topic partition leader partition_cnt ua_on_miss
         drain_ua_on_miss s,
    (forall rkt, rkt ∈ rk_topics (st_rk s) ->
       exists t, topics s !! rkt = Some t /\ rkt_topic t <> topic) ->
    rd_kafka_topic_update topic partition leader s = Done tt s /\
    rd_kafka_topic_partition_cnt_update topic partition_cnt s = Done (-1) s /\
    rd_kafka_topic_assign_uas partition_for drain_ua_on_miss topic s = Done tt s /\
    rd_kafka_toppar_get2 topic partition ua_on_miss s = Done None s.
Proof.
  intros pf topic partition leader cnt uom duom s H.
  assert (Hfind : rd_kafka_topic_find topic s = Done None s)
    by (apply topic_scan_miss; exact H).
  assert (Hfind0 : rd_kafka_topic_find0 topic s = Done None s)
    by (apply topic_scan_miss; exact H).
  repeat split.
  - unfold rd_kafka_topic_update. now rewrite (bind_done _ _ _ _ _ Hfind).
  - unfold rd_kafka_topic_partition_cnt_update. now rewrite (bind_done _ _ _ _ _ Hfind).
  - unfold rd_kafka_topic_assign_uas. now rewrite (bind_done _ _ _ _ _ Hfind).
  - unfold rd_kafka_toppar_get2. now rewrite (bind_done _ _ _ _ _ Hfind0).
Qed.

Lemma unknown_topic_is_ignored_witness :
  rd_kafka_topic_update "payments" 0 1 st_orders_2 = Done tt st_orders_2 /\
  rd_kafka_topic_partition_cnt_update "payments" 4 st_orders_2 = Done (-1) st_orders_2 /\
  rd_kafka_topic_assign_uas by_length 0 "payments" st_orders_2 = Done tt st_orders_2 /\
  rd_kafka_toppar_get2 "payments" 0 1 st_orders_2 = Done None st_orders_2.
Proof.
  apply (unknown_topic_is_ignored by_length "payments" 0 1 4 1 0 st_orders_2).
  intros rkt Hrkt. vm_compute in Hrkt.
  apply list_elem_of_singleton in Hrkt. subst rkt.
  eexists. split; [vm_compute; reflexivity|]. simpl. discriminate.
Defined.

(** X2: a count update that brings the count the topic already has returns 0,
    and the drain of a topic that has no unassigned partition returns; both
    give back the reference their look-up took and leave the whole store as
    it was; the drain does so whatever value the argument that its look-up
    leaves out would have. *)
Theorem nothing_to_do_leaves_store :
  forall partition_for ua_on_miss topic s rkt s1 t,
    rd_kafka_topic_find topic s = Done (Some rkt) s1 ->
    topics s !! rkt = Some t ->
    1 <= rkt_refcnt t ->
    rd_kafka_topic_partition_cnt_update topic (rkt_partition_cnt t) s = Done 0 s /\
    (rkt_ua t = None ->
     rd_kafka_topic_assign_uas partition_for ua_on_miss topic s = Done tt s).
Proof.
  intros pf uom topic s rkt s1 t Hfind Ht Hr.
  pose proof (topic_find_release topic s rkt s1 t Hfind Ht Hr) as Hrel.
  pose proof Hfind as Hinv. apply rd_kafka_topic_find_inv in Hinv.
  destruct Hinv as (_ & t0 & Ht0 & _ & Hs1).
  rewrite Ht in Ht0. injection Ht0 as <-.
  assert (Ht1 : topics s1 !! rkt = Some (set_rkt_refcnt (rkt_refcnt t + 1) t))
    by (rewrite Hs1; simpl; apply lookup_insert_eq).
  split.
  - unfold rd_kafka_topic_partition_cnt_update.
    rewrite (bind_done _ _ _ _ _ Hfind).
    rewrite (bind_done _ _ _ _ _ (load_topic_done s1 rkt _ Ht1)).
    cbn [rkt_partition_cnt set_rkt_refcnt]. rewrite Z.eqb_refl.
    now rewrite (bind_done _ _ _ _ _ Hrel).
  - intros Hua. unfold rd_kafka_topic_assign_uas.
    rewrite (bind_done _ _ _ _ _ Hfind).
    rewrite (bind_done _ _ _ _ _ (toppar_get_ua_none rkt uom s1 _ Ht1 Hua)).
    exact Hrel.
Qed.

Lemma nothing_to_do_leaves_store_witness :
  rd_kafka_topic_partition_cnt_update "orders" 2 st_orders_2 = Done 0 st_orders_2.
Proof.
  destruct (topics st_orders_2 !! 1%positive) as [t|] eqn:Ht;
    [|vm_compute in Ht; discriminate Ht].
  assert (Hfind : rd_kafka_topic_find "orders" st_orders_2
                  = Done (Some 1%positive) (exec (rd_kafka_topic_find "orders") st_orders_2))
    by (vm_compute; reflexivity).
  assert (Hcnt : rkt_partition_cnt t = 2 /\ 1 <= rkt_refcnt t).
  { vm_compute in Ht. injection Ht as <-. simpl. lia. }
  destruct Hcnt as [Hcnt Hr].
  rewrite <- Hcnt.
  exact (proj1 (nothing_to_do_leaves_store by_length 0 "orders" st_orders_2 1%positive _ t
                  Hfind Ht Hr)).
Defined.

(** Taking a reference on a partition and releasing it again leaves the
    store as it was. *)
Lemma toppar_keep_release a s p :
  toppars s !! a = Some p ->
  1 <= rktp_refcnt p ->
  rd_kafka_toppar_destroy a
    (set_toppars (<[a := set_rktp_refcnt (rktp_refcnt p + 1) p]> (toppars s)) s)
  = Done tt s.
Proof.
  intros Hp Hr.
  erewrite toppar_destroy_not_last; [|simpl; apply lookup_insert_eq | simpl; lia].
  f_equal. apply state_eq; simpl; try reflexivity.
  rewrite insert_insert_eq. apply insert_id. rewrite Hp. f_equal.
  destruct p; unfold set_rktp_refcnt; simpl. f_equal. lia.
Qed.

(** What [rd_kafka_toppar_get] selects before it takes the reference. *)
Lemma toppar_get_slot rkt partition ua_on_miss s t :
  topics s !! rkt = Some t ->
  (Z.to_nat (rkt_partition_cnt t) <= length (rkt_p t))%nat ->
  rd_kafka_toppar_get rkt partition ua_on_miss s
  = keep_if_set (if (0 <=? partition) && (partition <? rkt_partition_cnt t)
                 then default None (rkt_p t !! Z.to_nat partition)
                 else if ua_on_miss =? 0 then None else rkt_ua t) s.
Proof.
  intros Ht Hlen. unfold rd_kafka_toppar_get.
  rewrite (bind_done _ _ _ _ _ (load_topic_done s rkt t Ht)).
  destruct ((0 <=? partition) && (partition <? rkt_partition_cnt t)) eqn:Hin.
  - apply andb_true_iff in Hin. destruct Hin as [H1 H2].
    apply Z.leb_le in H1. apply Z.ltb_lt in H2.
    destruct (lookup_lt_is_Some_2 (rkt_p t) (Z.to_nat partition)) as [x Hx]; [lia|].
    now rewrite Hx.
  - now destruct (ua_on_miss =? 0).
Qed.

(** The reference that [rd_kafka_toppar_get] takes on what it has selected. *)
Lemma keep_if_set_run r s :
  (forall a, r = Some a -> exists p, toppars s !! a = Some p /\ 1 <= rktp_refcnt p) ->
  exists s1,
    keep_if_set r s = Done r s1 /\
    st_rk s1 = st_rk s /\ topics s1 = topics s /\ brokers s1 = brokers s /\
    match r with
    | Some a =>
        exists p, toppars s !! a = Some p /\
                  toppars s1 = <[a := set_rktp_refcnt (rktp_refcnt p + 1) p]> (toppars s) /\
                  rd_kafka_toppar_destroy a s1 = Done tt s
    | None => s1 = s
    end.
Proof.
  destruct r as [a|]; intros Hr; simpl; [|now exists s].
  destruct (Hr a eq_refl) as (p & Hp & Hrp).
  rewrite (bind_done _ _ _ _ _ (toppar_keep_done a s p Hp)).
  eexists. split; [reflexivity|]. repeat (split; [reflexivity|]).
  exists p. split; [exact Hp|]. split; [reflexivity|]. now apply toppar_keep_release.
Qed.

(** The slots of the array and the unassigned slot hold live partitions, each
    with a reference. *)
Lemma selected_is_live s t partition ua_on_miss a :
  (forall a, Some a ∈ rkt_p t \/ rkt_ua t = Some a ->
             exists p, toppars s !! a = Some p /\ 1 <= rktp_refcnt p) ->
  (if (0 <=? partition) && (partition <? rkt_partition_cnt t)
   then default None (rkt_p t !! Z.to_nat partition)
   else if ua_on_miss =? 0 then None else rkt_ua t) = Some a ->
  exists p, toppars s !! a = Some p /\ 1 <= rktp_refcnt p.
Proof.
  intros Hlive Hsel. apply Hlive.
  destruct (_ && _).
  - left. destruct (rkt_p t !! Z.to_nat partition) as [x|] eqn:Hx; [|discriminate].
    simpl in Hsel. subst x. eapply list_elem_of_lookup_2. exact Hx.
  - right. destruct (ua_on_miss =? 0); [discriminate | exact Hsel].
Qed.

(** X3: [rd_kafka_toppar_get] on a topic whose array and unassigned slot hold
    live, referenced partitions.  It returns the slot of the array for an id
    inside [0, rkt_partition_cnt), the unassigned partition for any other id
    when [ua_on_miss] is set, and NULL otherwise; a partition comes back with
    one more reference, and releasing that reference restores the store; a
    NULL result has written nothing. *)
Theorem toppar_get_then_release :
  forall rkt partition ua_on_miss s t,
    topics s !! rkt = Some t ->
    (Z.to_nat (rkt_partition_cnt t) <= length (rkt_p t))%nat ->
    (forall a, Some a ∈ rkt_p t \/ rkt_ua t = Some a ->
               exists p, toppars s !! a = Some p /\ 1 <= rktp_refcnt p) ->
    exists r s1,
      rd_kafka_toppar_get rkt partition ua_on_miss s = Done r s1 /\
      r = (if (0 <=? partition) && (partition <? rkt_partition_cnt t)
           then default None (rkt_p t !! Z.to_nat partition)
           else if ua_on_miss =? 0 then None else rkt_ua t) /\
      match r with
      | Some a =>
          exists p, toppars s !! a = Some p /\
                    toppars s1 !! a = Some (set_rktp_refcnt (rktp_refcnt p + 1) p) /\
                    rd_kafka_toppar_destroy a s1 = Done tt s
      | None => s1 = s
      end.
Proof.
  intros rkt partition uom s t Ht Hlen Hlive.
  rewrite (toppar_get_slot rkt partition uom s t Ht Hlen).
  match goal with |- context [keep_if_set ?x s] => set (r := x) end.
  destruct (keep_if_set_run r s) as (s1 & Hrun & _ & _ & _ & Hres).
  { intros a Ha. now apply (selected_is_live s t partition uom a). }
  exists r, s1. split; [exact Hrun|]. split; [reflexivity|].
  destruct r as [a|]; [|exact Hres].
  destruct Hres as (p & Hp & Hpp & Hrel). exists p. split; [exact Hp|].
  split; [rewrite Hpp; apply lookup_insert_eq | exact Hrel].
Qed.

Lemma toppar_get_then_release_witness :
  exists s1,
    rd_kafka_toppar_get 1%positive 7 1 st_orders_2 = Done (Some 1%positive) s1 /\
    rd_kafka_toppar_destroy 1%positive s1 = Done tt st_orders_2.
Proof.
  assert (Ht : exists t, topics st_orders_2 !! 1%positive = Some t /\
                         rkt_p t = [Some 2%positive; Some 3%positive] /\
                         rkt_partition_cnt t = 2 /\ rkt_ua t = Some 1%positive)
    by (eexists; split; [vm_compute; reflexivity|]; repeat split).
  destruct Ht as (t & Ht & Hp & Hcnt & Hua).
  destruct (toppar_get_then_release 1%positive 7 1 st_orders_2 t Ht)
    as (r & s1 & Hrun & Hr & Hres).
  - rewrite Hp, Hcnt. simpl. lia.
  - rewrite Hp, Hua. intros a [Ha|Ha].
    + repeat (apply elem_of_cons in Ha; destruct Ha as [[= ->]|Ha];
              [eexists; split; [vm_compute; reflexivity | simpl; lia]|]).
      inversion Ha.
    + injection Ha as <-. eexists; split; [vm_compute; reflexivity | simpl; lia].
  - rewrite Hcnt, Hua in Hr. simpl in Hr. subst r.
    destruct Hres as (p & _ & _ & Hrel). exists s1. split; assumption.
Defined.

(** X4: [rd_kafka_toppar_get2] takes a reference on the topic it looks up
    and does not give it back: after a call on a registered topic the topic
    has one more reference than before, whatever the partition look-up
    returns, and the registry is unchanged. *)
Theorem toppar_get2_keeps_topic_reference :
  forall topic partition ua_on_miss s rkt s1 t,
    rd_kafka_topic_find0 topic s = Done (Some rkt) s1 ->
    topics s !! rkt = Some t ->
    (Z.to_nat (rkt_partition_cnt t) <= length (rkt_p t))%nat ->
    (forall a, Some a ∈ rkt_p t \/ rkt_ua t = Some a ->
               exists p, toppars s !! a = Some p /\ 1 <= rktp_refcnt p) ->
    exists r s2,
      rd_kafka_toppar_get2 topic partition ua_on_miss s = Done r s2 /\
      topics s2 = <[rkt := set_rkt_refcnt (rkt_refcnt t + 1) t]> (topics s) /\
      st_rk s2 = st_rk s.
Proof.
  intros topic partition uom s rkt s1 t Hfind Ht Hlen Hlive.
  unfold rd_kafka_toppar_get2. rewrite (bind_done _ _ _ _ _ Hfind).
  apply topic_scan_inv in Hfind. destruct Hfind as (_ & t0 & Ht0 & _ & ->).
  rewrite Ht in Ht0. injection Ht0 as <-.
  set (t1 := set_rkt_refcnt (rkt_refcnt t + 1) t).
  set (s1 := set_topics _ s).
  assert (Ht1 : topics s1 !! rkt = Some t1) by (subst s1; simpl; apply lookup_insert_eq).
  rewrite (toppar_get_slot rkt partition uom s1 t1 Ht1 Hlen).
  match goal with |- context [keep_if_set ?x s1] => set (r := x) end.
  destruct (keep_if_set_run r s1) as (s2 & Hrun & Hrk & Htop & _).
  { intros a Ha. now apply (selected_is_live s1 t1 partition uom a). }
  exists r, s2. split; [exact Hrun|]. now rewrite Hrk, Htop.
Qed.

Lemma toppar_get2_keeps_topic_reference_witness :
  exists r s2 t t2,
    rd_kafka_toppar_get2 "orders" 0 0 st_orders_2 = Done r s2 /\
    topics st_orders_2 !! 1%positive = Some t /\
    topics s2 !! 1%positive = Some t2 /\
    rkt_refcnt t2 = rkt_refcnt t + 1.
Proof.
  assert (Ht : exists t, topics st_orders_2 !! 1%positive = Some t /\
                         rkt_p t = [Some 2%positive; Some 3%positive] /\
                         rkt_partition_cnt t = 2 /\ rkt_ua t = Some 1%positive)
    by (eexists; split; [vm_compute; reflexivity|]; repeat split).
  destruct Ht as (t & Ht & Hp & Hcnt & Hua).
  assert (Hfind : rd_kafka_topic_find0 "orders" st_orders_2
                  = Done (Some 1%positive) (exec (rd_kafka_topic_find0 "orders") st_orders_2))
    by (vm_compute; reflexivity).
  destruct (toppar_get2_keeps_topic_reference "orders" 0 0 st_orders_2 1%positive _ t
              Hfind Ht) as (r & s2 & Hrun & Htop & _).
  - rewrite Hp, Hcnt. simpl. lia.
  - rewrite Hp, Hua. intros a [Ha|Ha].
    + repeat (apply elem_of_cons in Ha; destruct Ha as [[= ->]|Ha];
              [eexists; split; [vm_compute; reflexivity | simpl; lia]|]).
      inversion Ha.
    + injection Ha as <-. eexists; split; [vm_compute; reflexivity | simpl; lia].
  - exists r, s2, t, (set_rkt_refcnt (rkt_refcnt t + 1) t).
    split; [exact Hrun|]. split; [exact Ht|].
    split; [rewrite Htop; apply lookup_insert_eq | reflexivity].
Defined.

(** ** Message queues of partitions *)

Lemma msgq_bytes_app (l k : list rd_kafka_msg_t) :
  foldr (fun m acc => rkm_len m + acc) 0 (l ++ k)
  = foldr (fun m acc => rkm_len m + acc) 0 l + foldr (fun m acc => rkm_len m + acc) 0 k.
Proof. induction l as [|m l IH]; simpl; [reflexivity | rewrite IH; lia]. Qed.

(** Splicing two queues whose counters are right gives a queue whose
    counters are right. *)
Lemma msgq_wf_concat a b :
  msgq_wf a -> msgq_wf b -> msgq_wf (fst (rd_kafka_msgq_concat a b)).
Proof.
  intros [Ha1 Ha2] [Hb1 Hb2]. split; simpl.
  - rewrite length_app. lia.
  - rewrite msgq_bytes_app. lia.
Qed.

(** X5: the three mutators of a partition's message queue.  On a live
    partition each returns and touches nothing but that partition's queue:
    [rd_kafka_toppar_insert_msg] puts the message before the queued ones,
    [rd_kafka_toppar_enq_msg] after them, and [rd_kafka_toppar_insert_msgq]
    puts the caller's queue, in its order, before them and hands the caller's
    queue back empty.  When the counters agreed with the contents before,
    they agree afterwards. *)
Theorem toppar_queue_mutators :
  forall a s p rkm rkmq,
    toppars s !! a = Some p ->
    (exists q, rd_kafka_toppar_insert_msg a rkm s
               = Done tt (set_toppars (<[a := set_rktp_msgq q p]> (toppars s)) s) /\
               rkmq_msgs q = rkm :: rkmq_msgs (rktp_msgq p) /\
               (msgq_wf (rktp_msgq p) -> msgq_wf q)) /\
    (exists q, rd_kafka_toppar_enq_msg a rkm s
               = Done tt (set_toppars (<[a := set_rktp_msgq q p]> (toppars s)) s) /\
               rkmq_msgs q = rkmq_msgs (rktp_msgq p) ++ [rkm] /\
               (msgq_wf (rktp_msgq p) -> msgq_wf q)) /\
    (exists q, rd_kafka_toppar_insert_msgq a rkmq s
               = Done rd_kafka_msgq_init
                      (set_toppars (<[a := set_rktp_msgq q p]> (toppars s)) s) /\
               rkmq_msgs q = rkmq_msgs rkmq ++ rkmq_msgs (rktp_msgq p) /\
               (msgq_wf (rktp_msgq p) -> msgq_wf rkmq -> msgq_wf q)).
Proof.
  intros a s p rkm rkmq Hp. split; [|split].
  - eexists. unfold rd_kafka_toppar_insert_msg.
    rewrite (bind_done _ _ _ _ _ (load_toppar_done s a p Hp)).
    split; [reflexivity|]. split; [reflexivity|].
    intros [H1 H2]. split; simpl; lia.
  - eexists. unfold rd_kafka_toppar_enq_msg.
    rewrite (bind_done _ _ _ _ _ (load_toppar_done s a p Hp)).
    split; [reflexivity|]. split; [reflexivity|].
    intros [H1 H2]. split; simpl.
    + rewrite length_app. simpl. lia.
    + rewrite msgq_bytes_app. simpl. lia.
  - eexists. unfold rd_kafka_toppar_insert_msgq.
    rewrite (bind_done _ _ _ _ _ (load_toppar_done s a p Hp)).
    split; [reflexivity|]. split; [reflexivity|].
    intros H1 H2. now apply (msgq_wf_concat rkmq (rktp_msgq p)).
Qed.

Lemma toppar_queue_mutators_witness :
  exists q,
    rd_kafka_toppar_insert_msgq 1%positive (mk_msgq [msg_c] 1 3) st_unassigned
    = Done rd_kafka_msgq_init
           (set_toppars (<[1%positive := q]> (toppars st_unassigned)) st_unassigned) /\
    rkmq_msgs (rktp_msgq q) = [msg_c; msg_a; msg_b; msg_c].
Proof.
  destruct (toppars st_unassigned !! 1%positive) as [p|] eqn:Hp;
    [|vm_compute in Hp; discriminate Hp].
  destruct (toppar_queue_mutators 1%positive st_unassigned p msg_c (mk_msgq [msg_c] 1 3) Hp)
    as (_ & _ & q & Hrun & Hq & _).
  exists (set_rktp_msgq q p). split; [exact Hrun|].
  simpl. rewrite Hq. vm_compute in Hp. injection Hp as <-. reflexivity.
Defined.

(** X6: [rd_kafka_toppar_ua_move].  Its look-up of the unassigned partition
    leaves [ua_on_miss] out; what it does is given for every value.  When the
    look-up misses (the value is 0, or the topic has no unassigned partition)
    it returns -1, and neither the store nor the caller's queue has changed.
    When it finds the partition it returns 0: the caller's messages are at
    the tail of the unassigned queue in their order, the counters are the
    sums, the caller's queue is empty, the reference taken by the look-up is
    given back, and nothing else has changed. *)
Theorem ua_move_appends_or_fails :
  forall ua_on_miss rkt rkmq s t,
    topics s !! rkt = Some t ->
    (ua_on_miss = 0 \/ rkt_ua t = None ->
     rd_kafka_toppar_ua_move ua_on_miss rkt rkmq s = Done (-1, rkmq) s) /\
    (forall ua p,
        ua_on_miss <> 0 ->
        rkt_ua t = Some ua -> toppars s !! ua = Some p -> 1 <= rktp_refcnt p ->
        rd_kafka_toppar_ua_move ua_on_miss rkt rkmq s
        = Done (0, rd_kafka_msgq_init)
               (set_toppars
                  (<[ua := set_rktp_msgq
                             (mk_msgq (rkmq_msgs (rktp_msgq p) ++ rkmq_msgs rkmq)
                                      (rkmq_msg_cnt (rktp_msgq p) + rkmq_msg_cnt rkmq)
                                      (rkmq_msg_bytes (rktp_msgq p) + rkmq_msg_bytes rkmq))
                             p]> (toppars s)) s)).
Proof.
  intros uom rkt rkmq s t Ht. split.
  - intros Hmiss. unfold rd_kafka_toppar_ua_move.
    assert (Hget : rd_kafka_toppar_get rkt RD_KAFKA_PARTITION_UA uom s = Done None s).
    { destruct Hmiss as [-> | Hua]; [|now apply toppar_get_ua_none with t].
      now rewrite (toppar_get_ua_run rkt 0 s t Ht). }
    now rewrite (bind_done _ _ _ _ _ Hget).
  - intros ua p Hm Hua Hp Hr. unfold rd_kafka_toppar_ua_move.
    rewrite (bind_done _ _ _ _ _ (toppar_get_ua_done rkt uom s t ua p Hm Ht Hua Hp)).
    unfold rd_kafka_toppar_destroy, rd_kafka_msgq_concat.
    munfold. mstep. rewrite !insert_insert_eq.
    apply (f_equal (Done (0, rd_kafka_msgq_init))).
    apply state_eq; simpl; try reflexivity.
    f_equal. destruct p; unfold set_rktp_msgq, set_rktp_refcnt; simpl. f_equal. lia.
Qed.

Lemma ua_move_appends_or_fails_witness :
  rd_kafka_toppar_ua_move 0 1%positive (mk_msgq [msg_c; msg_a] 2 4) st_unassigned
  = Done (-1, mk_msgq [msg_c; msg_a] 2 4) st_unassigned /\
  exists s' p',
    rd_kafka_toppar_ua_move 1 1%positive (mk_msgq [msg_c; msg_a] 2 4) st_unassigned
    = Done (0, rd_kafka_msgq_init) s' /\
    toppars s' !! 1%positive = Some p' /\
    rktp_msgq p' = mk_msgq [msg_a; msg_b; msg_c; msg_c; msg_a] 5 10.
Proof.
  destruct (topics st_unassigned !! 1%positive) as [t|] eqn:Ht;
    [|vm_compute in Ht; discriminate Ht].
  destruct (toppars st_unassigned !! 1%positive) as [p|] eqn:Hp;
    [|vm_compute in Hp; discriminate Hp].
  split.
  - exact (proj1 (ua_move_appends_or_fails 0 1%positive (mk_msgq [msg_c; msg_a] 2 4)
                    st_unassigned t Ht) (or_introl eq_refl)).
  - pose proof (proj2 (ua_move_appends_or_fails 1 1%positive (mk_msgq [msg_c; msg_a] 2 4)
                         st_unassigned t Ht) 1%positive p) as H.
    eexists _, _. split; [apply H|].
    + discriminate.
    + vm_compute in Ht. injection Ht as <-. reflexivity.
    + exact Hp.
    + vm_compute in Hp. injection Hp as <-. simpl. lia.
    + split; [simpl; apply lookup_insert_eq|].
      vm_compute in Hp. injection Hp as <-. reflexivity.
Defined.

(** ** Desired partitions, added and removed *)

Lemma TAILQ_REMOVE_last (a : positive) (l : list positive) :
  a ∉ l -> TAILQ_REMOVE a (l ++ [a]) = l.
Proof.
  induction l as [|x l IH]; simpl.
  - intros _. destruct (decide (a = a)); [reflexivity | congruence].
  - rewrite not_elem_of_cons. intros [Hne Hl].
    destruct (decide (x = a)); [congruence|]. now rewrite IH.
Qed.

Lemma fresh_toppar_unused s : toppars s !! fresh (dom (toppars s)) = None.
Proof. apply not_elem_of_dom, is_fresh. Qed.

(** First path of [rd_kafka_toppar_desired_add]: the partition is in the
    array. *)
Lemma desired_add_known rkt partition s t a p :
  topics s !! rkt = Some t ->
  0 <= partition < rkt_partition_cnt t ->
  rkt_p t !! Z.to_nat partition = Some (Some a) ->
  toppars s !! a = Some p ->
  rd_kafka_toppar_desired_add rkt partition s
  = Done a (set_toppars
              (<[a := set_rktp_flags (Z.lor (rktp_flags p) RD_KAFKA_TOPPAR_F_DESIRED)
                        (set_rktp_refcnt (rktp_refcnt p + 1) p)]> (toppars s)) s).
Proof.
  intros Ht Hr Hi Hp. unfold rd_kafka_toppar_desired_add.
  rewrite (bind_done _ _ _ _ _ (toppar_get_hit rkt partition 0 s t a p Ht Hr Hi Hp)).
  munfold. mstep. rewrite !insert_insert_eq. reflexivity.
Qed.

(** Second path: the partition is on the desired list. *)
Lemma desired_add_listed rkt partition s t a p :
  topics s !! rkt = Some t ->
  ~ (0 <= partition < rkt_partition_cnt t) ->
  rd_kafka_toppar_desired_get rkt partition s
  = Done (Some a)
         (set_toppars (<[a := set_rktp_refcnt (rktp_refcnt p + 1) p]> (toppars s)) s) ->
  rd_kafka_toppar_desired_add rkt partition s
  = Done a (set_toppars (<[a := set_rktp_refcnt (rktp_refcnt p + 1) p]> (toppars s)) s).
Proof.
  intros Ht Hr Hget. unfold rd_kafka_toppar_desired_add.
  rewrite (bind_done _ _ _ _ _ (toppar_get_miss rkt partition s t Ht Hr)).
  now rewrite (bind_done _ _ _ _ _ Hget).
Qed.

(** Third path: the partition is unknown so far. *)
Lemma desired_add_unseen rkt partition s t :
  topics s !! rkt = Some t ->
  ~ (0 <= partition < rkt_partition_cnt t) ->
  rd_kafka_toppar_desired_get rkt partition s = Done None s ->
  rd_kafka_toppar_desired_add rkt partition s
  = Done (fresh (dom (toppars s)))
         (mk_state (st_rk s)
            (<[rkt := set_rkt_desp (rkt_desp t ++ [fresh (dom (toppars s))])
                        (set_rkt_refcnt (rkt_refcnt t + 1) t)]> (topics s))
            (<[fresh (dom (toppars s)) := desired_toppar rkt partition]> (toppars s))
            (brokers s) (st_errno s)).
Proof.
  intros Ht Hr Hget. unfold rd_kafka_toppar_desired_add.
  rewrite (bind_done _ _ _ _ _ (toppar_get_miss rkt partition s t Ht Hr)).
  rewrite (bind_done _ _ _ _ _ Hget).
  unfold rd_kafka_toppar_new, alloc_toppar, rd_kafka_toppar_keep, rd_kafka_topic_keep,
    TAILQ_INSERT_TAIL.
  munfold. mstep. rewrite !insert_insert_eq. reflexivity.
Qed.

(** The ids on the desired list do not change when a partition is rewritten
    with the id it had. *)
Lemma desp_ids_update s s' t t' a p p' :
  toppars s !! a = Some p ->
  rktp_partition p' = rktp_partition p ->
  toppars s' = <[a := p']> (toppars s) ->
  rkt_desp t' = rkt_desp t ->
  desp_ids s' t' = desp_ids s t.
Proof.
  intros Hp Hid Hpp Hd. unfold desp_ids. rewrite Hd, Hpp.
  apply list_omap_ext. apply Forall_Forall2_diag, Forall_forall.
  intros x _. rewrite lookup_insert.
  destruct (decide (a = x)) as [<-|_]; [|reflexivity]. rewrite Hp. simpl. now rewrite Hid.
Qed.

(** A new partition at the tail of the desired list adds its id at the tail
    of the ids. *)
Lemma desp_ids_snoc s s' t t' a q :
  (forall x, x ∈ rkt_desp t -> is_Some (toppars s !! x)) ->
  toppars s !! a = None ->
  toppars s' = <[a := q]> (toppars s) ->
  rkt_desp t' = rkt_desp t ++ [a] ->
  desp_ids s' t' = desp_ids s t ++ [rktp_partition q].
Proof.
  intros Hl Hfresh Hpp Hd. unfold desp_ids. rewrite Hd, Hpp, omap_app.
  cbn [omap list_omap]. rewrite lookup_insert_eq. cbn [fmap option_fmap option_map].
  f_equal. apply list_omap_ext. apply Forall_Forall2_diag, Forall_forall.
  intros x Hx. rewrite lookup_insert_ne; [reflexivity|].
  intros <-. destruct (Hl a Hx) as [y Hy]. congruence.
Qed.

Lemma elem_of_desp_ids s t i :
  i ∈ desp_ids s t <->
  exists a p, a ∈ rkt_desp t /\ toppars s !! a = Some p /\ rktp_partition p = i.
Proof.
  unfold desp_ids. rewrite list_elem_of_omap. split.
  - intros (a & Hin & Hi). destruct (toppars s !! a) as [p|] eqn:Hp; [|discriminate].
    injection Hi as <-. now exists a, p.
  - intros (a & p & Hin & Hp & <-). exists a. split; [exact Hin|]. now rewrite Hp.
Qed.

Lemma desired_flag_set f :
  Z.land (Z.lor f RD_KAFKA_TOPPAR_F_DESIRED) RD_KAFKA_TOPPAR_F_DESIRED <> 0.
Proof.
  rewrite Z.land_lor_distr_l. unfold RD_KAFKA_TOPPAR_F_DESIRED.
  change (Z.land 1 1) with 1. intros H. apply Z.lor_eq_0_iff in H. lia.
Qed.

(** X7: [rd_kafka_toppar_desired_add] keeps the desired list free of
    dangling entries and of repeated partition ids, and never touches the
    partition array.  For an id inside the array it returns the partition of
    that slot with DESIRED set and leaves the list alone; for any other id it
    returns a partition with that id that is on the list afterwards: the one
    that was there, or else a new one appended at the tail. *)
Theorem desired_add_keeps_desired_list :
  forall rkt partition s t,
    topics s !! rkt = Some t ->
    desp_ok s t ->
    (0 <= partition < rkt_partition_cnt t ->
     exists a p, rkt_p t !! Z.to_nat partition = Some (Some a) /\ toppars s !! a = Some p) ->
    exists a s' t' p',
      rd_kafka_toppar_desired_add rkt partition s = Done a s' /\
      topics s' !! rkt = Some t' /\
      toppars s' !! a = Some p' /\
      desp_ok s' t' /\
      rkt_p t' = rkt_p t /\ rkt_partition_cnt t' = rkt_partition_cnt t /\
      (0 <= partition < rkt_partition_cnt t ->
       rkt_p t !! Z.to_nat partition = Some (Some a) /\
       rkt_desp t' = rkt_desp t /\
       Z.land (rktp_flags p') RD_KAFKA_TOPPAR_F_DESIRED <> 0) /\
      (~ (0 <= partition < rkt_partition_cnt t) ->
       rktp_partition p' = partition /\
       rkt_desp t' = (if bool_decide (a ∈ rkt_desp t) then rkt_desp t
                      else rkt_desp t ++ [a])).
Proof.
  intros rkt partition s t Ht [Hl Hnd] Hslot.
  destruct (decide (0 <= partition < rkt_partition_cnt t)) as [Hin|Hout].
  - destruct (Hslot Hin) as (a & p & Hi & Hp).
    rewrite (desired_add_known rkt partition s t a p Ht Hin Hi Hp).
    eexists a, _, t, _. split; [reflexivity|]. split; [exact Ht|].
    split; [simpl; apply lookup_insert_eq|].
    split; [|split; [reflexivity|split; [reflexivity|split]]].
    + split.
      * intros x Hx. simpl. rewrite lookup_insert.
        destruct (decide (a = x)); [eauto | now apply Hl].
      * erewrite desp_ids_update;
          [exact Hnd | exact Hp | | simpl; reflexivity | reflexivity]; reflexivity.
    + intros _. split; [exact Hi|]. split; [reflexivity|]. simpl. apply desired_flag_set.
    + intros H. contradiction.
  - destruct (desired_get_cases rkt partition s t Ht Hl)
      as [(a & p & Ha & Hp & Hid & Hget)|[Hnone Hget]].
    + rewrite (desired_add_listed rkt partition s t a p Ht Hout Hget).
      eexists a, _, t, _. split; [reflexivity|]. split; [exact Ht|].
      split; [simpl; apply lookup_insert_eq|].
      split; [|split; [reflexivity|split; [reflexivity|split]]].
      * split.
        -- intros x Hx. simpl. rewrite lookup_insert.
           destruct (decide (a = x)); [eauto | now apply Hl].
        -- erewrite desp_ids_update;
             [exact Hnd | exact Hp | | simpl; reflexivity | reflexivity]; reflexivity.
      * intros H. contradiction.
      * intros _. split; [exact Hid|]. now rewrite bool_decide_eq_true_2.
    + rewrite (desired_add_unseen rkt partition s t Ht Hout Hget).
      pose proof (fresh_toppar_unused s) as Hfresh.
      remember (fresh (dom (toppars s))) as af eqn:Eaf.
      assert (Haf : af ∉ rkt_desp t).
      { intros Hx. destruct (Hl af Hx) as [y Hy]. congruence. }
      eexists af, _, _, _. split; [reflexivity|].
      split; [simpl; apply lookup_insert_eq|].
      split; [simpl; apply lookup_insert_eq|].
      split; [|split; [reflexivity|split; [reflexivity|split]]].
      * split.
        -- intros x. simpl. rewrite elem_of_app, list_elem_of_singleton, lookup_insert.
           intros [Hx| ->]; [|now rewrite decide_True by reflexivity; eauto].
           destruct (decide (af = x)); [eauto | now apply Hl].
        -- erewrite desp_ids_snoc;
             [| exact Hl | exact Hfresh | simpl; reflexivity | simpl; reflexivity].
           apply NoDup_app. split; [exact Hnd|]. split; [|apply NoDup_singleton].
           intros i Hi Hi'. apply list_elem_of_singleton in Hi'. subst i.
           apply elem_of_desp_ids in Hi. destruct Hi as (x & q & Hx & Hq & Hxid).
           exact (Hnone x q Hx Hq Hxid).
      * intros H. contradiction.
      * intros _. split; [reflexivity|]. simpl. now rewrite bool_decide_eq_false_2.
Qed.

Lemma st_desired_unseen_ok :
  exists t,
    topics st_desired_unseen !! 1%positive = Some t /\
    rkt_desp t = [2%positive] /\ rkt_partition_cnt t = 0 /\ rkt_refcnt t = 3 /\
    desp_ok st_desired_unseen t.
Proof.
  destruct (topics st_desired_unseen !! 1%positive) as [t|] eqn:Ht;
    [|vm_compute in Ht; discriminate Ht].
  destruct (toppars st_desired_unseen !! 2%positive) as [p|] eqn:Hp;
    [|vm_compute in Hp; discriminate Hp].
  assert (Hdesp : rkt_desp t = [2%positive] /\ rkt_partition_cnt t = 0 /\ rkt_refcnt t = 3)
    by (vm_compute in Ht; injection Ht as <-; repeat split).
  destruct Hdesp as (Hdesp & Hcnt & Hrc).
  exists t. repeat (split; [assumption || reflexivity|]). split.
  - intros a Ha. rewrite Hdesp in Ha. apply list_elem_of_singleton in Ha. subst a. eauto.
  - unfold desp_ids. rewrite Hdesp. simpl. rewrite Hp. simpl. apply NoDup_singleton.
Qed.

Lemma desired_add_keeps_desired_list_witness :
  exists a s' t' p',
    rd_kafka_toppar_desired_add 1%positive 5 st_desired_unseen = Done a s' /\
    topics s' !! 1%positive = Some t' /\
    toppars s' !! a = Some p' /\
    desp_ok s' t' /\
    rktp_partition p' = 5.
Proof.
  destruct st_desired_unseen_ok as (t & Ht & Hdesp & Hcnt & Hrc & Hok).
  destruct (desired_add_keeps_desired_list 1%positive 5 st_desired_unseen t Ht Hok)
    as (a & s' & t' & p' & Hrun & Ht' & Hp' & Hok' & _ & _ & _ & Hout).
  - rewrite Hcnt. lia.
  - destruct Hout as [Hid Hd]; [rewrite Hcnt; lia|].
    exists a, s', t', p'. now repeat (split; [assumption|]).
Defined.

Lemma desired_scan_miss l partition s :
  (forall a, a ∈ l -> exists p, toppars s !! a = Some p /\ rktp_partition p <> partition) ->
  desired_scan l partition s = Done None s.
Proof.
  induction l as [|a l IH]; intros H; simpl; [reflexivity|].
  destruct (H a) as (p & Hp & Hn); [left|].
  rewrite (bind_done _ _ _ _ _ (load_toppar_done s a p Hp)).
  replace (rktp_partition p =? partition) with false by (symmetry; now apply Z.eqb_neq).
  apply IH. intros b Hb. apply H. now right.
Qed.

(** X8: asking twice for the same desired partition gives the same
    partition; the second call changes nothing but that partition's
    reference count, which it raises by one. *)
Theorem desired_add_twice_same_partition :
  forall rkt partition s t,
    topics s !! rkt = Some t ->
    desp_ok s t ->
    (0 <= partition < rkt_partition_cnt t ->
     exists a p, rkt_p t !! Z.to_nat partition = Some (Some a) /\ toppars s !! a = Some p) ->
    exists a s1 p1,
      rd_kafka_toppar_desired_add rkt partition s = Done a s1 /\
      toppars s1 !! a = Some p1 /\
      rd_kafka_toppar_desired_add rkt partition s1
      = Done a (set_toppars (<[a := set_rktp_refcnt (rktp_refcnt p1 + 1) p1]> (toppars s1))
                            s1).
Proof.
  intros rkt partition s t Ht [Hl Hnd] Hslot.
  destruct (decide (0 <= partition < rkt_partition_cnt t)) as [Hin|Hout].
  - destruct (Hslot Hin) as (a & p & Hi & Hp).
    rewrite (desired_add_known rkt partition s t a p Ht Hin Hi Hp).
    eexists a, _, _. split; [reflexivity|]. split; [simpl; apply lookup_insert_eq|].
    erewrite desired_add_known; [| exact Ht | exact Hin | exact Hi | simpl; apply lookup_insert_eq].
    f_equal. f_equal. f_equal.
    unfold set_rktp_flags, set_rktp_refcnt. simpl. f_equal.
    now rewrite <- Z.lor_assoc, Z.lor_diag.
  - destruct (desired_get_cases rkt partition s t Ht Hl)
      as [(a & p & Ha & Hp & Hid & Hget)|[Hnone Hget]].
    + rewrite (desired_add_listed rkt partition s t a p Ht Hout Hget).
      set (p1 := set_rktp_refcnt (rktp_refcnt p + 1) p).
      set (s1 := set_toppars _ s).
      assert (Hp1 : toppars s1 !! a = Some p1) by (subst s1; simpl; apply lookup_insert_eq).
      exists a, s1, p1. split; [reflexivity|]. split; [exact Hp1|].
      assert (Hl1 : forall x, x ∈ rkt_desp t -> is_Some (toppars s1 !! x)).
      { intros x Hx. subst s1. simpl. rewrite lookup_insert.
        destruct (decide (a = x)); [eauto | now apply Hl]. }
      destruct (desired_get_cases rkt partition s1 t Ht Hl1)
        as [(a' & p' & Ha' & Hp' & Hid' & Hget')|[Hnone' _]].
      * assert (a' = a).
        { destruct (decide (a' = a)) as [E|Hne]; [exact E|].
          assert (Hp0 : toppars s !! a' = Some p')
            by (subst s1; simpl in Hp'; now rewrite lookup_insert_ne in Hp' by congruence).
          apply (desp_ids_inj s t a' a p' p Hnd Ha' Ha Hp0 Hp). congruence. }
        subst a'. rewrite Hp1 in Hp'. injection Hp' as <-.
        now apply (desired_add_listed rkt partition s1 t a p1 Ht Hout).
      * exfalso. now apply (Hnone' a p1 Ha Hp1).
    + rewrite (desired_add_unseen rkt partition s t Ht Hout Hget).
      pose proof (fresh_toppar_unused s) as Hfresh.
      remember (fresh (dom (toppars s))) as af eqn:Eaf.
      set (t1 := set_rkt_desp _ _).
      match goal with |- context [Done af ?x] => set (s1 := x) end.
      assert (Ht1 : topics s1 !! rkt = Some t1) by (subst s1; simpl; apply lookup_insert_eq).
      assert (Hp1 : toppars s1 !! af = Some (desired_toppar rkt partition))
        by (subst s1; simpl; apply lookup_insert_eq).
      exists af, s1, (desired_toppar rkt partition).
      split; [reflexivity|]. split; [exact Hp1|].
      assert (Hl1 : forall x, x ∈ rkt_desp t1 -> is_Some (toppars s1 !! x)).
      { intros x. subst t1 s1. simpl. rewrite elem_of_app, list_elem_of_singleton, lookup_insert.
        intros [Hx| ->]; [|now rewrite decide_True by reflexivity; eauto].
        destruct (decide (af = x)); [eauto | now apply Hl]. }
      assert (Hout1 : ~ (0 <= partition < rkt_partition_cnt t1)) by exact Hout.
      destruct (desired_get_cases rkt partition s1 t1 Ht1 Hl1)
        as [(a' & p' & Ha' & Hp' & Hid' & Hget')|[Hnone' _]].
      * assert (a' = af).
        { destruct (decide (a' = af)) as [E|Hne]; [exact E|]. exfalso.
          subst t1. simpl in Ha'. apply elem_of_app in Ha'.
          destruct Ha' as [Ha'|Ha']; [|apply list_elem_of_singleton in Ha'; congruence].
          assert (Hp0 : toppars s !! a' = Some p')
            by (subst s1; simpl in Hp'; now rewrite lookup_insert_ne in Hp' by congruence).
          exact (Hnone a' p' Ha' Hp0 Hid'). }
        subst a'. rewrite Hp1 in Hp'. injection Hp' as <-.
        now apply (desired_add_listed rkt partition s1 t1 af _ Ht1 Hout1).
      * exfalso. apply (Hnone' af (desired_toppar rkt partition)); [|exact Hp1|reflexivity].
        subst t1. simpl. apply elem_of_app. right. now apply list_elem_of_singleton.
Qed.

Lemma desired_add_twice_same_partition_witness :
  exists a s1 s2,
    rd_kafka_toppar_desired_add 1%positive 3 st_desired_unseen = Done a s1 /\
    rd_kafka_toppar_desired_add 1%positive 3 s1 = Done a s2.
Proof.
  destruct st_desired_unseen_ok as (t & Ht & Hdesp & Hcnt & Hrc & Hok).
  destruct (desired_add_twice_same_partition 1%positive 3 st_desired_unseen t Ht Hok)
    as (a & s1 & p1 & Hrun1 & _ & Hrun2).
  - rewrite Hcnt. lia.
  - exists a, s1, (set_toppars (<[a := set_rktp_refcnt (rktp_refcnt p1 + 1) p1]>
                                (toppars s1)) s1).
    split; [exact Hrun1 | exact Hrun2].
Defined.

Lemma clear_set_desired f :
  Z.land f RD_KAFKA_TOPPAR_F_DESIRED = 0 ->
  Z.land (Z.lor f RD_KAFKA_TOPPAR_F_DESIRED) (Z.lnot RD_KAFKA_TOPPAR_F_DESIRED) = f.
Proof.
  unfold RD_KAFKA_TOPPAR_F_DESIRED. intros H. apply Z.bits_inj'. intros n Hn.
  rewrite Z.land_spec, Z.lor_spec, Z.lnot_spec by lia.
  destruct (decide (n = 0)) as [->|Hne].
  - apply (f_equal (fun x => Z.testbit x 0)) in H.
    rewrite Z.land_spec in H. change (Z.testbit 1 0) with true in H.
    change (Z.testbit 0 0) with false in H. rewrite andb_true_r in H.
    rewrite H. reflexivity.
  - replace (Z.testbit 1 n) with false.
    + now rewrite orb_false_r, andb_true_r.
    + symmetry. change 1 with (2 ^ 0). rewrite Z.pow2_bits_eqb by lia.
      apply Z.eqb_neq. lia.
Qed.

(** X9: marking a partition as desired and unmarking it again leaves the
    whole store as it was, both for a partition of the array that was neither
    desired nor unknown and for an id that the topic has never heard of: in
    the latter case the partition made by [rd_kafka_toppar_desired_add] is
    unlinked from the desired list and freed, and the topic gets back the
    reference the partition held. *)
Theorem desired_add_del_round_trip :
  forall rkt partition s t,
    topics s !! rkt = Some t ->
    1 <= rkt_refcnt t ->
    (0 <= partition < rkt_partition_cnt t ->
     exists a p, rkt_p t !! Z.to_nat partition = Some (Some a) /\
                 toppars s !! a = Some p /\ 1 <= rktp_refcnt p /\
                 Z.land (rktp_flags p) RD_KAFKA_TOPPAR_F_DESIRED = 0 /\
                 Z.land (rktp_flags p) RD_KAFKA_TOPPAR_F_UNKNOWN = 0) ->
    (~ (0 <= partition < rkt_partition_cnt t) ->
     forall a, a ∈ rkt_desp t ->
               exists p, toppars s !! a = Some p /\ rktp_partition p <> partition) ->
    (let* rktp := rd_kafka_toppar_desired_add rkt partition in
     rd_kafka_toppar_desired_del rktp) s = Done tt s.
Proof.
  intros rkt partition s t Ht Hrt Hknown Hunseen.
  destruct (decide (0 <= partition < rkt_partition_cnt t)) as [Hin|Hout].
  - destruct (Hknown Hin) as (a & p & Hi & Hp & Hr & HD & HU).
    rewrite (bind_done _ _ _ _ _ (desired_add_known rkt partition s t a p Ht Hin Hi Hp)).
    unfold rd_kafka_toppar_desired_del, rd_kafka_toppar_destroy.
    munfold. mstep.
    replace (Z.land (Z.lor (rktp_flags p) RD_KAFKA_TOPPAR_F_DESIRED)
                    RD_KAFKA_TOPPAR_F_DESIRED =? 0) with false
      by (symmetry; apply Z.eqb_neq, desired_flag_set).
    mstep. rewrite (clear_set_desired _ HD). rewrite HU.
    change (0 =? 0) with true. cbn [negb]. cbv iota.
    mstep. rewrite !insert_insert_eq.
    f_equal. apply state_eq; simpl; try reflexivity.
    apply insert_id. rewrite Hp. f_equal.
    destruct p; unfold set_rktp_flags, set_rktp_refcnt; simpl in *. f_equal. lia.
  - specialize (Hunseen Hout).
    assert (Hget : rd_kafka_toppar_desired_get rkt partition s = Done None s).
    { unfold rd_kafka_toppar_desired_get.
      rewrite (bind_done _ _ _ _ _ (load_topic_done s rkt t Ht)).
      now apply desired_scan_miss. }
    rewrite (bind_done _ _ _ _ _ (desired_add_unseen rkt partition s t Ht Hout Hget)).
    pose proof (fresh_toppar_unused s) as Hfresh.
    remember (fresh (dom (toppars s))) as af eqn:Eaf.
    assert (Haf : af ∉ rkt_desp t).
    { intros Hx. destruct (Hunseen af Hx) as (y & Hy & _). congruence. }
    unfold rd_kafka_toppar_desired_del, rd_kafka_toppar_destroy, rd_kafka_toppar_destroy0,
      rd_kafka_topic_destroy, rd_kafka_topic_destroy0, free_toppar, desired_toppar.
    munfold. mstep.
    change (Z.land (Z.lor RD_KAFKA_TOPPAR_F_DESIRED RD_KAFKA_TOPPAR_F_UNKNOWN)
                   RD_KAFKA_TOPPAR_F_DESIRED =? 0) with false.
    mstep.
    change (Z.land (Z.land (Z.lor RD_KAFKA_TOPPAR_F_DESIRED RD_KAFKA_TOPPAR_F_UNKNOWN)
                           (Z.lnot RD_KAFKA_TOPPAR_F_DESIRED))
                   RD_KAFKA_TOPPAR_F_UNKNOWN =? 0) with false.
    cbn [negb]. cbv iota. mstep.
    change (1 - 1 =? 0) with true. cbv iota. mstep.
    replace (0 <? rkt_refcnt t + 1 - 1) with true by (symmetry; apply Z.ltb_lt; lia).
    f_equal. apply state_eq; simpl; try reflexivity.
    + rewrite !insert_insert_eq. apply insert_id. rewrite Ht. f_equal.
      rewrite (TAILQ_REMOVE_last af _ Haf).
      destruct t; unfold set_rkt_refcnt, set_rkt_desp; simpl. f_equal. lia.
    + rewrite !insert_insert_eq. now apply delete_insert_id.
Qed.

Lemma desired_add_del_round_trip_witness :
  (let* rktp := rd_kafka_toppar_desired_add 1%positive 3 in
   rd_kafka_toppar_desired_del rktp) st_orders = Done tt st_orders.
Proof.
  assert (Ht : exists t, topics st_orders !! 1%positive = Some t /\
                         rkt_refcnt t = 2 /\ rkt_partition_cnt t = 0 /\ rkt_desp t = [])
    by (eexists; split; [vm_compute; reflexivity|]; repeat split).
  destruct Ht as (t & Ht & Hrc & Hcnt & Hdesp).
  apply (desired_add_del_round_trip 1%positive 3 st_orders t Ht).
  - lia.
  - intros H. lia.
  - intros _ a Ha. rewrite Hdesp in Ha. inversion Ha.
Defined.

(** ** The life of a topic *)

Lemma fresh_topic_unused s : topics s !! fresh (dom (topics s)) = None.
Proof. apply not_elem_of_dom, is_fresh. Qed.

Section TopicLife.

Variable conf_new : rd_kafka_topic_conf_t.
Variable random : nat.

(** The creation path of [rd_kafka_topic_new], step by step. *)
Lemma topic_new_create_run name c s :
  topic_new_create conf_new random name (Some c) s
  = Done (Some (fresh (dom (topics s))))
         (mk_state (registered (fresh (dom (topics s))) (st_rk s))
            (<[fresh (dom (topics s))
               := created_topic random name c (fresh (dom (toppars s)))]> (topics s))
            (<[fresh (dom (toppars s))
               := fresh_toppar (fresh (dom (topics s))) RD_KAFKA_PARTITION_UA]> (toppars s))
            (brokers s) (st_errno s)).
Proof.
  unfold topic_new_create, rd_kafka_toppar_new, alloc_topic, rd_kafka_topic_keep,
    rd_kafka_keep, alloc_toppar, rd_kafka_toppar_keep, rd_kafka_topic_leader_query,
    TAILQ_INSERT_TAIL.
  munfold. mstep. rewrite !insert_insert_eq.
  unfold created_topic, created_conf, registered, fresh_toppar.
  destruct (partitioner c); reflexivity.
Qed.

End TopicLife.

(** X10: [rd_kafka_topic_new] with a configuration keeps the registry free
    of dangling entries and of repeated names, whatever it is called with.
    When it returns a topic, that topic is registered under the name asked
    for, and the names of the registry are those of before, followed by the
    new name if it was not registered; when it returns NULL, [errno] is
    EINVAL and the registry has the names it had. *)
Theorem topic_new_keeps_registry :
  forall conf_new random topic c s,
    registry_ok s ->
    exists r s',
      rd_kafka_topic_new conf_new random topic (Some c) s = Done r s' /\
      registry_ok s' /\
      match r with
      | Some rkt =>
          exists name,
            topic = Some name /\
            rkt ∈ rk_topics (st_rk s') /\
            rkt_topic <$> topics s' !! rkt = Some name /\
            registry_names s'
            = (if bool_decide (name ∈ registry_names s) then registry_names s
               else registry_names s ++ [name])
      | None => st_errno s' = EINVAL /\ registry_names s' = registry_names s
      end.
Proof.
  intros conf_new random topic c s [Hlive Hnd].
  destruct topic as [name|];
    [|exists None, (set_st_errno EINVAL s); repeat split; assumption].
  destruct (decide (0 < message_timeout_ms c /\ 0 < request_timeout_ms c)) as [[H1 H2]|Hbad].
  - rewrite (topic_new_valid conf_new random name c s H1 H2).
    destruct (topic_scan_total (rk_topics (st_rk s)) name s Hlive) as (r & s' & Hscan).
    assert (Hf : rd_kafka_topic_find name s = Done r s') by exact Hscan.
    rewrite (bind_done _ _ _ _ _ Hf). clear Hf.
    destruct r as [rkt|].
    + apply topic_scan_inv in Hscan. destruct Hscan as (Hin & t & Ht & Hn & ->).
      eexists (Some rkt), _. split; [reflexivity|].
      assert (Hnames := registry_names_keep s rkt t (rkt_refcnt t + 1) Ht).
      split; [split|].
      * intros a Ha. simpl. rewrite lookup_insert.
        destruct (decide (rkt = a)); [eauto | now apply Hlive].
      * now rewrite Hnames.
      * exists name. split; [reflexivity|]. split; [exact Hin|].
        split; [simpl; rewrite lookup_insert_eq; simpl; now rewrite Hn|].
        rewrite Hnames, bool_decide_eq_true_2; [reflexivity|].
        apply elem_of_registry_names. now exists rkt, t.
    + assert (Hnone := topic_scan_none _ _ _ _ Hscan).
      apply topic_scan_inv in Hscan. subst s'.
      rewrite (topic_new_create_run conf_new random name c s).
      pose proof (fresh_topic_unused s) as Hfresh.
      remember (fresh (dom (topics s))) as rkt eqn:Erkt.
      assert (Hnew : name ∉ registry_names s).
      { rewrite elem_of_registry_names. intros (a & ta & Ha & Hta & Hna).
        now apply (Hnone a ta). }
      eexists (Some rkt), _. split; [reflexivity|].
      match goal with |- registry_ok ?x /\ _ => set (s1 := x) end.
      assert (Hnames : registry_names s1 = registry_names s ++ [name]).
      { subst s1.
        apply (registry_names_create s rkt
                 (created_topic random name c (fresh (dom (toppars s))))
                 (registered rkt (st_rk s)) _ _ _ _ Hlive Hfresh); reflexivity. }
      split; [split|].
      * intros a. subst s1. simpl.
        rewrite elem_of_app, list_elem_of_singleton, lookup_insert.
        intros [Ha| ->]; destruct (decide _); eauto; congruence.
      * rewrite Hnames. apply NoDup_app. split; [exact Hnd|].
        split; [|apply NoDup_singleton].
        intros n Hn1 Hn2. apply list_elem_of_singleton in Hn2. now subst n.
      * exists name. split; [reflexivity|].
        split; [subst s1; simpl; apply elem_of_app; right; now apply list_elem_of_singleton|].
        split; [subst s1; simpl; now rewrite lookup_insert_eq|].
        now rewrite Hnames, bool_decide_eq_false_2.
  - rewrite (topic_new_bad_timeout conf_new random name c s) by lia.
    exists None, (set_st_errno EINVAL s). repeat split; assumption.
Qed.

Lemma topic_new_keeps_registry_witness :
  exists r s',
    rd_kafka_topic_new default_conf 0%nat (Some "payments"%string) (Some default_conf)
                       st_orders = Done r s' /\
    registry_ok s'.
Proof.
  destruct (topic_new_keeps_registry default_conf 0%nat (Some "payments"%string)
              default_conf st_orders) as (r & s' & Hrun & Hok & _).
  - split.
    + intros a Ha. vm_compute in Ha. apply list_elem_of_singleton in Ha. subst a.
      eexists. vm_compute. reflexivity.
    + assert (E : registry_names st_orders = ["orders"%string]) by (vm_compute; reflexivity).
      rewrite E. apply NoDup_singleton.
  - exists r, s'. split; [exact Hrun | exact Hok].
Defined.



(** X11: the three ways [rd_kafka_topic_destroy] ends.  With more than one
    reference it lowers the count and nothing else.  With exactly one it
    unlinks the topic from the registry, gives back the topic's reference on
    the client handle and frees the topic; [rk_topic_cnt] is left as it is.
    With none left it stops at [assert(rkt->rkt_refcnt == 0)]. *)
Theorem topic_destroy_cases :
  forall rkt s t,
    topics s !! rkt = Some t ->
    rd_kafka_topic_destroy rkt s
    = if 2 <=? rkt_refcnt t then
        Done tt (set_topics (<[rkt := set_rkt_refcnt (rkt_refcnt t - 1) t]> (topics s)) s)
      else if rkt_refcnt t =? 1 then
        Done tt (mk_state
                   (mk_rk (TAILQ_REMOVE rkt (rk_topics (st_rk s))) (rk_topic_cnt (st_rk s))
                          (rk_brokers (st_rk s)) (rk_refcnt (st_rk s) - 1)
                          (rk_leader_queries (st_rk s)))
                   (delete rkt (topics s)) (toppars s) (brokers s) (st_errno s))
      else Crashed AssertFailed.
Proof.
  intros rkt s t Ht.
  destruct (2 <=? rkt_refcnt t) eqn:E2.
  - apply Z.leb_le in E2. now apply topic_destroy_not_last.
  - apply Z.leb_gt in E2. destruct (rkt_refcnt t =? 1) eqn:E1.
    + apply Z.eqb_eq in E1. exact (topic_destroy_last rkt s t Ht E1).
    + apply Z.eqb_neq in E1.
      unfold rd_kafka_topic_destroy, rd_kafka_topic_destroy0.
      munfold. mstep.
      replace (0 <? rkt_refcnt t - 1) with false by (symmetry; apply Z.ltb_ge; lia).
      replace (rkt_refcnt t - 1 =? 0) with false by (symmetry; apply Z.eqb_neq; lia).
      reflexivity.
Qed.

Lemma topic_destroy_cases_witness :
  exists s',
    (rd_kafka_topic_destroy 1%positive ;; rd_kafka_topic_destroy 1%positive) st_orders
    = Done tt s' /\
    topics s' = ∅ /\ rk_topics (st_rk s') = [] /\ rk_topic_cnt (st_rk s') = 1.
Proof.
  assert (Ht : exists t, topics st_orders !! 1%positive = Some t /\ rkt_refcnt t = 2)
    by (eexists; split; [vm_compute; reflexivity | reflexivity]).
  destruct Ht as (t & Ht & Hr).
  pose proof (topic_destroy_cases 1%positive st_orders t Ht) as H2.
  rewrite Hr in H2. change (2 <=? 2) with true in H2. cbv iota in H2.
  rewrite (bind_done _ _ _ _ _ H2).
  set (s1 := set_topics _ st_orders).
  assert (Ht1 : topics s1 !! 1%positive = Some (set_rkt_refcnt (2 - 1) t))
    by (subst s1; simpl; apply lookup_insert_eq).
  rewrite (topic_destroy_cases 1%positive s1 _ Ht1).
  cbn [rkt_refcnt set_rkt_refcnt]. change (2 <=? 2 - 1) with false.
  change (2 - 1 =? 1) with true. cbv iota.
  eexists. split; [reflexivity|].
  split; [|split]; vm_compute; reflexivity.
Defined.

(** Tests on numbers that are known evaluate. *)
Ltac mcalc :=
  repeat match goal with
    | |- context [?a <? ?b] =>
        let v := eval vm_compute in (a <? b) in
        match v with true => idtac | false => idtac end; change (a <? b) with v
    | |- context [?a <=? ?b] =>
        let v := eval vm_compute in (a <=? b) in
        match v with true => idtac | false => idtac end; change (a <=? b) with v
    | |- context [?a =? ?b] =>
        let v := eval vm_compute in (a =? b) in
        match v with true => idtac | false => idtac end; change (a =? b) with v
    end;
  cbn [negb andb orb]; cbv iota.

(** X12: a whole life of a topic.  A topic is created under a name that is
    not registered, its partitions are removed and the caller's reference is
    released.  The look-up of the unassigned partition in
    [rd_kafka_topic_partitions_remove] leaves [ua_on_miss] out, and the
    outcome is given for every value.  When the look-up finds the partition
    (the value is not 0) every heap is afterwards as before the creation: the
    topic and its unassigned partition are freed, the registry has the
    entries it had, and the client handle has the reference count it had;
    two things remain, the leader query scheduled at creation, and
    [rk_topic_cnt], which creation has raised and which nothing lowers.  When
    the look-up misses (the value is 0) the unassigned partition is not let
    go: it stays as created, and so does the topic, registered, with the one
    reference that this partition holds. *)
Theorem topic_lifecycle_round_trip :
  forall conf_new random ua_on_miss_i ua_on_miss name c s,
    (forall rkt, rkt ∈ rk_topics (st_rk s) ->
       exists t, topics s !! rkt = Some t /\ rkt_topic t <> name) ->
    0 < message_timeout_ms c -> 0 < request_timeout_ms c ->
    (let* r := rd_kafka_topic_new conf_new random (Some name) (Some c) in
     match r with
     | Some rkt =>
         rd_kafka_topic_partitions_remove ua_on_miss_i ua_on_miss rkt ;;
         rd_kafka_topic_destroy rkt
     | None => ret tt
     end) s
    = if ua_on_miss =? 0 then
        Done tt (mk_state (registered (fresh (dom (topics s))) (st_rk s))
                   (<[fresh (dom (topics s))
                      := set_rkt_refcnt 1 (created_topic random name c
                                             (fresh (dom (toppars s))))]> (topics s))
                   (<[fresh (dom (toppars s))
                      := fresh_toppar (fresh (dom (topics s))) RD_KAFKA_PARTITION_UA]>
                      (toppars s))
                   (brokers s) (st_errno s))
      else
        Done tt (set_st_rk (mk_rk (rk_topics (st_rk s)) (rk_topic_cnt (st_rk s) + 1)
                                  (rk_brokers (st_rk s)) (rk_refcnt (st_rk s))
                                  (rk_leader_queries (st_rk s)
                                   ++ [fresh (dom (topics s))]))
                           s).
Proof.
  intros conf_new random uom_i uom name c s Hreg H1 H2.
  assert (Hnew : rd_kafka_topic_new conf_new random (Some name) (Some c) s
                 = topic_new_create conf_new random name (Some c) s).
  { rewrite (topic_new_valid conf_new random name c s H1 H2).
    assert (Hf : rd_kafka_topic_find name s = Done None s)
      by (apply topic_scan_miss; exact Hreg).
    now rewrite (bind_done _ _ _ _ _ Hf). }
  rewrite topic_new_create_run in Hnew.
  rewrite (bind_done _ _ _ _ _ Hnew). clear Hnew.
  pose proof (fresh_topic_unused s) as Hft.
  pose proof (fresh_toppar_unused s) as Hfp.
  remember (fresh (dom (topics s))) as rkt eqn:Erkt.
  remember (fresh (dom (toppars s))) as ua eqn:Eua.
  assert (Hnotin : rkt ∉ rk_topics (st_rk s)).
  { intros Hin. destruct (Hreg rkt Hin) as (t & Ht & _). congruence. }
  destruct (uom =? 0) eqn:E.
  - apply Z.eqb_eq in E. subst uom.
    unfold rd_kafka_topic_partitions_remove, rd_kafka_toppar_get,
      keep_if_set, rd_kafka_topic_keep, rd_kafka_topic_destroy, rd_kafka_topic_destroy0,
      created_topic, fresh_toppar, registered.
    munfold. mstep.
    change (Z.to_nat 0) with 0%nat. cbn [seq partitions_remove_all]. munfold. mstep.
    do 4 (mcalc; mstep; cbn [assert]; munfold).
    f_equal. apply state_eq; simpl; try reflexivity.
    now rewrite !insert_insert_eq.
  - apply Z.eqb_neq in E.
    unfold rd_kafka_topic_partitions_remove, rd_kafka_toppar_get,
      keep_if_set, rd_kafka_topic_keep, rd_kafka_toppar_keep, rd_kafka_toppar_destroy,
      rd_kafka_toppar_destroy0, rd_kafka_topic_destroy, rd_kafka_topic_destroy0,
      rd_kafka_destroy0, free_toppar, free_topic, created_topic, fresh_toppar, registered,
      rd_kafka_msgq_purge.
    munfold. mstep.
    change (Z.to_nat 0) with 0%nat. cbn [seq partitions_remove_all]. munfold. mstep.
    do 8 (mcalc; mstep; cbn [assert]; munfold).
    f_equal. apply state_eq; simpl; try reflexivity.
    + rewrite (TAILQ_REMOVE_last rkt _ Hnotin). f_equal. lia.
    + rewrite !delete_insert_eq. now apply delete_id.
    + rewrite !insert_insert_eq. now apply delete_insert_id.
Qed.

Lemma topic_lifecycle_round_trip_witness :
  (exists s',
      (let* r := rd_kafka_topic_new default_conf 0%nat (Some "payments"%string)
                                    (Some default_conf) in
       match r with
       | Some rkt =>
           rd_kafka_topic_partitions_remove 1 1 rkt ;; rd_kafka_topic_destroy rkt
       | None => ret tt
       end) st_orders = Done tt s' /\
      topics s' = topics st_orders /\ toppars s' = toppars st_orders /\
      rk_topics (st_rk s') = rk_topics (st_rk st_orders) /\
      rk_topic_cnt (st_rk s') = rk_topic_cnt (st_rk st_orders) + 1) /\
  (exists s',
      (let* r := rd_kafka_topic_new default_conf 0%nat (Some "payments"%string)
                                    (Some default_conf) in
       match r with
       | Some rkt =>
           rd_kafka_topic_partitions_remove 0 0 rkt ;; rd_kafka_topic_destroy rkt
       | None => ret tt
       end) st_orders = Done tt s' /\
      (rkt_refcnt <$> topics s' !! 2%positive) = Some 1 /\
      (rktp_refcnt <$> toppars s' !! 2%positive) = Some 1).
Proof.
  assert (Hreg : forall rkt, rkt ∈ rk_topics (st_rk st_orders) ->
                   exists t, topics st_orders !! rkt = Some t /\
                             rkt_topic t <> "payments"%string).
  { intros rkt Hrkt. vm_compute in Hrkt.
    apply list_elem_of_singleton in Hrkt. subst rkt.
    eexists. split; [vm_compute; reflexivity|]. simpl. discriminate. }
  split.
  - eexists. split.
    + apply (topic_lifecycle_round_trip default_conf 0%nat 1 1 "payments" default_conf
               st_orders Hreg); simpl; lia.
    + repeat split.
  - eexists. split.
    + apply (topic_lifecycle_round_trip default_conf 0%nat 0 0 "payments" default_conf
               st_orders Hreg); simpl; lia.
    + split; vm_compute; reflexivity.
Defined.


(** ** Leaders: delegation undone, and leader updates *)

(** X13: delegating a partition without leader to a broker and taking the
    delegation back leaves the whole store as it was: the broker's list, its
    count and its references, and the references of the partition. *)
Theorem delegate_then_undelegate :
  forall s a p b rb,
    toppars s !! a = Some p ->
    rktp_leader p = None ->
    1 <= rktp_refcnt p ->
    brokers s !! b = Some rb ->
    a ∉ rkb_toppars rb ->
    (rd_kafka_toppar_broker_delegate a (Some b) ;;
     rd_kafka_toppar_broker_delegate a None) s = Done tt s.
Proof.
  intros s a p b rb Hp Hl Hr Hb Ha.
  rewrite (bind_done _ _ _ _ _ (delegate_link s a p b rb Hp Hl Hb Hr)).
  erewrite (delegate_unlink _ a _ b (link_toppar a rb));
    [| simpl; apply lookup_insert_eq | reflexivity | simpl; apply lookup_insert_eq
     | simpl; lia].
  f_equal. apply state_eq; simpl; try reflexivity.
  - rewrite insert_insert_eq. apply insert_id. rewrite Hp. f_equal.
    destruct p; unfold set_rktp_refcnt, set_rktp_leader; simpl in *. subst. f_equal. lia.
  - rewrite insert_insert_eq. apply insert_id. rewrite Hb. f_equal.
    destruct rb; unfold unlink_toppar, link_toppar, TAILQ_INSERT_TAIL; simpl in *.
    rewrite (TAILQ_REMOVE_last a _ Ha). f_equal; lia.
Qed.

Lemma delegate_then_undelegate_witness :
  (rd_kafka_toppar_broker_delegate 3%positive (Some 2%positive) ;;
   rd_kafka_toppar_broker_delegate 3%positive None) st_queued = Done tt st_queued.
Proof.
  destruct (toppars st_queued !! 3%positive) as [p|] eqn:Hp;
    [|vm_compute in Hp; discriminate Hp].
  destruct (brokers st_queued !! 2%positive) as [rb|] eqn:Hb;
    [|vm_compute in Hb; discriminate Hb].
  apply (delegate_then_undelegate st_queued 3%positive p 2%positive rb Hp).
  - vm_compute in Hp. injection Hp as <-. reflexivity.
  - vm_compute in Hp. injection Hp as <-. simpl. lia.
  - exact Hb.
  - vm_compute in Hb. injection Hb as <-. simpl. apply not_elem_of_nil.
Defined.



(** The two releases at the end of [rd_kafka_topic_update]. *)
Lemma update_release_run rktp rkt s q t :
  toppars s !! rktp = Some q -> 2 <= rktp_refcnt q ->
  topics s !! rkt = Some t -> 2 <= rkt_refcnt t ->
  (rd_kafka_toppar_destroy rktp ;; rd_kafka_topic_destroy rkt) s
  = Done tt (mk_state (st_rk s)
               (<[rkt := set_rkt_refcnt (rkt_refcnt t - 1) t]> (topics s))
               (<[rktp := set_rktp_refcnt (rktp_refcnt q - 1) q]> (toppars s))
               (brokers s) (st_errno s)).
Proof.
  intros Hq Hrq Ht Hrt.
  rewrite (bind_done _ _ _ _ _ (toppar_destroy_not_last rktp s q Hq ltac:(lia))).
  now erewrite topic_destroy_not_last; [|exact Ht|exact Hrt].
Qed.



(** X15: what [rd_kafka_topic_new] creates when the name is not registered
    and the timeouts are positive.  The topic and its unassigned partition
    are new objects; the topic bears the name (and [rd_kafka_topic_name]
    returns it), has no partition, an empty desired list, the caller's
    timeouts, the caller's partitioner or else the random one, and two
    references; the unassigned partition has the sentinel id, points back to
    the topic, has no leader, empty queues and one reference; the topic is
    registered last, the client handle has one more reference, and one leader
    query for the topic is scheduled.  Nothing else changes. *)
Theorem topic_new_creates :
  forall conf_new random name c s,
    (forall rkt, rkt ∈ rk_topics (st_rk s) ->
       exists t, topics s !! rkt = Some t /\ rkt_topic t <> name) ->
    0 < message_timeout_ms c -> 0 < request_timeout_ms c ->
    exists rkt ua s',
      rd_kafka_topic_new conf_new random (Some name) (Some c) s = Done (Some rkt) s' /\
      topics s !! rkt = None /\ toppars s !! ua = None /\
      topics s' = <[rkt := created_topic random name c ua]> (topics s) /\
      toppars s' = <[ua := fresh_toppar rkt RD_KAFKA_PARTITION_UA]> (toppars s) /\
      st_rk s' = registered rkt (st_rk s) /\
      brokers s' = brokers s /\ st_errno s' = st_errno s /\
      partitioner (rkt_conf (created_topic random name c ua))
      = Some (default random (partitioner c)) /\
      rd_kafka_topic_name rkt s' = Done name s'.
Proof.
  intros conf_new random name c s Hreg H1 H2.
  exists (fresh (dom (topics s))), (fresh (dom (toppars s))).
  eexists. split.
  - rewrite (topic_new_valid conf_new random name c s H1 H2).
    assert (Hf : rd_kafka_topic_find name s = Done None s)
      by (apply topic_scan_miss; exact Hreg).
    rewrite (bind_done _ _ _ _ _ Hf). apply topic_new_create_run.
  - split; [apply fresh_topic_unused|]. split; [apply fresh_toppar_unused|].
    do 5 (split; [reflexivity|]). split.
    + unfold created_topic, created_conf. cbn [rkt_conf].
      destruct (partitioner c) eqn:E; simpl; [exact E | reflexivity].
    + unfold rd_kafka_topic_name, bind, load_topic. simpl.
      now rewrite lookup_insert_eq.
Qed.

Lemma topic_new_creates_witness :
  exists rkt ua s',
    rd_kafka_topic_new default_conf 7%nat (Some "payments"%string) (Some default_conf)
                       st_orders = Done (Some rkt) s' /\
    topics s' !! rkt = Some (mk_topic "payments" (mk_conf (Some 7%nat) 300000 5000)
                                      [] 0 (Some ua) [] 2) /\
    toppars s' !! ua = Some (fresh_toppar rkt (-1)).
Proof.
  destruct (topic_new_creates default_conf 7%nat "payments" default_conf st_orders)
    as (rkt & ua & s' & Hrun & _ & _ & Htop & Hpp & _).
  - intros rkt Hrkt. vm_compute in Hrkt.
    apply list_elem_of_singleton in Hrkt. subst rkt.
    eexists. split; [vm_compute; reflexivity|]. simpl. discriminate.
  - simpl. lia.
  - simpl. lia.
  - exists rkt, ua, s'. split; [exact Hrun|].
    split; [rewrite Htop | rewrite Hpp]; apply lookup_insert_eq.
Defined.

(** ** Removing all partitions of a topic *)

(** The store after the topic [rkt] has let go of the partition at [a]. *)
Lemma remove_one_run ua_on_miss rkt i s t a p :
  topics s !! rkt = Some t ->
  Z.of_nat i < rkt_partition_cnt t ->
  rkt_p t !! i = Some (Some a) ->
  toppars s !! a = Some p ->
  1 <= rktp_refcnt p ->
  rktp_rkt p = rkt ->
  2 <= rkt_refcnt t ->
  partitions_remove_one ua_on_miss rkt i s
  = Done tt
      (mk_state (st_rk s)
         (if rktp_refcnt p =? 1
          then <[rkt := set_rkt_refcnt (rkt_refcnt t - 1) t]> (topics s)
          else topics s)
         (match removed p with
          | Some p' => <[a := p']> (toppars s)
          | None => delete a (toppars s)
          end)
         (brokers s) (st_errno s)).
Proof.
  intros Ht Hi Hslot Hp Hr Hrkt Hrt. unfold partitions_remove_one.
  assert (Hin : 0 <= Z.of_nat i < rkt_partition_cnt t) by lia.
  rewrite <- (Nat2Z.id i) in Hslot.
  rewrite (bind_done _ _ _ _ _
             (toppar_get_hit rkt (Z.of_nat i) ua_on_miss s t a p Ht Hin Hslot Hp)).
  set (s1 := set_toppars _ s).
  assert (Hp1 : toppars s1 !! a = Some (set_rktp_refcnt (rktp_refcnt p + 1) p))
    by (subst s1; simpl; apply lookup_insert_eq).
  rewrite (bind_done _ _ _ _ _ (load_toppar_done s1 a _ Hp1)).
  unfold bind at 1. unfold store_toppar at 1.
  set (p2 := set_rktp_msgq _ _).
  set (s2 := set_toppars _ s1).
  assert (Hp2 : toppars s2 !! a = Some p2) by (subst s2; simpl; apply lookup_insert_eq).
  rewrite (bind_done _ _ _ _ _
             (toppar_destroy_not_last a s2 p2 Hp2 ltac:(subst p2; simpl; lia))).
  set (p3 := set_rktp_refcnt _ p2).
  set (s3 := set_toppars _ s2).
  assert (Hp3 : toppars s3 !! a = Some p3) by (subst s3; simpl; apply lookup_insert_eq).
  unfold removed. destruct (rktp_refcnt p =? 1) eqn:E.
  - apply Z.eqb_eq in E.
    rewrite (toppar_destroy_last a s3 p3 t Hp3);
      [| subst p3 p2; simpl; lia | subst p3 p2; simpl; now rewrite Hrkt | exact Hrt].
    f_equal. apply state_eq; simpl; try reflexivity.
    + now rewrite Hrkt.
    + now rewrite !delete_insert_eq.
  - apply Z.eqb_neq in E.
    rewrite (toppar_destroy_not_last a s3 p3 Hp3 ltac:(subst p3 p2; simpl; lia)).
    f_equal. apply state_eq; simpl; try reflexivity.
    rewrite !insert_insert_eq. f_equal.
    subst p3 p2. unfold set_rktp_refcnt, set_rktp_msgq, rd_kafka_msgq_purge. simpl.
    f_equal. lia.
Qed.

(** A NULL slot is passed over. *)
Lemma remove_one_null ua_on_miss rkt i s t :
  topics s !! rkt = Some t ->
  Z.of_nat i < rkt_partition_cnt t ->
  rkt_p t !! i = Some None ->
  partitions_remove_one ua_on_miss rkt i s = Done tt s.
Proof.
  intros Ht Hi Hslot.
  assert (Hget : rd_kafka_toppar_get rkt (Z.of_nat i) ua_on_miss s = Done None s).
  { unfold rd_kafka_toppar_get.
    rewrite (bind_done _ _ _ _ _ (load_topic_done s rkt t Ht)).
    replace (0 <=? Z.of_nat i) with true by (symmetry; apply Z.leb_le; lia).
    replace (Z.of_nat i <? rkt_partition_cnt t) with true by (symmetry; now apply Z.ltb_lt).
    simpl. rewrite Nat2Z.id, Hslot. reflexivity. }
  unfold partitions_remove_one. now rewrite (bind_done _ _ _ _ _ Hget).
Qed.

Lemma last_refs_ext s s' l :
  (forall a, a ∈ l -> toppars s' !! a = toppars s !! a) ->
  last_refs s' l = last_refs s l.
Proof.
  unfold last_refs. induction l as [|x l IH]; intros H; [reflexivity|].
  rewrite !filter_cons. rewrite (H x) by left.
  assert (IH' : length (filter (fun a => rktp_refcnt <$> toppars s' !! a = Some 1) l)
                = length (filter (fun a => rktp_refcnt <$> toppars s !! a = Some 1) l)).
  { apply Nat2Z.inj, IH. intros a Ha. apply H. now right. }
  destruct (decide _); simpl; now rewrite IH'.
Qed.

Lemma last_refs_cons s a l p :
  toppars s !! a = Some p ->
  last_refs s (a :: l) = (if rktp_refcnt p =? 1 then 1 else 0) + last_refs s l.
Proof.
  intros Hp. unfold last_refs. rewrite filter_cons, Hp. simpl.
  destruct (decide (Some (rktp_refcnt p) = Some 1)) as [E|E].
  - injection E as E. rewrite E. simpl. lia.
  - destruct (rktp_refcnt p =? 1) eqn:E1; [|reflexivity].
    apply Z.eqb_eq in E1. congruence.
Qed.

Lemma last_refs_bounds s l : 0 <= last_refs s l <= Z.of_nat (length l).
Proof.
  unfold last_refs. split; [lia|]. apply inj_le, length_filter.
Qed.

Lemma let_go_nil rkt s : let_go rkt [] s s.
Proof.
  repeat split; try reflexivity.
  - intros t Ht. rewrite Ht. f_equal. destruct t; unfold set_rkt_refcnt, last_refs; simpl.
    f_equal. lia.
  - intros a p Ha. inversion Ha.
Qed.

(** The first loop of [rd_kafka_topic_partitions_remove], over any run of
    slot numbers. *)
Lemma remove_all_run ua_on_miss rkt t0 idx : forall s t,
  topics s !! rkt = Some t ->
  rkt_p t = rkt_p t0 -> rkt_partition_cnt t = rkt_partition_cnt t0 ->
  (forall i, i ∈ idx -> Z.of_nat i < rkt_partition_cnt t0 /\ (i < length (rkt_p t0))%nat) ->
  NoDup (omap (fun i => mjoin (rkt_p t0 !! i)) idx) ->
  (forall a, a ∈ omap (fun i => mjoin (rkt_p t0 !! i)) idx ->
             exists p, toppars s !! a = Some p /\ 1 <= rktp_refcnt p /\ rktp_rkt p = rkt) ->
  Z.of_nat (length (omap (fun i => mjoin (rkt_p t0 !! i)) idx)) + 1 <= rkt_refcnt t ->
  exists s',
    partitions_remove_all ua_on_miss rkt idx s = Done tt s' /\
    let_go rkt (omap (fun i => mjoin (rkt_p t0 !! i)) idx) s s'.
Proof.
  induction idx as [|i idx IH]; intros s t Ht Hparr Hcnt Hidx Hnd Hlive Hrt.
  - exists s. split; [reflexivity | apply let_go_nil].
  - destruct (Hidx i) as [Hi Hlen]; [left|].
    assert (Hidx' : forall j, j ∈ idx ->
               Z.of_nat j < rkt_partition_cnt t0 /\ (j < length (rkt_p t0))%nat)
      by (intros j Hj; apply Hidx; now right).
    destruct (lookup_lt_is_Some_2 (rkt_p t0) i Hlen) as [x Hx].
    cbn [omap list_omap] in *. rewrite Hx in *. cbn [mjoin option_join] in *.
    cbn [partitions_remove_all].
    destruct x as [a|].
    + (* a partition in the slot *)
      apply NoDup_cons in Hnd. destruct Hnd as [Hna Hnd].
      destruct (Hlive a) as (p & Hp & Hr & Hrkt); [left|].
      simpl in Hrt.
      assert (Hrun1 := remove_one_run ua_on_miss rkt i s t a p Ht ltac:(lia)
                         ltac:(rewrite Hparr; exact Hx) Hp Hr Hrkt ltac:(lia)).
      rewrite (bind_done _ _ _ _ _ Hrun1).
      match type of Hrun1 with _ = Done tt ?x => set (s1 := x) in * end.
      set (t1 := if rktp_refcnt p =? 1 then set_rkt_refcnt (rkt_refcnt t - 1) t else t).
      assert (Ht1 : topics s1 !! rkt = Some t1).
      { subst s1 t1. simpl. destruct (rktp_refcnt p =? 1); [apply lookup_insert_eq | exact Ht]. }
      assert (Hother : forall b, b <> a -> toppars s1 !! b = toppars s !! b).
      { intros b Hb. subst s1. simpl. destruct (removed p).
        - now rewrite lookup_insert_ne by congruence.
        - now rewrite lookup_delete_ne by congruence. }
      assert (Hat : toppars s1 !! a = removed p).
      { subst s1. simpl. destruct (removed p).
        - apply lookup_insert_eq.
        - apply lookup_delete_eq. }
      destruct (IH s1 t1) as (s' & Hrun & Hgo).
      * exact Ht1.
      * subst t1. now destruct (rktp_refcnt p =? 1).
      * subst t1. now destruct (rktp_refcnt p =? 1).
      * exact Hidx'.
      * exact Hnd.
      * intros b Hb. rewrite Hother by (intros ->; contradiction).
        apply Hlive. now right.
      * subst t1. destruct (rktp_refcnt p =? 1); simpl; lia.
      * exists s'. split; [exact Hrun|].
        destruct Hgo as (G1 & G2 & G3 & G4 & G5 & G6 & G7).
        assert (Hlast : last_refs s1 (omap (fun i => mjoin (rkt_p t0 !! i)) idx)
                        = last_refs s (omap (fun i => mjoin (rkt_p t0 !! i)) idx)).
        { apply last_refs_ext. intros b Hb. apply Hother. intros ->. contradiction. }
        split; [exact G1|]. split; [exact G2|]. split; [exact G3|].
        split; [|split; [|split]].
        -- intros x Hxr. rewrite (G4 x Hxr). subst s1. simpl.
           destruct (rktp_refcnt p =? 1); [now rewrite lookup_insert_ne by congruence|reflexivity].
        -- intros t' Ht'. rewrite Ht in Ht'. injection Ht' as <-.
           rewrite (G5 t1 Ht1), Hlast, (last_refs_cons s a _ p Hp). f_equal.
           subst t1. destruct (rktp_refcnt p =? 1); destruct t;
             unfold set_rkt_refcnt; simpl; f_equal; lia.
        -- intros b q Hb Hq. apply elem_of_cons in Hb. destruct Hb as [->|Hb].
           ++ rewrite Hp in Hq. injection Hq as <-.
              rewrite (G7 a Hna). exact Hat.
           ++ apply (G6 b q Hb). rewrite Hother; [exact Hq|]. intros ->. contradiction.
        -- intros b Hb. apply not_elem_of_cons in Hb. destruct Hb as [Hba Hb].
           rewrite (G7 b Hb). now apply Hother.
    + (* a NULL slot *)
      rewrite (bind_done _ _ _ _ _
                 (remove_one_null ua_on_miss rkt i s t Ht ltac:(lia)
                                  ltac:(rewrite Hparr; exact Hx))).
      now apply (IH s t).
Qed.

Lemma last_refs_snoc s l a p :
  toppars s !! a = Some p ->
  last_refs s (l ++ [a]) = last_refs s l + (if rktp_refcnt p =? 1 then 1 else 0).
Proof.
  intros Hp. unfold last_refs. rewrite filter_app, length_app, Nat2Z.inj_add. f_equal.
  change (Z.of_nat (length (filter (fun a => rktp_refcnt <$> toppars s !! a = Some 1) [a])))
    with (last_refs s [a]).
  rewrite (last_refs_cons s a [] p Hp). unfold last_refs. simpl. lia.
Qed.

(** The end of [rd_kafka_topic_partitions_remove], once the unassigned
    partition has been looked up: it is purged, unhooked from the topic and
    released. *)
Lemma remove_ua_run rkt s t ua p :
  topics s !! rkt = Some t ->
  toppars s !! ua = Some p ->
  1 <= rktp_refcnt p ->
  rktp_rkt p = rkt ->
  2 <= rkt_refcnt t ->
  (let* p := load_toppar ua in
   store_toppar ua (set_rktp_msgq (rd_kafka_msgq_purge (rktp_msgq p)) p) ;;
   let* t := load_topic rkt in
   store_topic rkt (set_rkt_ua None t) ;;
   rd_kafka_toppar_destroy ua ;;
   rd_kafka_toppar_destroy ua)
    (set_toppars (<[ua := set_rktp_refcnt (rktp_refcnt p + 1) p]> (toppars s)) s)
  = Done tt
      (mk_state (st_rk s)
         (<[rkt := set_rkt_refcnt (rkt_refcnt t - (if rktp_refcnt p =? 1 then 1 else 0))
                     (set_rkt_ua None t)]> (topics s))
         (match removed p with
          | Some p' => <[ua := p']> (toppars s)
          | None => delete ua (toppars s)
          end)
         (brokers s) (st_errno s)).
Proof.
  intros Ht Hp Hr Hrkt Hrt.
  set (s1 := set_toppars _ s).
  assert (Hp1 : toppars s1 !! ua = Some (set_rktp_refcnt (rktp_refcnt p + 1) p))
    by (subst s1; simpl; apply lookup_insert_eq).
  rewrite (bind_done _ _ _ _ _ (load_toppar_done s1 ua _ Hp1)).
  unfold bind at 1. unfold store_toppar at 1.
  set (p2 := set_rktp_msgq _ _).
  set (s2 := set_toppars _ s1).
  assert (Ht2 : topics s2 !! rkt = Some t) by exact Ht.
  rewrite (bind_done _ _ _ _ _ (load_topic_done s2 rkt t Ht2)).
  unfold bind at 1. unfold store_topic at 1.
  set (s3 := set_topics _ s2).
  assert (Hp3 : toppars s3 !! ua = Some p2) by (subst s3 s2; simpl; apply lookup_insert_eq).
  rewrite (bind_done _ _ _ _ _
             (toppar_destroy_not_last ua s3 p2 Hp3 ltac:(subst p2; simpl; lia))).
  set (p4 := set_rktp_refcnt _ p2).
  set (s4 := set_toppars _ s3).
  assert (Hp4 : toppars s4 !! ua = Some p4) by (subst s4; simpl; apply lookup_insert_eq).
  assert (Ht4 : topics s4 !! rkt = Some (set_rkt_ua None t))
    by (subst s4 s3; simpl; apply lookup_insert_eq).
  unfold removed. destruct (rktp_refcnt p =? 1) eqn:E.
  - apply Z.eqb_eq in E.
    rewrite (toppar_destroy_last ua s4 p4 (set_rkt_ua None t) Hp4);
      [| subst p4 p2; simpl; lia | subst p4 p2; simpl; now rewrite Hrkt | exact Hrt].
    f_equal. apply state_eq; simpl; try reflexivity.
    + rewrite Hrkt. now rewrite insert_insert_eq.
    + now rewrite !delete_insert_eq.
  - apply Z.eqb_neq in E.
    rewrite (toppar_destroy_not_last ua s4 p4 Hp4 ltac:(subst p4 p2; simpl; lia)).
    f_equal. apply state_eq; simpl; try reflexivity.
    + f_equal. destruct t; unfold set_rkt_refcnt, set_rkt_ua; simpl. f_equal. lia.
    + rewrite !insert_insert_eq. f_equal.
      subst p4 p2. unfold set_rktp_refcnt, set_rktp_msgq, rd_kafka_msgq_purge. simpl.
      f_equal. lia.
Qed.

(** X16: [rd_kafka_topic_partitions_remove] on a topic that owns distinct,
    live partitions (its array slots and its unassigned partition), each
    pointing back to the topic, while the topic has a reference beyond one
    per owned partition.  The two look-ups of the function leave [ua_on_miss]
    out, and what follows holds for every value of either.  The call returns.
    Afterwards the topic has no partition array and a count of 0; every
    partition of the array has an empty queue and one reference fewer, and is
    freed if that was its only reference; the same goes for the unassigned
    partition, and the topic has none afterwards, when the look-up finds it
    (the value left out is not 0), while it is left as it is, and stays the
    topic's unassigned partition, when the look-up misses; the topic has lost
    exactly the references of the partitions that were freed; its name,
    configuration and desired list, all other partitions, the client handle
    and the brokers are as before. *)
Theorem partitions_remove_lets_go :
  forall ua_on_miss_i ua_on_miss rkt s t,
    topics s !! rkt = Some t ->
    (Z.to_nat (rkt_partition_cnt t) <= length (rkt_p t))%nat ->
    NoDup (owned_toppars t) ->
    (forall a, a ∈ owned_toppars t ->
               exists p, toppars s !! a = Some p /\ 1 <= rktp_refcnt p /\ rktp_rkt p = rkt) ->
    Z.of_nat (length (owned_toppars t)) + 1 <= rkt_refcnt t ->
    exists s',
      rd_kafka_topic_partitions_remove ua_on_miss_i ua_on_miss rkt s = Done tt s' /\
      topics s'
      = <[rkt := mk_topic (rkt_topic t) (rkt_conf t) [] 0
                          (if ua_on_miss =? 0 then rkt_ua t else None) (rkt_desp t)
                          (rkt_refcnt t - last_refs s (removed_toppars ua_on_miss t))]>
          (topics s) /\
      (forall a p, a ∈ removed_toppars ua_on_miss t -> toppars s !! a = Some p ->
                   toppars s' !! a = removed p) /\
      (forall a, a ∉ removed_toppars ua_on_miss t -> toppars s' !! a = toppars s !! a) /\
      st_rk s' = st_rk s /\ brokers s' = brokers s.
Proof.
  intros uom_i uom rkt s t Ht Hlen Hnd Hlive Hrt.
  unfold removed_toppars, owned_toppars in *.
  apply NoDup_app in Hnd. destruct Hnd as (Hnda & Hdisj & _).
  rewrite length_app, Nat2Z.inj_add in Hrt.
  unfold rd_kafka_topic_partitions_remove.
  rewrite (bind_done _ _ _ _ _ (topic_keep_done rkt s t Ht)).
  set (t1 := set_rkt_refcnt (rkt_refcnt t + 1) t).
  set (s1 := set_topics _ s).
  assert (Ht1 : topics s1 !! rkt = Some t1) by (subst s1; simpl; apply lookup_insert_eq).
  rewrite (bind_done _ _ _ _ _ (load_topic_done s1 rkt t1 Ht1)).
  change (rkt_partition_cnt t1) with (rkt_partition_cnt t).
  (* the array *)
  destruct (remove_all_run uom_i rkt t (seq 0 (Z.to_nat (rkt_partition_cnt t))) s1 t1 Ht1
              eq_refl eq_refl) as (s2 & Hloop & G1 & G2 & G3 & G4 & G5 & G6 & G7).
  { intros i Hi. apply elem_of_seq in Hi. lia. }
  { exact Hnda. }
  { intros a Ha. apply Hlive, elem_of_app. now left. }
  { subst t1. simpl. fold (array_toppars t). lia. }
  fold (array_toppars t) in *.
  rewrite (bind_done _ _ _ _ _ Hloop).
  assert (Hla : last_refs s1 (array_toppars t) = last_refs s (array_toppars t))
    by (apply last_refs_ext; reflexivity).
  pose proof (last_refs_bounds s (array_toppars t)) as Hba.
  specialize (G5 t1 Ht1). rewrite Hla in G5.
  set (t2 := set_rkt_refcnt _ t1) in G5.
  rewrite (bind_done _ _ _ _ _ (load_topic_done s2 rkt t2 G5)).
  unfold bind at 1. unfold store_topic at 1.
  set (t3 := set_rkt_parts [] 0 t2).
  set (s3 := set_topics _ s2).
  assert (Ht3 : topics s3 !! rkt = Some t3) by (subst s3; simpl; apply lookup_insert_eq).
  assert (Htopics : forall v, <[rkt := v]> (topics s3) = <[rkt := v]> (topics s)).
  { intros v. subst s3. simpl. rewrite insert_insert_eq. apply map_eq. intros x.
    rewrite !lookup_insert. destruct (decide (rkt = x)) as [|Hx]; [reflexivity|].
    rewrite G4 by congruence. subst s1. simpl. now rewrite lookup_insert_ne. }
  destruct (uom =? 0) eqn:E.
  { (* the look-up of the unassigned partition misses *)
    assert (Hget : rd_kafka_toppar_get rkt RD_KAFKA_PARTITION_UA uom s3 = Done None s3)
      by (rewrite (toppar_get_ua_run rkt uom s3 t3 Ht3), E; reflexivity).
    rewrite (bind_done _ _ _ _ _ Hget).
    rewrite (bind_done _ _ s3 tt s3) by reflexivity.
    assert (0 <= Z.of_nat (length (option_list (rkt_ua t)))) by lia.
    erewrite topic_destroy_not_last;
      [| exact Ht3 | subst t3 t2 t1; simpl; lia].
    eexists. split; [reflexivity|]. cbn [topics toppars st_rk brokers set_topics].
    split; [|split; [|split; [|split]]].
    + rewrite Htopics. f_equal.
      subst t3 t2 t1. unfold set_rkt_refcnt, set_rkt_parts. simpl.
      f_equal. lia.
    + intros a p Ha Hp. subst s3. simpl. now apply G6.
    + intros a Ha. subst s3. simpl. now apply G7.
    + exact G1.
    + exact G2. }
  apply Z.eqb_neq in E.
  destruct (rkt_ua t) as [ua|] eqn:Hua; simpl in Hrt, Hlive, Hdisj.
  - (* with an unassigned partition *)
    assert (Hnot : ua ∉ array_toppars t).
    { intros Hin. apply (Hdisj ua Hin). now left. }
    destruct (Hlive ua) as (pu & Hpu & Hru & Hrktu);
      [apply elem_of_app; right; now left|].
    assert (Hpu3 : toppars s3 !! ua = Some pu) by (subst s3; simpl; now rewrite (G7 ua Hnot)).
    rewrite (bind_done _ _ _ _ _ (toppar_get_ua_done rkt uom s3 t3 ua pu E Ht3 Hua Hpu3)).
    pose proof (remove_ua_run rkt s3 t3 ua pu Ht3 Hpu3 Hru Hrktu
                  ltac:(subst t3 t2 t1; simpl; lia)) as Hblk.
    rewrite (bind_done _ _ _ _ _ Hblk). clear Hblk.
    pose proof (last_refs_snoc s (array_toppars t) ua pu Hpu) as Hsnoc.
    erewrite topic_destroy_not_last;
      [| simpl; apply lookup_insert_eq
       | subst t3 t2 t1; simpl; destruct (rktp_refcnt pu =? 1); lia].
    eexists. split; [reflexivity|]. cbn [topics toppars st_rk brokers set_topics].
    change (option_list (Some ua)) with [ua].
    split; [|split; [|split; [|split]]].
    + rewrite insert_insert_eq, Htopics. f_equal. rewrite Hsnoc.
      subst t3 t2 t1. unfold set_rkt_refcnt, set_rkt_ua, set_rkt_parts. simpl.
      f_equal. destruct (rktp_refcnt pu =? 1); lia.
    + intros a p Ha Hp. apply elem_of_app in Ha. destruct Ha as [Ha|Ha].
      * assert (a <> ua) by (intros ->; contradiction).
        assert (Hs3 : toppars s3 !! a = removed p) by (subst s3; simpl; now apply G6).
        destruct (removed pu);
          [rewrite lookup_insert_ne by congruence | rewrite lookup_delete_ne by congruence];
          exact Hs3.
      * apply list_elem_of_singleton in Ha. subst a. rewrite Hpu in Hp. injection Hp as <-.
        destruct (removed pu); [apply lookup_insert_eq | apply lookup_delete_eq].
    + intros a Ha. apply not_elem_of_app in Ha. destruct Ha as [Ha Hau].
      apply not_elem_of_cons in Hau. destruct Hau as [Hau _].
      assert (Hs3 : toppars s3 !! a = toppars s !! a) by (subst s3; simpl; now apply G7).
      destruct (removed pu);
        [rewrite lookup_insert_ne by congruence | rewrite lookup_delete_ne by congruence];
        exact Hs3.
    + exact G1.
    + exact G2.
  - (* without *)
    rewrite (bind_done _ _ _ _ _ (toppar_get_ua_none rkt uom s3 t3 Ht3 Hua)).
    rewrite (bind_done _ _ s3 tt s3) by reflexivity.
    erewrite topic_destroy_not_last;
      [| exact Ht3 | subst t3 t2 t1; simpl; simpl in Hrt; lia].
    eexists. split; [reflexivity|]. cbn [topics toppars st_rk brokers set_topics].
    change (option_list None) with (@nil positive). rewrite app_nil_r.
    split; [|split; [|split; [|split]]].
    + rewrite Htopics. f_equal.
      subst t3 t2 t1. unfold set_rkt_refcnt, set_rkt_parts. simpl. rewrite Hua.
      f_equal. lia.
    + intros a p Ha Hp. subst s3. simpl. now apply G6.
    + intros a Ha. subst s3. simpl. now apply G7.
    + exact G1.
    + exact G2.
Qed.

Lemma partitions_remove_lets_go_witness :
  exists s' p p',
    rd_kafka_topic_partitions_remove 1 1 1%positive st_queued = Done tt s' /\
    toppars st_queued !! 2%positive = Some p /\
    rkmq_msgs (rktp_msgq p) = [msg_a; msg_b] /\
    toppars s' !! 2%positive = Some p' /\
    rktp_msgq p' = rd_kafka_msgq_init /\
    rktp_leader p' = Some 1%positive /\
    toppars s' !! 3%positive = None /\
    toppars s' !! 1%positive = None.
Proof.
  assert (Ht : exists t, topics st_queued !! 1%positive = Some t /\
                         rkt_p t = [Some 2%positive; Some 3%positive] /\
                         rkt_partition_cnt t = 2 /\ rkt_ua t = Some 1%positive /\
                         rkt_refcnt t = 4)
    by (eexists; split; [vm_compute; reflexivity|]; repeat split).
  destruct Ht as (t & Ht & Hparr & Hcnt & Hua & Hrc).
  assert (Hown : owned_toppars t = [2%positive; 3%positive; 1%positive])
    by (unfold owned_toppars, array_toppars; rewrite Hparr, Hcnt, Hua; reflexivity).
  assert (Hp2 : exists p, toppars st_queued !! 2%positive = Some p /\
                          rkmq_msgs (rktp_msgq p) = [msg_a; msg_b] /\
                          rktp_refcnt p = 2 /\ rktp_leader p = Some 1%positive /\
                          rktp_rkt p = 1%positive)
    by (eexists; split; [vm_compute; reflexivity|]; repeat split).
  destruct Hp2 as (p2 & Hp2 & Hq2 & Hr2 & Hl2 & Hk2).
  assert (Hp3 : exists p, toppars st_queued !! 3%positive = Some p /\
                          rktp_refcnt p = 1 /\ rktp_rkt p = 1%positive)
    by (eexists; split; [vm_compute; reflexivity|]; repeat split).
  destruct Hp3 as (p3 & Hp3 & Hr3 & Hk3).
  assert (Hp1 : exists p, toppars st_queued !! 1%positive = Some p /\
                          rktp_refcnt p = 1 /\ rktp_rkt p = 1%positive)
    by (eexists; split; [vm_compute; reflexivity|]; repeat split).
  destruct Hp1 as (p1 & Hp1 & Hr1 & Hk1).
  destruct (partitions_remove_lets_go 1 1 1%positive st_queued t Ht)
    as (s' & Hrun & _ & Hown' & _).
  - rewrite Hparr, Hcnt. simpl. lia.
  - rewrite Hown. apply (bool_decide_unpack _). vm_compute. exact I.
  - rewrite Hown. intros a Ha.
    repeat (apply elem_of_cons in Ha; destruct Ha as [->|Ha];
            [eexists; split; [eassumption|]; split; [lia | assumption]|]).
    inversion Ha.
  - rewrite Hown, Hrc. simpl. lia.
  - change (removed_toppars 1 t) with (owned_toppars t) in Hown'. rewrite Hown in Hown'.
    pose proof (Hown' 2%positive p2 ltac:(left) Hp2) as H2.
    pose proof (Hown' 3%positive p3 ltac:(right; left) Hp3) as H3.
    pose proof (Hown' 1%positive p1 ltac:(right; right; left) Hp1) as H1.
    unfold removed in H1, H2, H3. rewrite Hr1 in H1. rewrite Hr2 in H2. rewrite Hr3 in H3.
    change (1 =? 1) with true in H1, H3. change (2 =? 1) with false in H2. cbv iota in *.
    eexists s', p2, _. split; [exact Hrun|]. split; [exact Hp2|]. split; [exact Hq2|].
    split; [exact H2|]. split; [reflexivity|]. split; [exact Hl2|].
    split; [exact H3 | exact H1].
Defined.

(** ** Shrinking the partition count, in general *)

(** The first loop of a shrinking update copies the slots it keeps. *)
Lemma assign_keep_run rkt s t : forall idx rktps,
  topics s !! rkt = Some t ->
  (forall i, i ∈ idx -> Z.of_nat i < rkt_partition_cnt t /\ (i < length (rkt_p t))%nat) ->
  cnt_update_assign rkt idx rktps s
  = Done (foldl (fun acc i => <[i := default None (rkt_p t !! i)]> acc) rktps idx) s.
Proof.
  induction idx as [|i idx IH]; intros rktps Ht Hidx; [reflexivity|].
  destruct (Hidx i) as [Hi Hlen]; [left|].
  destruct (lookup_lt_is_Some_2 (rkt_p t) i Hlen) as [x Hx].
  cbn [cnt_update_assign foldl].
  rewrite (bind_done _ _ _ _ _ (slot_keep_run rkt i s t x Ht Hi Hx)).
  rewrite Hx. simpl. apply IH; [exact Ht|]. intros j Hj. apply Hidx. now right.
Qed.

Lemma copy_slots (l : list (option positive)) (n : nat) : forall m,
  (m <= n)%nat -> (n <= length l)%nat ->
  foldl (fun acc i => <[i := default None (l !! i)]> acc) (replicate n None) (seq 0 m)
  = take m l ++ replicate (n - m) None.
Proof.
  induction m as [|m IH]; intros Hm Hn.
  - simpl. now rewrite Nat.sub_0_r.
  - rewrite seq_S, foldl_app. simpl. rewrite IH by lia.
    destruct (lookup_lt_is_Some_2 l m ltac:(lia)) as [x Hx].
    rewrite Hx. simpl.
    rewrite (take_S_r l m x Hx).
    replace (n - m)%nat with (S (n - S m)) by lia. simpl.
    rewrite insert_app_r_alt by (rewrite length_take; lia).
    rewrite length_take. replace (m - m `min` length l)%nat with 0%nat by lia.
    simpl. now rewrite <- app_assoc.
Qed.

(** One round of the second loop: the partition of slot [i] is dropped. *)
Lemma shrink_one_run rkt i s t a p :
  topics s !! rkt = Some t ->
  rkt_p t !! i = Some (Some a) ->
  toppars s !! a = Some p ->
  1 <= rktp_refcnt p ->
  rktp_rkt p = rkt ->
  2 <= rkt_refcnt t ->
  (Z.land (rktp_flags p) RD_KAFKA_TOPPAR_F_DESIRED <> 0 ->
   Z.land (rktp_flags p) RD_KAFKA_TOPPAR_F_UNKNOWN = 0) ->
  cnt_update_remove rkt None i s
  = Done tt
      (mk_state (st_rk s)
         (<[rkt := set_rkt_refcnt
                     (rkt_refcnt t - (if rktp_refcnt p =? 1 then 1 else 0))
                     (set_rkt_desp
                        (rkt_desp t ++
                         (if Z.land (rktp_flags p) RD_KAFKA_TOPPAR_F_DESIRED =? 0
                          then [] else [a])) t)]> (topics s))
         (match shrunk p with
          | Some p' => <[a := p']> (toppars s)
          | None => delete a (toppars s)
          end)
         (brokers s) (st_errno s)).
Proof.
  intros Ht Hslot Hp Hr Hrkt Hrt Hflags. unfold cnt_update_remove.
  rewrite (bind_done _ _ _ _ _ (load_topic_done s rkt t Ht)). rewrite Hslot.
  set (p1 := set_rktp_msgq (rd_kafka_msgq_purge (rktp_msgq p)) p).
  set (s1 := set_toppars (<[a := p1]> (toppars s)) s).
  assert (Hpurge : (let* p := load_toppar a in
                    store_toppar a (set_rktp_msgq (rd_kafka_msgq_purge (rktp_msgq p)) p)) s
                   = Done tt s1)
    by (now rewrite (bind_done _ _ _ _ _ (load_toppar_done s a p Hp))).
  rewrite (bind_done _ _ _ _ _ Hpurge). clear Hpurge.
  assert (Hp1 : toppars s1 !! a = Some p1) by (subst s1; simpl; apply lookup_insert_eq).
  rewrite (bind_done _ _ _ _ _ (load_toppar_done s1 a p1 Hp1)).
  change (rktp_flags p1) with (rktp_flags p).
  unfold shrunk.
  destruct (Z.land (rktp_flags p) RD_KAFKA_TOPPAR_F_DESIRED =? 0) eqn:ED; cbn [negb].
  - (* not desired *)
    rewrite (bind_done _ _ s1 tt s1) by reflexivity.
    destruct (rktp_refcnt p =? 1) eqn:E.
    + apply Z.eqb_eq in E.
      rewrite (toppar_destroy_last a s1 p1 t Hp1);
        [| subst p1; simpl; lia | subst p1; simpl; now rewrite Hrkt | exact Hrt].
      f_equal. apply state_eq; simpl; try reflexivity.
      * rewrite Hrkt. f_equal. rewrite app_nil_r.
        destruct t; unfold set_rkt_refcnt, set_rkt_desp; reflexivity.
      * now rewrite delete_insert_eq.
    + apply Z.eqb_neq in E.
      rewrite (toppar_destroy_not_last a s1 p1 Hp1 ltac:(subst p1; simpl; lia)).
      f_equal. apply state_eq; simpl; try reflexivity.
      * symmetry. apply insert_id. rewrite Ht. f_equal. rewrite app_nil_r.
        destruct t; unfold set_rkt_refcnt, set_rkt_desp; simpl. f_equal. lia.
      * rewrite insert_insert_eq. reflexivity.
  - (* desired *)
    apply Z.eqb_neq in ED. rewrite (Hflags ED).
    set (p2 := set_rktp_flags (Z.lor (rktp_flags p) RD_KAFKA_TOPPAR_F_UNKNOWN) p1).
    set (t3 := set_rkt_desp (TAILQ_INSERT_TAIL (rkt_desp t) a) t).
    set (s3 := mk_state (st_rk s) (<[rkt := t3]> (topics s)) (<[a := p2]> (toppars s))
                        (brokers s) (st_errno s)).
    match goal with
    | |- bind ?blk _ s1 = _ => assert (Hblk : blk s1 = Done tt s3)
    end.
    { cbn [assert Z.eqb]. munfold. subst s1. mstep.
      f_equal. apply state_eq; simpl; try reflexivity.
      now rewrite insert_insert_eq. }
    rewrite (bind_done _ _ _ _ _ Hblk). clear Hblk.
    assert (Hp3 : toppars s3 !! a = Some p2) by (subst s3; simpl; apply lookup_insert_eq).
    destruct (rktp_refcnt p =? 1) eqn:E.
    + apply Z.eqb_eq in E.
      rewrite (toppar_destroy_last a s3 p2 t3 Hp3);
        [| subst p2 p1; simpl; lia
         | subst p2 p1 s3; simpl; rewrite Hrkt; apply lookup_insert_eq | exact Hrt].
      f_equal. apply state_eq; simpl; try reflexivity.
      * rewrite Hrkt. now rewrite insert_insert_eq.
      * now rewrite !delete_insert_eq.
    + apply Z.eqb_neq in E.
      rewrite (toppar_destroy_not_last a s3 p2 Hp3 ltac:(subst p2 p1; simpl; lia)).
      f_equal. apply state_eq; simpl; try reflexivity.
      * f_equal. subst t3. unfold TAILQ_INSERT_TAIL.
        destruct t; unfold set_rkt_refcnt, set_rkt_desp; simpl. f_equal. lia.
      * rewrite !insert_insert_eq. reflexivity.
Qed.

Lemma is_desired_ext s s' (l : list positive) :
  (forall a, a ∈ l -> toppars s' !! a = toppars s !! a) ->
  filter (fun a => is_desired s' a = true) l = filter (fun a => is_desired s a = true) l.
Proof.
  induction l as [|x l IH]; intros H; [reflexivity|].
  assert (E : is_desired s' x = is_desired s x)
    by (unfold is_desired; now rewrite (H x) by left).
  rewrite !filter_cons, IH by (intros a Ha; apply H; now right).
  destruct (decide (is_desired s' x = true)) as [D1|D1],
           (decide (is_desired s x = true)) as [D2|D2];
    rewrite E in D1; try reflexivity; contradiction.
Qed.

Lemma dropped_nil rkt s : dropped rkt [] s s.
Proof.
  repeat split; try reflexivity.
  - intros t Ht. rewrite Ht. f_equal.
    destruct t; unfold set_rkt_refcnt, set_rkt_desp, last_refs; simpl.
    rewrite app_nil_r. f_equal. lia.
  - intros a p Ha. inversion Ha.
Qed.

(** The second loop of a shrinking update, over any run of slot numbers. *)
Lemma shrink_all_run rkt t0 idx : forall s t,
  topics s !! rkt = Some t ->
  rkt_p t = rkt_p t0 ->
  (forall i, i ∈ idx -> exists a, rkt_p t0 !! i = Some (Some a)) ->
  NoDup (omap (fun i => mjoin (rkt_p t0 !! i)) idx) ->
  (forall a, a ∈ omap (fun i => mjoin (rkt_p t0 !! i)) idx ->
             exists p, toppars s !! a = Some p /\ 1 <= rktp_refcnt p /\ rktp_rkt p = rkt /\
                       (Z.land (rktp_flags p) RD_KAFKA_TOPPAR_F_DESIRED <> 0 ->
                        Z.land (rktp_flags p) RD_KAFKA_TOPPAR_F_UNKNOWN = 0)) ->
  Z.of_nat (length (omap (fun i => mjoin (rkt_p t0 !! i)) idx)) + 1 <= rkt_refcnt t ->
  exists s',
    cnt_update_shrink rkt None idx s = Done tt s' /\
    dropped rkt (omap (fun i => mjoin (rkt_p t0 !! i)) idx) s s'.
Proof.
  induction idx as [|i idx IH]; intros s t Ht Hparr Hidx Hnd Hlive Hrt.
  - exists s. split; [reflexivity | apply dropped_nil].
  - destruct (Hidx i) as [a Hx]; [left|].
    assert (Hidx' : forall j, j ∈ idx -> exists b, rkt_p t0 !! j = Some (Some b))
      by (intros j Hj; apply Hidx; now right).
    cbn [omap list_omap] in *. rewrite Hx in *. cbn [mjoin option_join] in *.
    cbn [cnt_update_shrink].
    apply NoDup_cons in Hnd. destruct Hnd as [Hna Hnd].
    destruct (Hlive a) as (p & Hp & Hr & Hrkt & Hfl); [left|].
    simpl in Hrt.
    assert (Hrun1 := shrink_one_run rkt i s t a p Ht ltac:(rewrite Hparr; exact Hx)
                       Hp Hr Hrkt ltac:(lia) Hfl).
    rewrite (bind_done _ _ _ _ _ Hrun1).
    match type of Hrun1 with
    | context [<[rkt := ?v]> (topics s)] => set (t1 := v) in *
    end.
    match type of Hrun1 with _ = Done tt ?x => set (s1 := x) in * end.
    assert (Ht1 : topics s1 !! rkt = Some t1) by (subst s1; simpl; apply lookup_insert_eq).
    assert (Hother : forall b, b <> a -> toppars s1 !! b = toppars s !! b).
    { intros b Hb. subst s1. simpl. destruct (shrunk p).
      - now rewrite lookup_insert_ne by congruence.
      - now rewrite lookup_delete_ne by congruence. }
    assert (Hat : toppars s1 !! a = shrunk p).
    { subst s1. simpl. destruct (shrunk p).
      - apply lookup_insert_eq.
      - apply lookup_delete_eq. }
    destruct (IH s1 t1) as (s' & Hrun & Hgo).
    + exact Ht1.
    + exact Hparr.
    + exact Hidx'.
    + exact Hnd.
    + intros b Hb. rewrite Hother by (intros ->; contradiction).
      apply Hlive. now right.
    + subst t1. simpl. destruct (rktp_refcnt p =? 1); lia.
    + exists s'. split; [exact Hrun|].
      destruct Hgo as (G1 & G2 & G3 & G4 & G5 & G6 & G7).
      assert (Hagree : forall b, b ∈ omap (fun i => mjoin (rkt_p t0 !! i)) idx ->
                                 toppars s1 !! b = toppars s !! b)
        by (intros b Hb; apply Hother; intros ->; contradiction).
      split; [exact G1|]. split; [exact G2|]. split; [exact G3|].
      split; [|split; [|split]].
      * intros x Hxr. rewrite (G4 x Hxr). subst s1. simpl.
        now rewrite lookup_insert_ne by congruence.
      * intros t' Ht'. rewrite Ht in Ht'. injection Ht' as <-.
        rewrite (G5 t1 Ht1), (last_refs_ext s s1 _ Hagree), (is_desired_ext s s1 _ Hagree),
          (last_refs_cons s a _ p Hp).
        f_equal. rewrite filter_cons.
        assert (Ed : is_desired s a
                     = negb (Z.land (rktp_flags p) RD_KAFKA_TOPPAR_F_DESIRED =? 0))
          by (unfold is_desired; now rewrite Hp).
        subst t1. unfold set_rkt_refcnt, set_rkt_desp. simpl.
        destruct (decide (is_desired s a = true)) as [D|D]; rewrite Ed in D;
          destruct (Z.land (rktp_flags p) RD_KAFKA_TOPPAR_F_DESIRED =? 0); simpl in D;
          try discriminate D; try (exfalso; now apply D);
          rewrite <- ?app_assoc; simpl; f_equal;
          destruct (rktp_refcnt p =? 1); lia.
      * intros b q Hb Hq. apply elem_of_cons in Hb. destruct Hb as [->|Hb].
        -- rewrite Hp in Hq. injection Hq as <-.
           rewrite (G7 a Hna). exact Hat.
        -- apply (G6 b q Hb). rewrite Hother; [exact Hq|]. intros ->. contradiction.
      * intros b Hb. apply not_elem_of_cons in Hb. destruct Hb as [Hba Hb].
        rewrite (G7 b Hb). now apply Hother.
Qed.

(** X17: a partition count update that lowers the count of a known topic
    from [old] to [new], when the slots [new, old) hold distinct live
    partitions of the topic, none of them both DESIRED and UNKNOWN, and the
    topic has a reference beyond one per dropped partition.  The update
    returns 1.  The array is the first [new] slots of the old one and the
    count is [new]; every dropped partition has an empty queue and one
    reference fewer, with UNKNOWN set if it is DESIRED, and is freed if that
    was its only reference; the DESIRED ones are appended to the desired list
    in slot order; the topic has lost exactly the references of the freed
    partitions; every other partition (the unassigned one too, which receives
    no message), the client handle and the brokers are as before.  If every
    slot held the partition with the id of the slot before, so it is after. *)
Theorem cnt_update_shrink_drops_slots :
  forall s topic new rkt s1 t,
    rd_kafka_topic_find topic s = Done (Some rkt) s1 ->
    topics s !! rkt = Some t ->
    0 <= new < rkt_partition_cnt t ->
    (Z.to_nat (rkt_partition_cnt t) <= length (rkt_p t))%nat ->
    (forall i, (Z.to_nat new <= i < Z.to_nat (rkt_partition_cnt t))%nat ->
               exists a, rkt_p t !! i = Some (Some a)) ->
    NoDup (slot_toppars t (Z.to_nat new) (Z.to_nat (rkt_partition_cnt t))) ->
    (forall a, a ∈ slot_toppars t (Z.to_nat new) (Z.to_nat (rkt_partition_cnt t)) ->
       exists p, toppars s !! a = Some p /\ 1 <= rktp_refcnt p /\ rktp_rkt p = rkt /\
                 (Z.land (rktp_flags p) RD_KAFKA_TOPPAR_F_DESIRED <> 0 ->
                  Z.land (rktp_flags p) RD_KAFKA_TOPPAR_F_UNKNOWN = 0)) ->
    Z.of_nat (length (slot_toppars t (Z.to_nat new) (Z.to_nat (rkt_partition_cnt t)))) + 1
    <= rkt_refcnt t ->
    exists s',
      rd_kafka_topic_partition_cnt_update topic new s = Done 1 s' /\
      topics s'
      = <[rkt := mk_topic (rkt_topic t) (rkt_conf t) (take (Z.to_nat new) (rkt_p t)) new
                   (rkt_ua t)
                   (rkt_desp t ++
                    filter (fun a => is_desired s a = true)
                           (slot_toppars t (Z.to_nat new) (Z.to_nat (rkt_partition_cnt t))))
                   (rkt_refcnt t
                    - last_refs s (slot_toppars t (Z.to_nat new)
                                                (Z.to_nat (rkt_partition_cnt t))))]>
          (topics s) /\
      (forall a p,
          a ∈ slot_toppars t (Z.to_nat new) (Z.to_nat (rkt_partition_cnt t)) ->
          toppars s !! a = Some p -> toppars s' !! a = shrunk p) /\
      (forall a,
          a ∉ slot_toppars t (Z.to_nat new) (Z.to_nat (rkt_partition_cnt t)) ->
          toppars s' !! a = toppars s !! a) /\
      st_rk s' = st_rk s /\ brokers s' = brokers s /\
      (slots_ok s t -> forall t', topics s' !! rkt = Some t' -> slots_ok s' t').
Proof.
  intros s topic new rkt s1 t Hfind Ht Hnew Hlen Hslots Hnd Hlive Hrt.
  set (n := Z.to_nat new) in *.
  set (o := Z.to_nat (rkt_partition_cnt t)) in *.
  unfold slot_toppars in *.
  set (l := omap (fun i => mjoin (rkt_p t !! i)) (seq n (o - n))) in *.
  unfold rd_kafka_topic_partition_cnt_update.
  rewrite (bind_done _ _ _ _ _ Hfind).
  apply rd_kafka_topic_find_inv in Hfind.
  destruct Hfind as (_ & t0 & Ht0 & _ & ->).
  rewrite Ht in Ht0. injection Ht0 as <-.
  set (t1 := set_rkt_refcnt (rkt_refcnt t + 1) t).
  set (s1 := set_topics _ s).
  assert (Ht1 : topics s1 !! rkt = Some t1) by (subst s1; simpl; apply lookup_insert_eq).
  rewrite (bind_done _ _ _ _ _ (load_topic_done s1 rkt t1 Ht1)).
  replace (rkt_partition_cnt t1 =? new) with false by (symmetry; apply Z.eqb_neq; simpl; lia).
  (* the slots that stay *)
  fold n.
  rewrite (bind_done _ _ _ _ _
             (assign_keep_run rkt s1 t1 (seq 0 n) (replicate n None) Ht1
                ltac:(intros i Hi; apply elem_of_seq in Hi; subst n o; simpl; lia))).
  change (rkt_p t1) with (rkt_p t).
  rewrite (copy_slots (rkt_p t) n n ltac:(lia) ltac:(subst n o; lia)).
  rewrite Nat.sub_diag. simpl replicate. rewrite app_nil_r.
  (* no unassigned partition is found *)
  assert (Hmiss : rd_kafka_toppar_get rkt RD_KAFKA_PARTITION_UA 0 s1 = Done None s1).
  { apply (toppar_get_miss rkt _ s1 t1 Ht1). unfold RD_KAFKA_PARTITION_UA. lia. }
  rewrite (bind_done _ _ _ _ _ Hmiss).
  rewrite (bind_done _ _ _ _ _ (load_topic_done s1 rkt t1 Ht1)).
  change (Z.to_nat (rkt_partition_cnt t1)) with o.
  (* the slots that go *)
  destruct (shrink_all_run rkt t (seq n (o - n)) s1 t1 Ht1 eq_refl)
    as (s2 & Hloop & G1 & G2 & G3 & G4 & G5 & G6 & G7).
  { intros i Hi. apply elem_of_seq in Hi. apply Hslots. lia. }
  { exact Hnd. }
  { exact Hlive. }
  { fold l. subst t1. simpl. lia. }
  fold l in Hloop, G5, G6, G7.
  rewrite (bind_done _ _ _ _ _ Hloop).
  rewrite (bind_done _ _ s2 tt s2) by reflexivity.
  assert (Hla : last_refs s1 l = last_refs s l) by (apply last_refs_ext; reflexivity).
  assert (Hda : filter (fun a => is_desired s1 a = true) l
                = filter (fun a => is_desired s a = true) l)
    by (apply is_desired_ext; reflexivity).
  pose proof (last_refs_bounds s l) as Hb.
  specialize (G5 t1 Ht1). rewrite Hla, Hda in G5.
  rewrite (bind_done _ _ _ _ _ (load_topic_done s2 rkt _ G5)).
  unfold bind at 1. unfold store_topic at 1.
  erewrite (bind_done _ _ _ tt);
    [| apply topic_destroy_not_last; [simpl; apply lookup_insert_eq | subst t1; simpl; lia]].
  eexists. split; [reflexivity|]. cbn [topics toppars st_rk brokers set_topics].
  split; [|split; [|split; [|split; [|split]]]].
  - rewrite !insert_insert_eq. apply map_eq. intros x.
    rewrite !lookup_insert. destruct (decide (rkt = x)) as [|Hx].
    + f_equal. subst t1. unfold set_rkt_refcnt, set_rkt_parts, set_rkt_desp. simpl.
      f_equal. lia.
    + rewrite G4 by congruence. subst s1. simpl. now rewrite lookup_insert_ne.
  - intros a p Ha Hp. now apply G6.
  - intros a Ha. now apply G7.
  - exact G1.
  - exact G2.
  - intros Hok t' Ht'. rewrite !insert_insert_eq, lookup_insert_eq in Ht'.
    injection Ht' as <-. intros i Hi. cbn [rkt_partition_cnt rkt_p set_rkt_refcnt
                                          set_rkt_parts set_rkt_desp] in Hi |- *.
    destruct (Hok i ltac:(lia)) as (a & p & Hslot & Hp & Hid).
    exists a, p. split; [|split; [|exact Hid]].
    + rewrite lookup_take_lt by (subst n; lia). exact Hslot.
    + rewrite G7; [exact Hp|]. intros Hin. subst l.
      apply list_elem_of_omap in Hin. destruct Hin as (j & Hj & Hjs).
      apply elem_of_seq in Hj.
      destruct (Hok (Z.of_nat j) ltac:(subst n o; lia)) as (b & q & Hsb & Hq & Hqid).
      rewrite Nat2Z.id in Hsb. rewrite Hsb in Hjs. simpl in Hjs. injection Hjs as ->.
      rewrite Hp in Hq. injection Hq as <-. subst n. lia.
Qed.

Lemma cnt_update_shrink_drops_slots_witness :
  exists s' t' p',
    rd_kafka_topic_partition_cnt_update "orders" 1 st_desired_known = Done 1 s' /\
    topics s' !! 1%positive = Some t' /\
    rkt_partition_cnt t' = 1 /\ rkt_p t' = [Some 2%positive] /\
    rkt_desp t' = [3%positive] /\
    toppars s' !! 3%positive = Some p' /\
    rktp_flags p' = Z.lor RD_KAFKA_TOPPAR_F_DESIRED RD_KAFKA_TOPPAR_F_UNKNOWN /\
    rktp_refcnt p' = 1.
Proof.
  assert (Ht : exists t, topics st_desired_known !! 1%positive = Some t /\
                         rkt_p t = [Some 2%positive; Some 3%positive] /\
                         rkt_partition_cnt t = 2 /\ rkt_desp t = [] /\ rkt_refcnt t = 4)
    by (eexists; split; [vm_compute; reflexivity|]; repeat split).
  destruct Ht as (t & Ht & Hparr & Hcnt & Hdesp & Hrc).
  assert (Hp3 : exists p, toppars st_desired_known !! 3%positive = Some p /\
                          rktp_refcnt p = 2 /\ rktp_rkt p = 1%positive /\
                          rktp_flags p = RD_KAFKA_TOPPAR_F_DESIRED)
    by (eexists; split; [vm_compute; reflexivity|]; repeat split).
  destruct Hp3 as (p3 & Hp3 & Hr3 & Hk3 & Hf3).
  assert (Hfind : rd_kafka_topic_find "orders" st_desired_known
                  = Done (Some 1%positive)
                         (exec (rd_kafka_topic_find "orders") st_desired_known))
    by (vm_compute; reflexivity).
  assert (Hl : slot_toppars t (Z.to_nat 1) (Z.to_nat (rkt_partition_cnt t)) = [3%positive])
    by (unfold slot_toppars; rewrite Hparr, Hcnt; reflexivity).
  destruct (cnt_update_shrink_drops_slots st_desired_known "orders" 1 1%positive _ t
              Hfind Ht) as (s' & Hrun & Htop & Hdrop & _).
  - lia.
  - rewrite Hparr, Hcnt. simpl. lia.
  - rewrite Hparr, Hcnt. intros i Hi.
    assert (i = 1%nat) by lia. subst i. now exists 3%positive.
  - rewrite Hl. apply NoDup_singleton.
  - rewrite Hl. intros a Ha. apply list_elem_of_singleton in Ha. subst a.
    exists p3. split; [exact Hp3|]. split; [lia|]. split; [exact Hk3|].
    intros _. rewrite Hf3. reflexivity.
  - rewrite Hl, Hrc. simpl. lia.
  - rewrite Hl in Htop, Hdrop.
    pose proof (Hdrop 3%positive p3 ltac:(left) Hp3) as H3.
    unfold shrunk in H3. rewrite Hr3, Hf3 in H3.
    eexists s', _, _. split; [exact Hrun|].
    split; [rewrite Htop; apply lookup_insert_eq|].
    split; [reflexivity|]. split; [simpl; now rewrite Hparr|].
    split; [|split; [exact H3|split; reflexivity]].
    simpl. rewrite Hdesp. simpl. rewrite filter_cons. unfold is_desired. rewrite Hp3, Hf3.
    reflexivity.
Defined.

(** ** The drain delivers *)

Section Deliver.

Variable partition_for : nat -> string -> Z -> rd_kafka_msg_t -> option Z.

(** On a fully populated array, the messages without destination are the
    ones the partitioner turns away. *)
Lemma rejects_no_destination s t ua rkm :
  parts_ok s t ua ->
  rejects partition_for t rkm = true <-> destination partition_for t rkm = None.
Proof.
  intros Hparts. unfold rejects, destination.
  destruct (partitioner (rkt_conf t)) as [f|]; [|tauto].
  destruct (partition_for f _ _ rkm) as [partition|]; [|tauto].
  destruct ((0 <=? partition) && (partition <? rkt_partition_cnt t)) eqn:E; simpl; [|tauto].
  apply andb_true_iff in E. destruct E as [H1 H2].
  apply Z.leb_le in H1. apply Z.ltb_lt in H2.
  destruct (Hparts partition (conj H1 H2)) as (a & q & Hi & _). rewrite Hi. simpl.
  split; discriminate.
Qed.

(** A message with a destination is appended to the queue of that partition;
    nothing else changes. *)
Lemma msg_partitioner_delivers rkt t rkm s a q :
  topics s !! rkt = Some t ->
  destination partition_for t rkm = Some a ->
  toppars s !! a = Some q ->
  1 <= rktp_refcnt q ->
  rd_kafka_msg_partitioner partition_for rkt rkm s
  = Done 0 (set_toppars
              (<[a := set_rktp_msgq (rd_kafka_msgq_enq (rktp_msgq q) rkm) q]> (toppars s)) s).
Proof.
  intros Ht Hd Hq Hr. unfold rd_kafka_msg_partitioner, destination in *.
  rewrite (bind_done _ _ _ _ _ (load_topic_done s rkt t Ht)).
  destruct (partitioner (rkt_conf t)) as [f|]; [|discriminate].
  destruct (partition_for f _ _ rkm) as [partition|]; [|discriminate].
  destruct ((0 <=? partition) && (partition <? rkt_partition_cnt t)) eqn:E; [|discriminate].
  apply andb_true_iff in E. destruct E as [H1 H2].
  apply Z.leb_le in H1. apply Z.ltb_lt in H2.
  destruct (rkt_p t !! Z.to_nat partition) as [[b|]|] eqn:Hi; try discriminate.
  simpl in Hd. injection Hd as ->.
  rewrite (bind_done _ _ _ _ _
             (toppar_get_hit rkt partition 0 s t a q Ht (conj H1 H2) Hi Hq)).
  unfold rd_kafka_toppar_enq_msg, rd_kafka_toppar_destroy.
  munfold. mstep. rewrite !insert_insert_eq. mfinish.
Qed.

(** The queue of the partition at [a] after the messages [msgs] have gone
    through the partitioner. *)
Lemma assign_uas_partition_delivers rkt t ua f msgs : forall s failed,
  topics s !! rkt = Some t ->
  partitioner (rkt_conf t) = Some f ->
  parts_ok s t ua ->
  exists s',
    assign_uas_partition partition_for rkt msgs failed s
    = Done (fold_left rd_kafka_msgq_enq
                      (filter (fun m => destination partition_for t m = None) msgs) failed)
           s' /\
    st_rk s' = st_rk s /\ topics s' = topics s /\ brokers s' = brokers s /\
    st_errno s' = st_errno s /\
    forall a,
      toppars s' !! a
      = (fun q => set_rktp_msgq
                    (fold_left rd_kafka_msgq_enq
                       (filter (fun m => destination partition_for t m = Some a) msgs)
                       (rktp_msgq q)) q) <$> toppars s !! a.
Proof.
  induction msgs as [|m msgs IH]; intros s failed Ht Hf Hparts; simpl.
  - exists s. repeat (split; [reflexivity|]). intros a.
    destruct (toppars s !! a) as [q|]; [|reflexivity]. simpl. now destruct q.
  - rewrite filter_cons.
    destruct (destination partition_for t m) as [a0|] eqn:Hd.
    + (* delivered *)
      assert (Hlive : exists q0, toppars s !! a0 = Some q0 /\ 1 <= rktp_refcnt q0).
      { unfold destination in Hd. rewrite Hf in Hd.
        destruct (partition_for f _ _ m) as [partition|]; [|discriminate].
        destruct ((0 <=? partition) && (partition <? rkt_partition_cnt t)) eqn:E;
          [|discriminate].
        apply andb_true_iff in E. destruct E as [H1 H2].
        apply Z.leb_le in H1. apply Z.ltb_lt in H2.
        destruct (Hparts partition (conj H1 H2)) as (b & q & Hi & _ & Hq & Hr).
        rewrite Hi in Hd. simpl in Hd. injection Hd as <-. now exists q. }
      destruct Hlive as (q0 & Hq0 & Hr0).
      rewrite (bind_done _ _ _ _ _ (msg_partitioner_delivers rkt t m s a0 q0 Ht Hd Hq0 Hr0)).
      destruct (decide (Some a0 = None)) as [D|_]; [discriminate D|].
      change (0 =? -1) with false. cbv iota.
      match goal with
      | |- context [assign_uas_partition _ _ _ _ ?x] => set (s1 := x)
      end.
      destruct (IH s1 failed) as (s' & Hrun & H1 & H2 & H3 & H4 & H5).
      * exact Ht.
      * exact Hf.
      * subst s1. apply (parts_ok_update s t ua a0 q0); [exact Hparts | exact Hq0 |].
        simpl. lia.
      * exists s'. split; [exact Hrun|]. repeat (split; [assumption|]).
        intros a. rewrite H5, filter_cons. subst s1. simpl. rewrite lookup_insert.
        destruct (decide (a0 = a)) as [<-|Hne].
        -- rewrite Hq0. destruct (decide _) as [_|D]; [reflexivity|].
           exfalso. apply D. exact Hd.
        -- destruct (decide _) as [D|_]; [|reflexivity].
           rewrite Hd in D. congruence.
    + (* turned away *)
      assert (Hrej : rejects partition_for t m = true)
        by (now apply (rejects_no_destination s t ua m Hparts)).
      rewrite (bind_done _ _ _ _ _ (msg_partitioner_rejects partition_for rkt t m s f Ht Hf Hrej)).
      destruct (decide (None = None)) as [_|D]; [|now destruct D].
      change (-1 =? -1) with true. cbv iota.
      destruct (IH s (rd_kafka_msgq_enq failed m) Ht Hf Hparts)
        as (s' & Hrun & H1 & H2 & H3 & H4 & H5).
      exists s'. split; [exact Hrun|]. repeat (split; [assumption|]).
      intros a. rewrite H5, filter_cons.
      destruct (decide _) as [D|_]; [|reflexivity].
      rewrite Hd in D. discriminate D.
Qed.

End Deliver.

Lemma msgq_enq_all l F :
  fold_left rd_kafka_msgq_enq l F
  = mk_msgq (rkmq_msgs F ++ l) (rkmq_msg_cnt F + Z.of_nat (length l))
            (rkmq_msg_bytes F + foldr (fun m acc => rkm_len m + acc) 0 l).
Proof.
  pose proof (msgq_enq_all_msgs l F) as H1.
  pose proof (msgq_enq_all_cnt l F) as H2.
  pose proof (msgq_enq_all_bytes l F) as H3.
  destruct (fold_left rd_kafka_msgq_enq l F). simpl in *. now subst.
Qed.

(** The requeue writes the unassigned partition only, and not its reference
    count. *)
Lemma requeue_frame ua failed s q :
  toppars s !! ua = Some q ->
  exists q',
    assign_uas_requeue ua failed s
    = Done tt (set_toppars (<[ua := q']> (toppars s)) s) /\
    rktp_refcnt q' = rktp_refcnt q.
Proof.
  intros Hq. unfold assign_uas_requeue. destruct (0 <? rkmq_msg_cnt failed).
  - rewrite (bind_done _ _ _ _ _ (load_toppar_done s ua q Hq)).
    eexists. split; [reflexivity|]. reflexivity.
  - exists q. split; [|reflexivity]. unfold ret. f_equal.
    apply state_eq; simpl; try reflexivity. symmetry. now apply insert_id.
Qed.

(** X18: the drain of the unassigned partition delivers, if its look-up
    finds the partition.  The look-up leaves [ua_on_miss] out.  With the value
    0 it misses: the drain returns, nothing is delivered and the store is as
    it was.  With any other value, on a topic with a
    partitioner, an unassigned partition and a fully populated array, every
    message of the unassigned queue for which the partitioner names a slot of
    the array ends at the tail of the queue of that slot's partition, behind
    the messages queued there, in the order the messages had in the
    unassigned queue; the counters of that queue grow by the number and the
    bytes of the messages delivered.  Nothing else of those partitions
    changes, and the topics and the client handle are as before. *)
Theorem assign_uas_delivers_in_order :
  forall partition_for ua_on_miss s topic rkt s1 t f ua pu,
    rd_kafka_topic_find topic s = Done (Some rkt) s1 ->
    topics s !! rkt = Some t ->
    1 <= rkt_refcnt t ->
    partitioner (rkt_conf t) = Some f ->
    rkt_ua t = Some ua ->
    toppars s !! ua = Some pu ->
    1 <= rktp_refcnt pu ->
    parts_ok s t ua ->
    (ua_on_miss = 0 ->
     rd_kafka_topic_assign_uas partition_for ua_on_miss topic s = Done tt s) /\
    (ua_on_miss <> 0 ->
     exists s',
      rd_kafka_topic_assign_uas partition_for ua_on_miss topic s = Done tt s' /\
      topics s' = topics s /\ st_rk s' = st_rk s /\
      forall a q,
        a <> ua -> toppars s !! a = Some q ->
        toppars s' !! a
        = Some (set_rktp_msgq
                  (mk_msgq
                     (rkmq_msgs (rktp_msgq q) ++
                      filter (fun m => destination partition_for t m = Some a)
                             (rkmq_msgs (rktp_msgq pu)))
                     (rkmq_msg_cnt (rktp_msgq q) +
                      Z.of_nat (length (filter
                                          (fun m => destination partition_for t m = Some a)
                                          (rkmq_msgs (rktp_msgq pu)))))
                     (rkmq_msg_bytes (rktp_msgq q) +
                      foldr (fun m acc => rkm_len m + acc) 0
                            (filter (fun m => destination partition_for t m = Some a)
                                    (rkmq_msgs (rktp_msgq pu)))))
                  q)).
Proof.
  intros pf uom s topic rkt s1 t f ua pu Hfind Ht Hrt Hf Hua Hp Hrp Hparts.
  split.
  { intros E.
    exact (assign_uas_miss pf uom s topic rkt s1 t Hfind Ht Hrt (or_introl E)). }
  intros Hmiss.
  unfold rd_kafka_topic_assign_uas.
  rewrite (bind_done _ _ _ _ _ Hfind).
  apply rd_kafka_topic_find_inv in Hfind.
  destruct Hfind as (_ & t0 & Ht0 & _ & ->).
  rewrite Ht in Ht0. injection Ht0 as <-.
  set (t1 := set_rkt_refcnt (rkt_refcnt t + 1) t).
  set (s1 := set_topics _ s).
  assert (Ht1 : topics s1 !! rkt = Some t1) by (subst s1; simpl; apply lookup_insert_eq).
  rewrite (bind_done _ _ _ _ _
             (toppar_get_ua_done rkt uom s1 t1 ua pu Hmiss Ht1 Hua Hp)).
  set (p2 := set_rktp_refcnt (rktp_refcnt pu + 1) pu).
  set (s2 := set_toppars _ s1).
  assert (Hp2 : toppars s2 !! ua = Some p2) by (subst s2; simpl; apply lookup_insert_eq).
  rewrite (bind_done _ _ _ _ _ (load_toppar_done s2 ua p2 Hp2)).
  cbn [rd_kafka_msgq_move fst snd].
  unfold bind at 1. unfold store_toppar at 1.
  set (p3 := set_rktp_msgq rd_kafka_msgq_init p2).
  set (s3 := set_toppars _ s2).
  assert (Hp3 : toppars s3 !! ua = Some p3) by (subst s3; simpl; apply lookup_insert_eq).
  assert (Hparts3 : parts_ok s3 t1 ua).
  { intros i Hi. destruct (Hparts i Hi) as (a & q & Ha & Hne & Hq & Hr).
    exists a, q. subst s3 s2 s1. simpl. rewrite !lookup_insert_ne by congruence.
    now repeat split. }
  destruct (assign_uas_partition_delivers pf rkt t1 ua f (rkmq_msgs (rktp_msgq p2))
              s3 rd_kafka_msgq_init Ht1 Hf Hparts3)
    as (s4 & Hloop & Hrk4 & Htop4 & Hbk4 & He4 & Hpp4).
  rewrite (bind_done _ _ _ _ _ Hloop).
  change (rkmq_msgs (rktp_msgq p2)) with (rkmq_msgs (rktp_msgq pu)) in *.
  change (fun m => destination pf t1 m = None)
    with (fun m => destination pf t m = None) in *.
  assert (Hp4 : exists p4, toppars s4 !! ua = Some p4 /\ rktp_refcnt p4 = rktp_refcnt pu + 1).
  { rewrite (Hpp4 ua), Hp3. simpl. eexists. split; reflexivity. }
  destruct Hp4 as (p4 & Hp4 & Hr4).
  match goal with
  | |- context [assign_uas_requeue ua ?fl] =>
      destruct (requeue_frame ua fl s4 p4 Hp4) as (p5 & Hreq & Hr5)
  end.
  rewrite (bind_done _ _ _ _ _ Hreq).
  set (s5 := set_toppars _ s4).
  assert (Hp5 : toppars s5 !! ua = Some p5) by (subst s5; simpl; apply lookup_insert_eq).
  rewrite (bind_done _ _ _ _ _ (toppar_destroy_not_last ua s5 p5 Hp5 ltac:(lia))).
  erewrite topic_destroy_not_last;
    [| simpl; rewrite Htop4; exact Ht1 | subst t1; simpl; lia].
  eexists. split; [reflexivity|]. subst s5.
  cbn [topics toppars st_rk set_topics set_toppars].
  split; [|split].
  - rewrite Htop4. subst s3 s2 s1. simpl. rewrite insert_insert_eq.
    apply insert_id. rewrite Ht. f_equal. symmetry. apply set_rkt_refcnt_back. simpl. lia.
  - rewrite Hrk4. reflexivity.
  - intros a q Hne Hq. rewrite !lookup_insert_ne by congruence.
    rewrite (Hpp4 a). subst s3 s2 s1. simpl. rewrite !lookup_insert_ne by congruence.
    rewrite Hq. simpl. f_equal. f_equal. apply msgq_enq_all.
Qed.

Lemma assign_uas_delivers_in_order_witness :
  exists s' p',
    rd_kafka_topic_assign_uas by_length 1 "orders" st_unassigned = Done tt s' /\
    toppars s' !! 3%positive = Some p' /\
    rktp_msgq p' = mk_msgq [msg_a; msg_c] 2 4.
Proof.
  destruct (topics st_unassigned !! 1%positive) as [t|] eqn:Ht;
    [|vm_compute in Ht; discriminate Ht].
  destruct (toppars st_unassigned !! 1%positive) as [p|] eqn:Hp;
    [|vm_compute in Hp; discriminate Hp].
  destruct (toppars st_unassigned !! 3%positive) as [q|] eqn:Hq;
    [|vm_compute in Hq; discriminate Hq].
  assert (Hfind : rd_kafka_topic_find "orders" st_unassigned
                  = Done (Some 1%positive)
                         (exec (rd_kafka_topic_find "orders") st_unassigned))
    by (vm_compute; reflexivity).
  destruct (assign_uas_delivers_in_order by_length 1 st_unassigned "orders" 1%positive
              _ t 0%nat 1%positive p Hfind Ht) as (_ & Hfound);
    [..| destruct (Hfound ltac:(discriminate)) as (s' & Hrun & _ & _ & Hdel)].
  - vm_compute in Ht. injection Ht as <-. simpl. lia.
  - vm_compute in Ht. injection Ht as <-. reflexivity.
  - vm_compute in Ht. injection Ht as <-. reflexivity.
  - exact Hp.
  - vm_compute in Hp. injection Hp as <-. simpl. lia.
  - vm_compute in Ht. injection Ht as <-. intros i Hi. simpl in Hi.
    assert (Hi' : i = 0 \/ i = 1) by lia.
    destruct Hi' as [-> | ->]; eexists _, _;
      (split; [reflexivity|]); (split; [discriminate|]);
      (split; [vm_compute; reflexivity|]); simpl; lia.
  - eexists s', _. split; [exact Hrun|].
    split; [apply (Hdel 3%positive q); [discriminate | exact Hq]|].
    vm_compute in Ht, Hp, Hq. injection Ht as <-. injection Hp as <-. injection Hq as <-.
    reflexivity.
Defined.

(** ** Moving the queue of one partition to another *)

(** X19: [rd_kafka_toppar_move_msgs] between two different live partitions.
    The messages of the source are at the tail of the destination's queue,
    behind those queued there and in their order; the destination's counters
    are the sums; the source's queue is empty; the reference taken on the
    source is given back; nothing else changes.  Counters that agreed with
    the contents before agree afterwards. *)
Theorem move_msgs_splices :
  forall dst src s d p,
    dst <> src ->
    toppars s !! dst = Some d ->
    toppars s !! src = Some p ->
    1 <= rktp_refcnt p ->
    rd_kafka_toppar_move_msgs dst src s
    = Done tt
        (set_toppars
           (<[src := set_rktp_msgq rd_kafka_msgq_init p]>
              (<[dst := set_rktp_msgq
                          (mk_msgq (rkmq_msgs (rktp_msgq d) ++ rkmq_msgs (rktp_msgq p))
                                   (rkmq_msg_cnt (rktp_msgq d) + rkmq_msg_cnt (rktp_msgq p))
                                   (rkmq_msg_bytes (rktp_msgq d)
                                    + rkmq_msg_bytes (rktp_msgq p)))
                          d]> (toppars s))) s) /\
    (msgq_wf (rktp_msgq d) -> msgq_wf (rktp_msgq p) ->
     msgq_wf (mk_msgq (rkmq_msgs (rktp_msgq d) ++ rkmq_msgs (rktp_msgq p))
                      (rkmq_msg_cnt (rktp_msgq d) + rkmq_msg_cnt (rktp_msgq p))
                      (rkmq_msg_bytes (rktp_msgq d) + rkmq_msg_bytes (rktp_msgq p)))).
Proof.
  intros dst src s d p Hne Hd Hp Hr. split.
  - unfold rd_kafka_toppar_move_msgs, rd_kafka_toppar_keep, rd_kafka_toppar_destroy,
      rd_kafka_msgq_concat.
    munfold. mstep. cbn [fst snd]. mstep.
    f_equal. apply state_eq; simpl; try reflexivity.
    rewrite !insert_insert_eq.
    rewrite (insert_insert_ne _ src dst) by congruence. rewrite insert_insert_eq.
    rewrite (insert_insert_ne _ dst src) by congruence.
    f_equal. destruct p; unfold set_rktp_msgq, set_rktp_refcnt; simpl. f_equal. lia.
  - intros H1 H2. exact (msgq_wf_concat (rktp_msgq d) (rktp_msgq p) H1 H2).
Qed.

Lemma move_msgs_splices_witness :
  exists s' d' p',
    rd_kafka_toppar_move_msgs 1%positive 4%positive st_shrink = Done tt s' /\
    toppars s' !! 1%positive = Some d' /\ rktp_msgq d' = mk_msgq [msg_a; msg_b] 2 3 /\
    toppars s' !! 4%positive = Some p' /\ rktp_msgq p' = rd_kafka_msgq_init.
Proof.
  destruct (toppars st_shrink !! 1%positive) as [d|] eqn:Hd;
    [|vm_compute in Hd; discriminate Hd].
  destruct (toppars st_shrink !! 4%positive) as [p|] eqn:Hp;
    [|vm_compute in Hp; discriminate Hp].
  destruct (move_msgs_splices 1%positive 4%positive st_shrink d p) as [Hrun _].
  - discriminate.
  - exact Hd.
  - exact Hp.
  - vm_compute in Hp. injection Hp as <-. simpl. lia.
  - eexists _, _, _. split; [exact Hrun|].
    split; [simpl; rewrite lookup_insert_ne by discriminate; apply lookup_insert_eq|].
    split; [vm_compute in Hd, Hp; injection Hd as <-; injection Hp as <-; reflexivity|].
    split; [simpl; apply lookup_insert_eq | reflexivity].
Defined.

(** ** Leader updates that bring no news *)

(** The broker look-up does not read the topics. *)
Lemma broker_scan_set_topics l nodeid m s :
  broker_scan l nodeid (set_topics m s)
  = match broker_scan l nodeid s with
    | Done r s' => Done r (set_topics m s')
    | Crashed c => Crashed c
    end.
Proof.
  induction l as [|a l IH]; simpl; [reflexivity|].
  unfold bind at 1 3. unfold load_broker. cbn [brokers set_topics].
  destruct (brokers s !! a) as [b|] eqn:Hb; [|reflexivity].
  destruct (rkb_nodeid b =? nodeid); [|exact IH].
  unfold rd_kafka_broker_keep. munfold. cbn [brokers set_topics]. rewrite Hb. reflexivity.
Qed.

(** X20: a leader update that names the broker which already leads the
    partition changes nothing at all: the references taken by the three
    look-ups (topic, broker, partition) are all given back, no list is
    touched and no leader query is scheduled. *)
Theorem topic_update_same_leader_noop :
  forall s topic partition leader rkt s1 t rktp p b sb,
    rd_kafka_topic_find topic s = Done (Some rkt) s1 ->
    topics s !! rkt = Some t ->
    1 <= rkt_refcnt t ->
    0 <= partition < rkt_partition_cnt t ->
    rkt_p t !! Z.to_nat partition = Some (Some rktp) ->
    toppars s !! rktp = Some p ->
    1 <= rktp_refcnt p ->
    rktp_leader p = Some b ->
    rd_kafka_broker_find_by_nodeid leader s = Done (Some b) sb ->
    leader <> -1 ->
    rd_kafka_topic_update topic partition leader s = Done tt s.
Proof.
  intros s topic partition leader rkt s1 t rktp p b sb Hfind Ht Hrt Hr Hi Hp Hrp Hl Hfb Hm1.
  unfold rd_kafka_topic_update.
  rewrite (bind_done _ _ _ _ _ Hfind).
  apply rd_kafka_topic_find_inv in Hfind.
  destruct Hfind as (_ & t0 & Ht0 & _ & ->).
  rewrite Ht in Ht0. injection Ht0 as <-.
  set (t1 := set_rkt_refcnt (rkt_refcnt t + 1) t).
  pose proof Hfb as Hinv. apply broker_scan_inv in Hinv.
  destruct Hinv as (_ & rb & Hrb & _ & ->).
  set (rb1 := set_rkb_refcnt (rkb_refcnt rb + 1) rb).
  assert (Hfb1 : rd_kafka_broker_find_by_nodeid leader
                   (set_topics (<[rkt := t1]> (topics s)) s)
                 = Done (Some b)
                        (mk_state (st_rk s) (<[rkt := t1]> (topics s)) (toppars s)
                                  (<[b := rb1]> (brokers s)) (st_errno s))).
  { unfold rd_kafka_broker_find_by_nodeid, bind, get_rk in Hfb |- *.
    cbn [st_rk set_topics]. rewrite broker_scan_set_topics, Hfb. reflexivity. }
  rewrite (bind_done _ _ _ _ _ Hfb1). clear Hfb1.
  set (s2 := mk_state _ _ _ _ _).
  assert (Ht2 : topics s2 !! rkt = Some t1) by (subst s2; simpl; apply lookup_insert_eq).
  assert (Hp2 : toppars s2 !! rktp = Some p) by exact Hp.
  rewrite (bind_done _ _ _ _ _
             (toppar_get_hit rkt partition 0 s2 t1 rktp p Ht2 Hr Hi Hp2)).
  set (p3 := set_rktp_refcnt (rktp_refcnt p + 1) p).
  set (s3 := set_toppars _ s2).
  assert (Hp3 : toppars s3 !! rktp = Some p3) by (subst s3; simpl; apply lookup_insert_eq).
  simpl assert. rewrite (bind_done _ _ s3 tt s3) by reflexivity.
  replace (leader =? -1) with false by (symmetry; now apply Z.eqb_neq).
  rewrite (bind_done _ _ _ _ _ (load_toppar_done s3 rktp p3 Hp3)).
  destruct (decide (rktp_leader p3 = Some b)) as [_|Hne]; [|now destruct Hne].
  assert (Hb3 : brokers s3 !! b = Some rb1) by (subst s3 s2; simpl; apply lookup_insert_eq).
  rewrite (bind_done _ _ _ _ _ (broker_destroy_done b s3 rb1 Hb3)).
  set (s4 := set_brokers _ s3).
  assert (Hp4 : toppars s4 !! rktp = Some p3) by exact Hp3.
  assert (Ht4 : topics s4 !! rkt = Some t1) by exact Ht2.
  rewrite (update_release_run rktp rkt s4 p3 t1 Hp4
             ltac:(subst p3; simpl; lia) Ht4 ltac:(subst t1; simpl; lia)).
  f_equal. apply state_eq; subst s4 s3 s2; simpl; try reflexivity.
  - rewrite insert_insert_eq. apply insert_id. rewrite Ht. f_equal.
    symmetry. apply set_rkt_refcnt_back. simpl. lia.
  - rewrite insert_insert_eq. apply insert_id. rewrite Hp. f_equal.
    destruct p; unfold set_rktp_refcnt; simpl. f_equal. lia.
  - rewrite insert_insert_eq. apply insert_id. rewrite Hrb. f_equal.
    destruct rb; unfold set_rkb_refcnt; simpl. f_equal. lia.
Qed.

Lemma topic_update_same_leader_noop_witness :
  rd_kafka_topic_update "orders" 0 1 st_queued = Done tt st_queued.
Proof.
  destruct (toppars st_queued !! 2%positive) as [p|] eqn:Hp;
    [|vm_compute in Hp; discriminate Hp].
  destruct (topics st_queued !! 1%positive) as [t|] eqn:Ht;
    [|vm_compute in Ht; discriminate Ht].
  assert (Hfind : rd_kafka_topic_find "orders" st_queued
                  = Done (Some 1%positive) (exec (rd_kafka_topic_find "orders") st_queued))
    by (vm_compute; reflexivity).
  assert (Hfb : rd_kafka_broker_find_by_nodeid 1 st_queued
                = Done (Some 1%positive)
                       (exec (rd_kafka_broker_find_by_nodeid 1) st_queued))
    by (vm_compute; reflexivity).
  apply (topic_update_same_leader_noop st_queued "orders" 0 1 1%positive _ t 2%positive p
           1%positive (exec (rd_kafka_broker_find_by_nodeid 1) st_queued) Hfind Ht).
  - vm_compute in Ht. injection Ht as <-. simpl. lia.
  - vm_compute in Ht. injection Ht as <-. simpl. lia.
  - vm_compute in Ht. injection Ht as <-. reflexivity.
  - exact Hp.
  - vm_compute in Hp. injection Hp as <-. simpl. lia.
  - vm_compute in Hp. injection Hp as <-. reflexivity.
  - exact Hfb.
  - discriminate.
Defined.

(** ** Slots keep the ids of their partitions *)

(** X21: a partition count update that raises the count of a known topic
    returns 1 and leaves the topic with the new count; and if every slot held
    the live partition with the id of the slot before, then so does every
    slot afterwards, the new ones included: a new slot holds the partition of
    the desired list with that id, or a new partition made with that id. *)
Theorem cnt_update_grow_keeps_slot_ids :
  forall s topic new rkt s1 t,
    rd_kafka_topic_find topic s = Done (Some rkt) s1 ->
    topics s !! rkt = Some t ->
    1 <= rkt_refcnt t ->
    0 <= rkt_partition_cnt t < new ->
    (Z.to_nat (rkt_partition_cnt t) <= length (rkt_p t))%nat ->
    desp_ok s t ->
    slots_ok s t ->
    exists s' t',
      rd_kafka_topic_partition_cnt_update topic new s = Done 1 s' /\
      topics s' !! rkt = Some t' /\
      rkt_partition_cnt t' = new /\
      slots_ok s' t'.
Proof.
  intros s topic new rkt s1 t Hfind Ht Hrt Hcnt Hlen Hok Hids.
  unfold rd_kafka_topic_partition_cnt_update.
  rewrite (bind_done _ _ _ _ _ Hfind).
  apply rd_kafka_topic_find_inv in Hfind.
  destruct Hfind as (_ & t0 & Ht0 & _ & ->).
  rewrite Ht in Ht0. injection Ht0 as <-.
  set (t1 := set_rkt_refcnt (rkt_refcnt t + 1) t).
  set (s1 := set_topics _ s).
  assert (Ht1 : topics s1 !! rkt = Some t1) by (subst s1; simpl; apply lookup_insert_eq).
  rewrite (bind_done _ _ _ _ _ (load_topic_done s1 rkt t1 Ht1)).
  replace (rkt_partition_cnt t1 =? new) with false by (symmetry; apply Z.eqb_neq; simpl; lia).
  assert (Hok1 : desp_ok s1 t1) by exact Hok.
  set (n := Z.to_nat new).
  destruct (grow_loop s1 rkt t1 n Hok1 (proj1 Hcnt) Hlen n 0%nat s1 (replicate n None)
              ltac:(lia) (grow_inv_init s1 rkt t1 n Ht1 Hok1 (proj1 Hcnt)) (length_replicate _ _))
    as (rktps & s2 & Hloop & ((t2 & Ht2 & Hcnt2 & Hp2 & Hrc2 & Hnd2 & Hmem2) & Hpp & Hslots)
        & Hn).
  rewrite (bind_done _ _ _ _ _ Hloop).
  assert (Hmiss : rd_kafka_toppar_get rkt RD_KAFKA_PARTITION_UA 0 s2 = Done None s2).
  { apply (toppar_get_miss rkt _ s2 t2 Ht2). unfold RD_KAFKA_PARTITION_UA. lia. }
  rewrite (bind_done _ _ _ _ _ Hmiss).
  rewrite (bind_done _ _ _ _ _ (load_topic_done s2 rkt t2 Ht2)).
  replace (Z.to_nat (rkt_partition_cnt t2) - n)%nat with 0%nat
    by (rewrite Hcnt2; simpl; lia).
  cbn [seq cnt_update_shrink].
  rewrite (bind_done _ _ s2 tt s2) by reflexivity.
  rewrite (bind_done _ _ s2 tt s2) by reflexivity.
  rewrite (bind_done _ _ _ _ _ (load_topic_done s2 rkt t2 Ht2)).
  unfold bind at 1. unfold store_topic at 1.
  erewrite (bind_done _ _ _ tt);
    [|apply topic_destroy_not_last; [simpl; apply lookup_insert_eq | simpl in *; lia]].
  eexists _, _. split; [reflexivity|].
  cbn [topics set_topics toppars]. rewrite insert_insert_eq.
  split; [apply lookup_insert_eq|]. split; [reflexivity|].
  intros i Hi. cbn [rkt_partition_cnt rkt_p set_rkt_refcnt set_rkt_parts] in Hi |- *.
  destruct (Hslots (Z.to_nat i)) as [HK HN]; [subst n; lia|].
  rewrite Z2Nat.id in HK, HN by lia.
  destruct (decide (i < rkt_partition_cnt t)) as [Hold|Hnew].
  - (* a slot that was there *)
    destruct (Hids i ltac:(lia)) as (a & p & Hslot & Hp & Hid).
    exists a. eexists. split; [rewrite HK by (simpl; lia); exact Hslot|].
    split; [apply (Hpp a p Hp)|].
    destruct (bool_decide _); [unfold absorb; simpl|]; exact Hid.
  - (* a new slot *)
    destruct HN as [HH HM]; [simpl; lia|].
    destruct (desired_get_cases rkt i s1 t1 Ht1 (proj1 Hok1))
      as [(a & p & Ha & Hp & Hid & _)|[Hnone _]].
    + exists a. eexists. split; [exact (HH a p Ha Hp Hid)|].
      split; [apply (Hpp a p Hp)|].
      destruct (bool_decide _); [unfold absorb; simpl|]; exact Hid.
    + destruct (HM Hnone) as (a & Hslot & _ & Hfresh).
      exists a, (fresh_toppar rkt i). split; [exact Hslot|]. split; [exact Hfresh|].
      reflexivity.
Qed.

Lemma cnt_update_grow_keeps_slot_ids_witness :
  exists s' t',
    rd_kafka_topic_partition_cnt_update "orders" 5 st_desired_unseen = Done 1 s' /\
    topics s' !! 1%positive = Some t' /\
    rkt_partition_cnt t' = 5 /\
    slots_ok s' t'.
Proof.
  destruct st_desired_unseen_ok as (t & Ht & Hdesp & Hcnt & Hrc & Hok).
  assert (Hparr : rkt_p t = []).
  { assert (E : rkt_p <$> topics st_desired_unseen !! 1%positive = Some [])
      by (vm_compute; reflexivity).
    rewrite Ht in E. now injection E. }
  assert (Hfind : rd_kafka_topic_find "orders" st_desired_unseen
                  = Done (Some 1%positive)
                         (exec (rd_kafka_topic_find "orders") st_desired_unseen))
    by (vm_compute; reflexivity).
  apply (cnt_update_grow_keeps_slot_ids st_desired_unseen "orders" 5 1%positive _ t
           Hfind Ht).
  - lia.
  - lia.
  - rewrite Hcnt, Hparr. simpl. lia.
  - exact Hok.
  - intros i Hi. lia.
Defined.
